(** * vaul-svelte: the drawer's gesture logic, body lock and option defaults

    A shallow embedding of [src/lib/vaul]: the dampening curve
    ([dampenValue]), the option defaults of [createVaul] and of the Root
    component, the pointer handlers [onPress] / [onDrag] / [onRelease]
    with the permission test [shouldDrag], and the process-wide body lock
    of [usePositionFixed].

    Conventions.  A JavaScript number that only takes part in comparisons
    is a rational ([Q]) or, where a division by zero or [parseFloat] can
    produce them, a [num] with the two infinities and [NaN].  The
    dampening curve needs the logarithm and lives in [R].  DOM reads are
    inputs of a handler (an environment record), DOM writes and callbacks
    are its output (a list of effects), stores are fields of a state
    record. *)

From Stdlib Require Import ZArith QArith Qminmax Qabs Qreals Reals Lra Lia List String Ascii Bool.
From Stdlib Require DecimalString DecimalZ DecimalPos.
Import ListNotations.

(** ** The dampening curve *)

Module Dampen.
Local Open Scope R_scope.

(** [export function dampenValue(v) { return 8 * (Math.log(v + 1) - 2); }] *)
Definition dampenValue (v : R) : R := 8 * (ln (v + 1) - 2).

(** The slope of the curve at [v] is [8 / (v + 1)]: it is 1 at [v = 7]. *)
Definition unit_slope_point : R := 7.

Lemma ln_succ_lt (x : R) : 0 < x -> ln (1 + x) < x.
Proof.
  intros Hx.
  apply exp_lt_inv.
  rewrite exp_ln by lra.
  apply exp_ineq1; lra.
Qed.

Lemma ln_ratio (a b : R) : 0 < a -> 0 < b -> ln b - ln a = ln (b / a).
Proof.
  intros Ha Hb.
  unfold Rdiv.
  rewrite ln_mult by (try apply Rinv_0_lt_compat; assumption).
  rewrite ln_Rinv by assumption.
  ring.
Qed.

Lemma dampenValue_diff (v1 v2 : R) :
  0 <= v1 -> 0 <= v2 ->
  dampenValue v2 - dampenValue v1 = 8 * ln (1 + (v2 - v1) / (v1 + 1)).
Proof.
  intros H1 H2.
  unfold dampenValue.
  replace (8 * (ln (v2 + 1) - 2) - 8 * (ln (v1 + 1) - 2))
    with (8 * (ln (v2 + 1) - ln (v1 + 1))) by ring.
  rewrite ln_ratio by lra.
  f_equal. f_equal. field. lra.
Qed.

Lemma dampenValue_increasing (v1 v2 : R) :
  0 <= v1 -> v1 < v2 -> dampenValue v1 < dampenValue v2.
Proof.
  intros H1 H12.
  unfold dampenValue.
  assert (ln (v1 + 1) < ln (v2 + 1)) by (apply ln_increasing; lra).
  lra.
Qed.

Lemma dampenValue_sublinear_from_7 (v1 v2 : R) :
  unit_slope_point <= v1 -> v1 < v2 ->
  dampenValue v2 - dampenValue v1 < v2 - v1.
Proof.
  unfold unit_slope_point.
  intros H1 H12.
  rewrite dampenValue_diff by lra.
  set (x := (v2 - v1) / (v1 + 1)).
  assert (Hx : 0 < x).
  { unfold x. apply Rdiv_lt_0_compat; lra. }
  assert (Hln : ln (1 + x) < x) by (apply ln_succ_lt; exact Hx).
  assert (H8 : 8 * x <= v2 - v1).
  { unfold x.
    replace (8 * ((v2 - v1) / (v1 + 1))) with ((v2 - v1) * (8 / (v1 + 1)))
      by (field; lra).
    rewrite <- (Rmult_1_r (v2 - v1)) at 2.
    apply Rmult_le_compat_l; [lra|].
    apply Rmult_le_reg_r with (v1 + 1); [lra|].
    unfold Rdiv. rewrite Rmult_assoc, Rinv_l by lra. lra. }
  lra.
Qed.

(** C1 (as amended).  [dampenValue v] is [8 * (ln (v + 1) - 2)]; it is
    strictly increasing on the drag distances [v >= 0]; and from
    [v1 >= 7] on (where the slope [8 / (v + 1)] has dropped to 1) it
    grows strictly slower than the identity:
    [dampenValue v2 - dampenValue v1 < v2 - v1] for [7 <= v1 < v2]. *)
Theorem dampenValue_monotone_sublinear :
  (forall v, dampenValue v = 8 * (ln (v + 1) - 2)) /\
  (forall v1 v2, 0 <= v1 -> v1 < v2 -> dampenValue v1 < dampenValue v2) /\
  (forall v1 v2, unit_slope_point <= v1 -> v1 < v2 ->
     dampenValue v2 - dampenValue v1 < v2 - v1).
Proof.
  split; [|split].
  - intros v. reflexivity.
  - exact dampenValue_increasing.
  - exact dampenValue_sublinear_from_7.
Qed.

(** The curve between 7 and 8: it rises, by less than 1. *)
Lemma dampenValue_monotone_sublinear_witness :
  dampenValue 7 < dampenValue 8 /\ dampenValue 8 - dampenValue 7 < 8 - 7.
Proof.
  destruct dampenValue_monotone_sublinear as [_ [Hinc Hsub]].
  split.
  - apply Hinc; lra.
  - apply Hsub; unfold unit_slope_point; lra.
Defined.

(** C1, counterexample.  As stated (for all [0 <= v1 < v2]) the
    slower-than-identity part fails at small distances: from 0 to 1 the
    curve rises by [8 * ln 2 > 4], more than the distance 1. *)
Lemma dampenValue_not_sublinear_near_0 :
  ~ (forall v1 v2, 0 <= v1 -> v1 < v2 ->
       dampenValue v2 - dampenValue v1 < v2 - v1).
Proof.
  intros H.
  specialize (H 0 1 (Rle_refl 0) Rlt_0_1).
  unfold dampenValue in H.
  replace (0 + 1) with 1 in H by ring.
  replace (1 + 1) with 2 in H by ring.
  rewrite ln_1 in H.
  pose proof ln_lt_2 as H2.
  lra.
Qed.

(** The bound 7 cannot be lowered: below it the curve is steeper than the
    identity over the whole stretch up to 7. *)
Lemma dampenValue_steeper_below_7 (v1 v2 : R) :
  0 <= v1 -> v1 < v2 -> v2 <= unit_slope_point ->
  v2 - v1 < dampenValue v2 - dampenValue v1.
Proof.
  unfold unit_slope_point.
  intros H1 H12 H2.
  (* symmetric to the case above: ln (v1+1) - ln (v2+1) < (v1-v2)/(v2+1) *)
  assert (Hd : dampenValue v2 - dampenValue v1
               = - (8 * ln (1 + (v1 - v2) / (v2 + 1)))).
  { unfold dampenValue.
    replace (8 * (ln (v2 + 1) - 2) - 8 * (ln (v1 + 1) - 2))
      with (- (8 * (ln (v1 + 1) - ln (v2 + 1)))) by ring.
    rewrite ln_ratio by lra.
    f_equal. f_equal. f_equal. field. lra. }
  rewrite Hd.
  set (x := (v1 - v2) / (v2 + 1)).
  assert (Hx : x < 0).
  { unfold x, Rdiv.
    replace ((v1 - v2) * / (v2 + 1)) with (- ((v2 - v1) * / (v2 + 1))) by ring.
    assert (0 < (v2 - v1) * / (v2 + 1)).
    { apply Rmult_lt_0_compat; [lra|apply Rinv_0_lt_compat; lra]. }
    lra. }
  assert (Hpos : 0 < 1 + x).
  { unfold x.
    replace (1 + (v1 - v2) / (v2 + 1)) with ((v1 + 1) / (v2 + 1)) by (field; lra).
    apply Rdiv_lt_0_compat; lra. }
  assert (Hln : ln (1 + x) < x).
  { apply exp_lt_inv. rewrite exp_ln by exact Hpos. apply exp_ineq1. lra. }
  assert (H8 : 8 * x <= v1 - v2).
  { unfold x.
    replace (8 * ((v1 - v2) / (v2 + 1))) with (- ((v2 - v1) * (8 / (v2 + 1))))
      by (field; lra).
    assert (v2 - v1 <= (v2 - v1) * (8 / (v2 + 1))).
    { rewrite <- (Rmult_1_r (v2 - v1)) at 1.
      apply Rmult_le_compat_l; [lra|].
      apply Rmult_le_reg_r with (v2 + 1); [lra|].
      unfold Rdiv. rewrite Rmult_assoc, Rinv_l by lra. lra. }
    lra. }
  lra.
Qed.

End Dampen.

(** ** Option defaults: [createVaul] and the Root component *)

Module Options.

(** A snap point is [number | string] (a fraction or a pixel count, or a
    string such as ["148px"]). *)
Inductive SnapPoint : Type :=
| SnapNum (q : Q)
| SnapStr (s : string).

(** A key of a JavaScript object literal: not there, there with the value
    [undefined], or there with a value. *)
Inductive field (A : Type) : Type :=
| Absent
| Undefined
| Val (a : A).
Arguments Absent {A}.
Arguments Undefined {A}.
Arguments Val {A} a.

(** Reading a key: [obj.k] is [undefined] for a key that is not there. *)
Definition read {A : Type} (f : field A) : option A :=
  match f with
  | Val a => Some a
  | Absent | Undefined => None
  end.

(** Callbacks are opaque handles. *)
Definition callback : Type := nat.

(** [CreateVaulProps], one field per key of the type. *)
Record CreateVaulProps : Type := mkProps {
  defaultActiveSnapPoint : field (option SnapPoint);
  onActiveSnapPointChange : field callback;
  defaultOpen : field bool;
  onOpenChange : field callback;
  closeThreshold : field Q;
  shouldScaleBackground : field bool;
  scrollLockTimeout : field Q;
  fixed : field bool;
  dismissible : field bool;
  onDrag : field callback;
  onRelease : field callback;
  modal : field bool;
  nested : field bool;
  onClose : field callback;
  snapPoints : field (list SnapPoint);
  fadeFromIndex : field Z
}.

Definition CLOSE_THRESHOLD : Q := 0.25.
Definition SCROLL_LOCK_TIMEOUT : Q := 100.

(** [const defaultProps = { closeThreshold: CLOSE_THRESHOLD,
    shouldScaleBackground: true, ..., onClose: undefined }]: every key is
    there, nine of them with the value [undefined]. *)
Definition defaultProps : CreateVaulProps := {|
  closeThreshold := Val CLOSE_THRESHOLD;
  shouldScaleBackground := Val true;
  scrollLockTimeout := Val SCROLL_LOCK_TIMEOUT;
  onDrag := Undefined;
  onRelease := Undefined;
  snapPoints := Undefined;
  fadeFromIndex := Undefined;
  defaultActiveSnapPoint := Undefined;
  onActiveSnapPointChange := Undefined;
  defaultOpen := Val false;
  onOpenChange := Undefined;
  fixed := Undefined;
  dismissible := Val true;
  modal := Val true;
  nested := Val false;
  onClose := Undefined
|}.

(** Modelled from the spec: [removeUndefined] is imported from
    [$lib/internal/helpers], which is not among the sources; the
    configuration defaults of the spec (§6: an option the caller leaves
    unset takes its default) fix it as dropping every key whose value is
    [undefined]. *)
Definition drop_undefined {A : Type} (f : field A) : field A :=
  match f with
  | Undefined => Absent
  | other => other
  end.

Definition removeUndefined (p : CreateVaulProps) : CreateVaulProps := {|
  defaultActiveSnapPoint := drop_undefined (defaultActiveSnapPoint p);
  onActiveSnapPointChange := drop_undefined (onActiveSnapPointChange p);
  defaultOpen := drop_undefined (defaultOpen p);
  onOpenChange := drop_undefined (onOpenChange p);
  closeThreshold := drop_undefined (closeThreshold p);
  shouldScaleBackground := drop_undefined (shouldScaleBackground p);
  scrollLockTimeout := drop_undefined (scrollLockTimeout p);
  fixed := drop_undefined (fixed p);
  dismissible := drop_undefined (dismissible p);
  onDrag := drop_undefined (onDrag p);
  onRelease := drop_undefined (onRelease p);
  modal := drop_undefined (modal p);
  nested := drop_undefined (nested p);
  onClose := drop_undefined (onClose p);
  snapPoints := drop_undefined (snapPoints p);
  fadeFromIndex := drop_undefined (fadeFromIndex p)
|}.

(** One key of [{ ...a, ...b }]: a key that is there in [b] wins, also
    when its value is [undefined]. *)
Definition over {A : Type} (a b : field A) : field A :=
  match b with
  | Absent => a
  | there => there
  end.

(** [{ ...a, ...b }] *)
Definition spread (a b : CreateVaulProps) : CreateVaulProps := {|
  defaultActiveSnapPoint := over (defaultActiveSnapPoint a) (defaultActiveSnapPoint b);
  onActiveSnapPointChange := over (onActiveSnapPointChange a) (onActiveSnapPointChange b);
  defaultOpen := over (defaultOpen a) (defaultOpen b);
  onOpenChange := over (onOpenChange a) (onOpenChange b);
  closeThreshold := over (closeThreshold a) (closeThreshold b);
  shouldScaleBackground := over (shouldScaleBackground a) (shouldScaleBackground b);
  scrollLockTimeout := over (scrollLockTimeout a) (scrollLockTimeout b);
  fixed := over (fixed a) (fixed b);
  dismissible := over (dismissible a) (dismissible b);
  onDrag := over (onDrag a) (onDrag b);
  onRelease := over (onRelease a) (onRelease b);
  modal := over (modal a) (modal b);
  nested := over (nested a) (nested b);
  onClose := over (onClose a) (onClose b);
  snapPoints := over (snapPoints a) (snapPoints b);
  fadeFromIndex := over (fadeFromIndex a) (fadeFromIndex b)
|}.

(** The [options] of [createVaul]: the merged props without the seven
    [omittedOptions]; each store holds a value or [undefined]. *)
Record VaulOptions : Type := mkOptions {
  opt_closeThreshold : option Q;
  opt_shouldScaleBackground : option bool;
  opt_scrollLockTimeout : option Q;
  opt_fixed : option bool;
  opt_dismissible : option bool;
  opt_modal : option bool;
  opt_nested : option bool;
  opt_snapPoints : option (list SnapPoint);
  opt_fadeFromIndex : option Z
}.

(** The default of the destructuring
    [fadeFromIndex: fadeFromIndexProp = snapPointsProp && snapPointsProp.length - 1]:
    an array, also an empty one, is truthy. *)
Definition fadeFromIndex_default (snapPointsProp : option (list SnapPoint)) : option Z :=
  match snapPointsProp with
  | Some l => Some (Z.of_nat (List.length l) - 1)%Z
  | None => None
  end.

(** [createVaul(props)], up to the [options] stores:
    [{ snapPoints: snapPointsProp, fadeFromIndex: fadeFromIndexProp = ..., ...withDefaults }
       = { ...defaultProps, ...removeUndefined(props) }]. *)
Definition createVaul (props : CreateVaulProps) : VaulOptions :=
  let merged := spread defaultProps (removeUndefined props) in
  let snapPointsProp := read (snapPoints merged) in
  let fadeFromIndexProp :=
    match read (fadeFromIndex merged) with
    | Some i => Some i
    | None => fadeFromIndex_default snapPointsProp
    end in
  {| opt_closeThreshold := read (closeThreshold merged);
     opt_shouldScaleBackground := read (shouldScaleBackground merged);
     opt_scrollLockTimeout := read (scrollLockTimeout merged);
     opt_fixed := read (fixed merged);
     opt_dismissible := read (dismissible merged);
     opt_modal := read (modal merged);
     opt_nested := read (nested merged);
     opt_snapPoints := snapPointsProp;
     opt_fadeFromIndex := fadeFromIndexProp |}.

(** The props of the Root component ([root.svelte]) as its caller writes
    them: [None] for a prop the caller leaves out. *)
Record RootProps : Type := mkRootProps {
  root_open : option bool;
  root_onOpenChange : option callback;
  root_closeThreshold : option Q;
  root_scrollLockTimeout : option Q;
  root_snapPoints : option (list SnapPoint);
  root_fadeFromIndex : option Z;
  root_modal : option bool;
  root_nested : option bool;
  root_shouldScaleBackground : option bool
}.

(** [export let x = d]: the caller's value, or the default [d]. *)
Definition export_let {A : Type} (given : option A) (d : A) : A :=
  match given with
  | Some a => a
  | None => d
  end.

(** [export let x = undefined], then the shorthand key [{ x }]: the key is
    there, with the value [undefined] when the caller left the prop out. *)
Definition export_let_undefined {A : Type} (given : option A) : field A :=
  match given with
  | Some a => Val a
  | None => Undefined
  end.

(** The handle of the arrow function the Root component passes as
    [onOpenChange]. *)
Definition root_onOpenChange_closure : callback := 0%nat.

(** The object literal the Root component hands to [setCtx]
    (root.svelte, lines 25 to 42), with the defaults of lines 8 to 18:
    [open = false], [modal = true], [nested = false],
    [shouldScaleBackground = false]. *)
Definition root_ctx_props (r : RootProps) : CreateVaulProps := {|
  defaultActiveSnapPoint := Absent;
  onActiveSnapPointChange := Absent;
  defaultOpen := Val (export_let (root_open r) false);
  onOpenChange := Val root_onOpenChange_closure;
  closeThreshold := export_let_undefined (root_closeThreshold r);
  shouldScaleBackground := Val (export_let (root_shouldScaleBackground r) false);
  scrollLockTimeout := export_let_undefined (root_scrollLockTimeout r);
  fixed := Absent;
  dismissible := Absent;
  onDrag := Absent;
  onRelease := Absent;
  modal := Val (export_let (root_modal r) true);
  nested := Val (export_let (root_nested r) false);
  onClose := Absent;
  snapPoints := export_let_undefined (root_snapPoints r);
  fadeFromIndex := export_let_undefined (root_fadeFromIndex r)
|}.

(** Modelled from the spec: [setCtx] is imported from [../ctx.js], which
    is not among the sources; the spec (§2, the public facade that the
    "external UI wiring layer binds ... to framework props") fixes it as
    handing the props it receives to [createVaul] and returning the
    result. *)
Definition setCtx (props : CreateVaulProps) : VaulOptions := createVaul props.

(** The options a drawer built with the Root component starts with. *)
Definition Root (r : RootProps) : VaulOptions := setCtx (root_ctx_props r).

(** A caller of the Root component who sets no prop at all. *)
Definition no_root_props : RootProps := {|
  root_open := None;
  root_onOpenChange := None;
  root_closeThreshold := None;
  root_scrollLockTimeout := None;
  root_snapPoints := None;
  root_fadeFromIndex := None;
  root_modal := None;
  root_nested := None;
  root_shouldScaleBackground := None
|}.

(** A caller of [createVaul] who passes [{}]. *)
Definition no_props : CreateVaulProps := {|
  defaultActiveSnapPoint := Absent;
  onActiveSnapPointChange := Absent;
  defaultOpen := Absent;
  onOpenChange := Absent;
  closeThreshold := Absent;
  shouldScaleBackground := Absent;
  scrollLockTimeout := Absent;
  fixed := Absent;
  dismissible := Absent;
  onDrag := Absent;
  onRelease := Absent;
  modal := Absent;
  nested := Absent;
  onClose := Absent;
  snapPoints := Absent;
  fadeFromIndex := Absent
|}.

(** "Not specified": the key is left out or is [undefined]. *)
Definition unspecified {A : Type} (f : field A) : Prop := read f = None.

Lemma unspecified_cases {A : Type} (f : field A) :
  unspecified f -> f = Absent \/ f = Undefined.
Proof.
  destruct f as [| |a]; unfold unspecified; simpl; intros H.
  - left; reflexivity.
  - right; reflexivity.
  - discriminate H.
Qed.

Lemma merged_default {A : Type} (d f : field A) :
  unspecified f -> over d (drop_undefined f) = d.
Proof.
  intros H. destruct (unspecified_cases f H) as [-> | ->]; reflexivity.
Qed.

Lemma merged_given {A : Type} (d : field A) (a : A) :
  over d (drop_undefined (Val a)) = Val a.
Proof. reflexivity. Qed.

(** C9 (as amended).  A caller of [createVaul] who does not specify
    [shouldScaleBackground] gets [true] (from [defaultProps]); a caller of
    the Root component who does not specify it gets [false], the default
    of the component's own prop, which the component passes on as a
    given value. *)
Theorem shouldScaleBackground_defaults :
  (forall props, unspecified (shouldScaleBackground props) ->
     opt_shouldScaleBackground (createVaul props) = Some true) /\
  (forall r, root_shouldScaleBackground r = None ->
     opt_shouldScaleBackground (Root r) = Some false).
Proof.
  split.
  - intros props H.
    unfold createVaul; simpl.
    rewrite (merged_default _ _ H).
    reflexivity.
  - intros r H.
    unfold Root, setCtx, createVaul; simpl.
    rewrite H.
    reflexivity.
Qed.

Lemma shouldScaleBackground_defaults_witness :
  opt_shouldScaleBackground (createVaul no_props) = Some true /\
  opt_shouldScaleBackground (Root no_root_props) = Some false.
Proof.
  destruct shouldScaleBackground_defaults as [Hc Hr].
  split.
  - apply Hc. reflexivity.
  - apply Hr. reflexivity.
Defined.

(** C9, counterexample.  The claim as stated (whoever leaves the option
    out gets [true]) fails for the caller of the Root component. *)
Lemma shouldScaleBackground_root_default_false :
  root_shouldScaleBackground no_root_props = None /\
  opt_shouldScaleBackground (Root no_root_props) <> Some true.
Proof.
  split.
  - reflexivity.
  - vm_compute. discriminate.
Qed.

(** C10.  With [fadeFromIndex] not specified: given snap points [l], the
    option is [length l - 1]; given none, it stays [undefined]. *)
Theorem fadeFromIndex_defaults (props : CreateVaulProps) :
  unspecified (fadeFromIndex props) ->
  (forall l, snapPoints props = Val l ->
     opt_fadeFromIndex (createVaul props) = Some (Z.of_nat (List.length l) - 1)%Z) /\
  (unspecified (snapPoints props) ->
     opt_fadeFromIndex (createVaul props) = None).
Proof.
  intros Hf.
  split.
  - intros l Hl.
    unfold createVaul; simpl.
    rewrite (merged_default _ _ Hf), Hl.
    reflexivity.
  - intros Hs.
    unfold createVaul; simpl.
    rewrite (merged_default _ _ Hf), (merged_default _ _ Hs).
    reflexivity.
Qed.

(** Three snap points and no fade index: the index defaults to 2. *)
Definition three_snap_points : CreateVaulProps := {|
  defaultActiveSnapPoint := Absent;
  onActiveSnapPointChange := Absent;
  defaultOpen := Absent;
  onOpenChange := Absent;
  closeThreshold := Absent;
  shouldScaleBackground := Absent;
  scrollLockTimeout := Absent;
  fixed := Absent;
  dismissible := Absent;
  onDrag := Absent;
  onRelease := Absent;
  modal := Absent;
  nested := Absent;
  onClose := Absent;
  snapPoints := Val [SnapNum 0.2; SnapNum 0.5; SnapNum 1];
  fadeFromIndex := Undefined
|}.

Lemma fadeFromIndex_defaults_witness :
  opt_fadeFromIndex (createVaul three_snap_points) = Some 2%Z.
Proof.
  exact (proj1 (fadeFromIndex_defaults three_snap_points eq_refl)
               [SnapNum 0.2; SnapNum 0.5; SnapNum 1] eq_refl).
Defined.

(** A given [fadeFromIndex] is kept, whatever the snap points. *)
Lemma fadeFromIndex_given (props : CreateVaulProps) (i : Z) :
  fadeFromIndex props = Val i ->
  opt_fadeFromIndex (createVaul props) = Some i.
Proof.
  intros H. unfold createVaul; simpl. rewrite H. reflexivity.
Qed.

End Options.

(** ** JavaScript numbers as the handlers use them *)

Module JsNum.
Local Open Scope Q_scope.

(** A double, with the rationals for its finite values. *)
Inductive num : Type :=
| Fin (q : Q)
| PosInf
| NegInf
| NaN.

(** [a / b] on finite operands: a zero divisor gives an infinity, and
    [0 / 0] gives [NaN]. *)
Definition div (a b : Q) : num :=
  if Qeq_bool b 0 then
    (if Qeq_bool a 0 then NaN
     else if Qle_bool 0 a then PosInf else NegInf)
  else Fin (a / b).

(** [x > q] *)
Definition gt (x : num) (q : Q) : bool :=
  match x with
  | Fin a => negb (Qle_bool a q)
  | PosInf => true
  | NegInf | NaN => false
  end.

(** [x >= q] *)
Definition ge (x : num) (q : Q) : bool :=
  match x with
  | Fin a => Qle_bool q a
  | PosInf => true
  | NegInf | NaN => false
  end.

(** [x === 0] *)
Definition is_zero (x : num) : bool :=
  match x with
  | Fin a => Qeq_bool a 0
  | _ => false
  end.

(** [Number.isNaN(x)] *)
Definition isNaN (x : num) : bool :=
  match x with
  | NaN => true
  | _ => false
  end.

(** [!x] on a value that is a number or [null]: [null], [0] and [NaN]
    are the falsy ones. *)
Definition falsy (x : option num) : bool :=
  match x with
  | None => true
  | Some v => is_zero v || isNaN v
  end.

Definition neg (x : num) : num :=
  match x with
  | Fin a => Fin (- a)
  | PosInf => NegInf
  | NegInf => PosInf
  | NaN => NaN
  end.

Definition sign_nonneg (a : Q) : bool := Qle_bool 0 a.

(** [x + y] *)
Definition add (x y : num) : num :=
  match x, y with
  | NaN, _ | _, NaN => NaN
  | Fin a, Fin b => Fin (a + b)
  | PosInf, NegInf | NegInf, PosInf => NaN
  | PosInf, _ | _, PosInf => PosInf
  | NegInf, _ | _, NegInf => NegInf
  end.

(** [x - y] *)
Definition sub (x y : num) : num := add x (neg y).

(** [x * y]: zero times an infinity is [NaN]. *)
Definition mul (x y : num) : num :=
  match x, y with
  | NaN, _ | _, NaN => NaN
  | Fin a, Fin b => Fin (a * b)
  | Fin a, PosInf | PosInf, Fin a =>
      if Qeq_bool a 0 then NaN else if sign_nonneg a then PosInf else NegInf
  | Fin a, NegInf | NegInf, Fin a =>
      if Qeq_bool a 0 then NaN else if sign_nonneg a then NegInf else PosInf
  | PosInf, PosInf | NegInf, NegInf => PosInf
  | PosInf, NegInf | NegInf, PosInf => NegInf
  end.

(** [Math.min(x, y)] *)
Definition min (x y : num) : num :=
  match x, y with
  | NaN, _ | _, NaN => NaN
  | NegInf, _ | _, NegInf => NegInf
  | PosInf, z | z, PosInf => z
  | Fin a, Fin b => Fin (Qmin a b)
  end.

(** [Math.max(x, y)] *)
Definition max (x y : num) : num :=
  match x, y with
  | NaN, _ | _, NaN => NaN
  | PosInf, _ | _, PosInf => PosInf
  | NegInf, z | z, NegInf => z
  | Fin a, Fin b => Fin (Qmax a b)
  end.

Lemma falsy_cases (x : option num) :
  falsy x = true <-> x = None \/ (exists a, x = Some (Fin a) /\ a == 0) \/ x = Some NaN.
Proof.
  split.
  - destruct x as [[a| | |]|]; simpl; intros H; try discriminate H; auto.
    rewrite orb_false_r in H.
    right; left. exists a. split; [reflexivity|].
    apply Qeq_bool_iff. exact H.
  - intros [-> | [[a [-> Ha]] | ->]]; simpl; try reflexivity.
    rewrite orb_false_r. apply Qeq_bool_iff. exact Ha.
Qed.

Lemma gt_Fin (a q : Q) : gt (Fin a) q = true <-> q < a.
Proof.
  simpl. rewrite negb_true_iff.
  split.
  - intros H. apply Qnot_le_lt. intros Hle.
    apply Qle_bool_iff in Hle. congruence.
  - intros H. destruct (Qle_bool a q) eqn:E; [|reflexivity].
    apply Qle_bool_iff in E. exfalso. exact (Qlt_not_le _ _ H E).
Qed.

Lemma ge_Fin (a q : Q) : ge (Fin a) q = true <-> q <= a.
Proof. simpl. apply Qle_bool_iff. Qed.

End JsNum.

(** ** The pointer handlers of [createVaul] *)

Module Gesture.
Import JsNum.
Local Open Scope string_scope.
Local Open Scope list_scope.
Local Open Scope Q_scope.

Definition SnapPoint : Type := Options.SnapPoint.

(** *** What a handler writes *)

Inductive Target : Type := Drawer | Overlay | Wrapper | Body.

(** The values the handlers give to style properties. *)
Inductive Css : Type :=
| CssLit (s : string)
    (** a literal such as ['none'], ['hidden'], ['black'] *)
| CssNumber (n : num)
    (** [`${n}`] *)
| CssPx (n : num)
    (** [`${n}px`] *)
| CssEase (property : string)
    (** [`${property} ${TRANSITIONS.DURATION}s cubic-bezier(${TRANSITIONS.EASE.join(',')})`] *)
| CssDuration
    (** [`${TRANSITIONS.DURATION}s`] *)
| CssBezier
    (** [`cubic-bezier(${TRANSITIONS.EASE.join(',')})`] *)
| Translate3dY (y : num)
    (** [`translate3d(0, ${y}px, 0)`] *)
| Translate3dDampened (draggedDistance : Q)
    (** [`translate3d(0, ${Math.min(dampenValue(draggedDistance) * -1, 0)}px, 0)`] *)
| Translate3dFull
    (** [`translate3d(0, 100%, 0)`] *)
| ScaleTranslate (scale y : num)
    (** [`scale(${scale}) translate3d(0, ${y}px, 0)`] *)
| ScaleSafeArea (scale : num)
    (** [`scale(${scale}) translate3d(0, calc(env(safe-area-inset-top) + 14px), 0)`] *).

(** The pixels of [Translate3dDampened]:
    [Math.min(dampenValue(draggedDistance) * -1, 0)]. *)
Definition dampened_px (draggedDistance : Q) : R :=
  Rmin (Dampen.dampenValue (Q2R draggedDistance) * -1) 0.

(** The dampened panel never goes below its place, and stays in it as long
    as the curve is not positive. *)
Lemma dampened_px_nonpos (draggedDistance : Q) : (dampened_px draggedDistance <= 0)%R.
Proof. unfold dampened_px. apply Rmin_r. Qed.

Lemma dampened_px_at_rest (draggedDistance : Q) :
  (Dampen.dampenValue (Q2R draggedDistance) <= 0)%R ->
  dampened_px draggedDistance = 0%R.
Proof.
  intros H. unfold dampened_px.
  apply Rmin_right. lra.
Qed.

(** The callbacks of [setTimeout]. *)
Inductive Task : Type :=
| JustReleasedExpire
    (** [justReleased.set(false)] *)
| FinishClose
    (** [visible.set(false); isOpen.set(false); isClosing = false] *)
| ResetActiveSnapPoint (snapPoints : option (list SnapPoint))
    (** [if ($snapPoints) activeSnapPoint.set($snapPoints[0])] *).

Inductive Effect : Type :=
| SetStyle (el : Target) (styles : list (string * Css)) (ignoreCache : bool)
    (** [set(el, styles, ignoreCache)] *)
| ResetStyle (el : Target) (property : string)
    (** [reset(el, property)] *)
| ClassAdd (className : string)
    (** [$drawerRef.classList.add(className)] *)
| ClassRemove (className : string)
    (** [$drawerRef.classList.remove(className)] *)
| Blur
    (** [event.target.blur()] *)
| SetPointerCapture
    (** [event.target.setPointerCapture(event.pointerId)] *)
| SetTimeout (task : Task) (ms : Q)
    (** [setTimeout(task, ms)] *)
| CallOnClose
    (** [onClose?.()] *)
| CallOnDrag (percentageDragged : num)
    (** [onDragProp?.(event, percentageDragged)] *)
| CallOnRelease (open : bool)
    (** [onReleaseProp?.(event, open)] *).

Definition DRAG_CLASS : string := "vaul-dragging".
Definition BORDER_RADIUS : Q := 8.
Definition WINDOW_TOP_OFFSET : Q := 26.

(** *** What a handler reads *)

(** An element on the way from the event target up to the document. *)
Record Element : Type := mkElement {
  scrollHeight : Q;
  clientHeight : Q;
  scrollTop : Q;
  role : option string
}.

(** The event and the readings of the DOM and of the clock while it is
    handled.  [getTranslateY], [isInput] and [isIOS] are helpers outside
    the sources: their results are readings. *)
Record Env : Type := mkEnv {
  now : Z;
    (** [new Date().getTime()] *)
  screenY : Q;
    (** [event.screenY] *)
  target : option (list Element);
    (** [event.target] with its [parentNode] chain, or [null] *)
  targetInDrawer : bool;
    (** [$drawerRef.contains(event.target)] *)
  targetIsInput : bool;
    (** [isInput(event.target)] *)
  isIOS : bool;
  highlightedText : option string;
    (** [window.getSelection()?.toString()] *)
  translateY : option num;
    (** [getTranslateY($drawerRef)]: a number or [null] *)
  rectHeight : Q;
    (** [$drawerRef.getBoundingClientRect().height] *)
  innerHeight : Q;
  innerWidth : Q;
  wrapper : bool
    (** [document.querySelector('[data-vaul-drawer-wrapper]')] finds one *)
}.

(** *** The stores *)

(** The option stores the handlers read. *)
Record Opts : Type := mkOpts {
  dismissible : bool;
  snapPoints : option (list SnapPoint);
  fadeFromIndex : option Z;
  closeThreshold : Q;
  scrollLockTimeout : Q;
  shouldScaleBackground : bool
}.

(** The drag stores. *)
Record DragState : Type := mkDrag {
  isDragging : bool;
  isAllowedToDrag : bool;
  justReleased : bool;
  pointerStartY : Q;
  dragStartTime : option Z;
  dragEndTime : option Z;
  lastTimeDragPrevented : option Z;
  drawerHeightRef : Q
}.

Definition set_isDragging (b : bool) (d : DragState) : DragState :=
  mkDrag b (isAllowedToDrag d) (justReleased d) (pointerStartY d)
         (dragStartTime d) (dragEndTime d) (lastTimeDragPrevented d) (drawerHeightRef d).
Definition set_isAllowedToDrag (b : bool) (d : DragState) : DragState :=
  mkDrag (isDragging d) b (justReleased d) (pointerStartY d)
         (dragStartTime d) (dragEndTime d) (lastTimeDragPrevented d) (drawerHeightRef d).
Definition set_justReleased (b : bool) (d : DragState) : DragState :=
  mkDrag (isDragging d) (isAllowedToDrag d) b (pointerStartY d)
         (dragStartTime d) (dragEndTime d) (lastTimeDragPrevented d) (drawerHeightRef d).
Definition set_pointerStartY (y : Q) (d : DragState) : DragState :=
  mkDrag (isDragging d) (isAllowedToDrag d) (justReleased d) y
         (dragStartTime d) (dragEndTime d) (lastTimeDragPrevented d) (drawerHeightRef d).
Definition set_dragStartTime (t : option Z) (d : DragState) : DragState :=
  mkDrag (isDragging d) (isAllowedToDrag d) (justReleased d) (pointerStartY d)
         t (dragEndTime d) (lastTimeDragPrevented d) (drawerHeightRef d).
Definition set_dragEndTime (t : option Z) (d : DragState) : DragState :=
  mkDrag (isDragging d) (isAllowedToDrag d) (justReleased d) (pointerStartY d)
         (dragStartTime d) t (lastTimeDragPrevented d) (drawerHeightRef d).
Definition set_lastTimeDragPrevented (t : option Z) (d : DragState) : DragState :=
  mkDrag (isDragging d) (isAllowedToDrag d) (justReleased d) (pointerStartY d)
         (dragStartTime d) (dragEndTime d) t (drawerHeightRef d).
Definition set_drawerHeightRef (h : Q) (d : DragState) : DragState :=
  mkDrag (isDragging d) (isAllowedToDrag d) (justReleased d) (pointerStartY d)
         (dragStartTime d) (dragEndTime d) (lastTimeDragPrevented d) h.

(** The snap-point engine ([createSnapPoints], in [snap-points.js]) is
    outside the sources: its state is a type [S] and what [createVaul]
    takes from it are the fields of [SnapEngine]. *)
Inductive EngineCall : Type :=
| CallCloseDrawer
    (** the engine calls the [closeDrawer] it was given *)
| CallSnapPointChange (activeSnapPointIndex : option Z)
    (** the engine calls [onSnapPointChange] *).

Record SnapRelease (S : Type) : Type := mkSnapRelease {
  snap_after : S;
  snap_effects : list Effect;
  snap_calls : list EngineCall
}.
Arguments snap_after {S}.
Arguments snap_effects {S}.
Arguments snap_calls {S}.

Record SnapEngine (S : Type) : Type := mkEngine {
  activeSnapPointIndex : S -> option Z;
  shouldFade : S -> bool;
  snapPointsOffset_length : S -> Z;
  getSnapPointsPercentageDragged : S -> Q -> bool -> option num;
  onDragSnapPoints : S -> Q -> S * list Effect;
  onReleaseSnapPoints : S -> Q -> num -> bool -> SnapRelease S
}.
Arguments activeSnapPointIndex {S}.
Arguments shouldFade {S}.
Arguments snapPointsOffset_length {S}.
Arguments getSnapPointsPercentageDragged {S}.
Arguments onDragSnapPoints {S}.
Arguments onReleaseSnapPoints {S}.

(** The state of one drawer. *)
Record State (S : Type) : Type := mkState {
  options : Opts;
  drag : DragState;
  isOpen : bool;
  hasBeenOpened : bool;
  visible : bool;
  openTime : option Z;
  isClosing : bool;
  drawerRef : bool;
    (** the panel element is bound *)
  overlayRef : bool;
  touchendListeners : nat;
    (** pending [{ once: true }] listeners of [touchend] on [window] *)
  snap : S
}.
Arguments options {S}.
Arguments drag {S}.
Arguments isOpen {S}.
Arguments hasBeenOpened {S}.
Arguments visible {S}.
Arguments openTime {S}.
Arguments isClosing {S}.
Arguments drawerRef {S}.
Arguments overlayRef {S}.
Arguments touchendListeners {S}.
Arguments snap {S}.
Arguments mkState {S}.

(** Case analysis on the next test of a handler. *)
Ltac break_if :=
  match goal with
  | |- context [if ?c then _ else _] => destruct c eqn:?
  | |- context [match ?c with _ => _ end] => destruct c eqn:?
  end.

Section Handlers.

Variable S : Type.
Variable engine : SnapEngine S.

(** [VELOCITY_THRESHOLD] and [TRANSITIONS.DURATION] come from
    [constants.js], outside the sources. *)
Variable VELOCITY_THRESHOLD : Q.
Variable TRANSITIONS_DURATION : Q.

Local Abbreviation St := (State S).

Definition with_drag (f : DragState -> DragState) (s : St) : St :=
  mkState (options s) (f (drag s)) (isOpen s) (hasBeenOpened s) (visible s)
          (openTime s) (isClosing s) (drawerRef s) (overlayRef s)
          (touchendListeners s) (snap s).
Definition set_openTime (t : option Z) (s : St) : St :=
  mkState (options s) (drag s) (isOpen s) (hasBeenOpened s) (visible s)
          t (isClosing s) (drawerRef s) (overlayRef s)
          (touchendListeners s) (snap s).
Definition set_isClosing (b : bool) (s : St) : St :=
  mkState (options s) (drag s) (isOpen s) (hasBeenOpened s) (visible s)
          (openTime s) b (drawerRef s) (overlayRef s)
          (touchendListeners s) (snap s).
Definition set_touchendListeners (n : nat) (s : St) : St :=
  mkState (options s) (drag s) (isOpen s) (hasBeenOpened s) (visible s)
          (openTime s) (isClosing s) (drawerRef s) (overlayRef s)
          n (snap s).
Definition set_snap (x : S) (s : St) : St :=
  mkState (options s) (drag s) (isOpen s) (hasBeenOpened s) (visible s)
          (openTime s) (isClosing s) (drawerRef s) (overlayRef s)
          (touchendListeners s) x.

(** An array or an object is truthy, [undefined] is not. *)
Definition defined {A : Type} (x : option A) : bool :=
  match x with
  | Some _ => true
  | None => false
  end.

(** [(window.innerWidth - WINDOW_TOP_OFFSET) / window.innerWidth] *)
Definition getScale (e : Env) : num :=
  div (innerWidth e - WINDOW_TOP_OFFSET) (innerWidth e).

(** [onPress] *)
Definition onPress (e : Env) (s : St) : St * list Effect :=
  if negb (dismissible (options s)) && negb (defined (snapPoints (options s)))
  then (s, [])
  else if drawerRef s && negb (targetInDrawer e) then (s, [])
  else
    let height := if drawerRef s then rectHeight e else 0 in
    let d := set_pointerStartY (screenY e)
               (set_dragStartTime (Some (now e))
                  (set_isDragging true
                     (set_drawerHeightRef height (drag s)))) in
    let s1 := with_drag (fun _ => d) s in
    let s2 := if isIOS e then set_touchendListeners (Datatypes.S (touchendListeners s1)) s1 else s1 in
    (s2, [SetPointerCapture]).

(** The listener [onPress] registers on iOS:
    [() => isAllowedToDrag.set(false)], once. *)
Definition onTouchend (s : St) : St :=
  match touchendListeners s with
  | O => s
  | Datatypes.S _ =>
      set_touchendListeners 0 (with_drag (set_isAllowedToDrag false) s)
  end.

(** The [while (element)] loop of [shouldDrag]. *)
Inductive Climb : Type :=
| NotAtTop
    (** a scrollable element that is scrolled: do not drag *)
| Dialog
    (** a scrollable element at its top with the role dialog: drag *)
| NoneFound
    (** the chain ended: drag *).

Fixpoint climb (chain : list Element) : Climb :=
  match chain with
  | [] => NoneFound
  | element :: parents =>
      if negb (Qle_bool (scrollHeight element) (clientHeight element)) then
        if negb (Qeq_bool (scrollTop element) 0) then NotAtTop
        else
          match role element with
          | Some r => if String.eqb r "dialog" then Dialog else climb parents
          | None => climb parents
          end
      else climb parents
  end.

Definition nonempty (text : option string) : bool :=
  match text with
  | Some t => negb (String.eqb t "")
  | None => false
  end.

(** [$openTime && date.getTime() - $openTime.getTime() < 500] *)
Definition opened_recently (e : Env) (s : St) : bool :=
  match openTime s with
  | Some t => (now e - t <? 500)%Z
  | None => false
  end.

(** [shouldDrag(el, isDraggingDown)] *)
Definition shouldDrag (e : Env) (el : list Element) (isDraggingDown : bool) (s : St)
  : bool * St :=
  let swipeAmount := if drawerRef s then translateY e else None in
  let prevented := with_drag (set_lastTimeDragPrevented (Some (now e))) s in
  if opened_recently e s then (false, s)
  else if match swipeAmount with Some x => gt x 0 | None => false end then (true, s)
  else if nonempty (highlightedText e) then (false, s)
  else if match lastTimeDragPrevented (drag s) with
          | Some t =>
              negb (Qle_bool (scrollLockTimeout (options s)) (inject_Z (now e - t)))
              && match swipeAmount with Some x => is_zero x | None => false end
          | None => false
          end
       then (false, prevented)
  else if isDraggingDown then (false, prevented)
  else
    match climb el with
    | NotAtTop => (false, prevented)
    | Dialog => (true, s)
    | NoneFound => (true, s)
    end.

(** [scaleBackground(open)] *)
Definition scaleBackground (e : Env) (o : Opts) (open : bool) : list Effect :=
  if negb (wrapper e) || negb (shouldScaleBackground o) then []
  else if open then
    [ SetStyle Body [("background", CssLit "black")] true;
      SetStyle Wrapper
        [ ("borderRadius", CssPx (Fin BORDER_RADIUS));
          ("overflow", CssLit "hidden");
          ("transform", ScaleSafeArea (getScale e));
          ("transformOrigin", CssLit "top");
          ("transitionProperty", CssLit "transform, border-radius");
          ("transitionDuration", CssDuration);
          ("transitionTimingFunction", CssBezier) ] false ]
  else
    [ ResetStyle Wrapper "overflow";
      ResetStyle Wrapper "transform";
      ResetStyle Wrapper "borderRadius";
      SetStyle Wrapper
        [ ("transitionProperty", CssLit "transform, border-radius");
          ("transitionDuration", CssDuration);
          ("transitionTimingFunction", CssBezier) ] false ].

(** What [closeDrawer] does once past its two guards. *)
Definition close_sequence (e : Env) (o : Opts) : list Effect :=
  [ CallOnClose;
    SetStyle Drawer
      [ ("transform", Translate3dFull); ("transition", CssEase "transform") ] false;
    SetStyle Overlay
      [ ("opacity", CssLit "0"); ("transition", CssEase "opacity") ] false ]
  ++ scaleBackground e o false
  ++ [ SetTimeout FinishClose 300;
       SetTimeout (ResetActiveSnapPoint (snapPoints o)) (TRANSITIONS_DURATION * 1000) ].

(** [closeDrawer] *)
Definition closeDrawer (e : Env) (s : St) : St * list Effect :=
  if isClosing s then (s, [])
  else if negb (drawerRef s) then (s, [])
  else (set_isClosing true s, close_sequence e (options s)).

(** [resetDrawer] *)
Definition resetDrawer (e : Env) (s : St) : list Effect :=
  if negb (drawerRef s) then []
  else
    let currentSwipeAmount := translateY e in
    [ SetStyle Drawer
        [ ("transform", CssLit "translate3d(0, 0, 0)");
          ("transition", CssEase "transform") ] false;
      SetStyle Overlay
        [ ("transition", CssEase "opacity"); ("opacity", CssLit "1") ] false ]
    ++
    (if shouldScaleBackground (options s)
        && negb (falsy currentSwipeAmount)
        && match currentSwipeAmount with Some x => gt x 0 | None => false end
        && isOpen s
     then
       [ SetStyle Wrapper
           [ ("borderRadius", CssPx (Fin BORDER_RADIUS));
             ("overflow", CssLit "hidden");
             ("transform", ScaleSafeArea (getScale e));
             ("transformOrigin", CssLit "top");
             ("transitionProperty", CssLit "transform, border-radius");
             ("transitionDuration", CssDuration);
             ("transitionTimingFunction", CssBezier) ] true ]
     else []).

(** [onSnapPointChange(activeSnapPointIndex)] *)
Definition onSnapPointChange (e : Env) (activeIndex : option Z) (s : St) : St :=
  if defined (snapPoints (options s))
     && match activeIndex with
        | Some i => (i =? snapPointsOffset_length engine (snap s) - 1)%Z
        | None => false
        end
  then set_openTime (Some (now e)) s
  else s.

(** The calls the engine makes back into [createVaul], in order. *)
Fixpoint run_engine_calls (e : Env) (calls : list EngineCall) (s : St)
  : St * list Effect :=
  match calls with
  | [] => (s, [])
  | CallCloseDrawer :: rest =>
      let (s1, effs1) := closeDrawer e s in
      let (s2, effs2) := run_engine_calls e rest s1 in
      (s2, effs1 ++ effs2)
  | CallSnapPointChange i :: rest =>
      run_engine_calls e rest (onSnapPointChange e i s)
  end.

Definition chain_of (t : option (list Element)) : list Element :=
  match t with
  | Some el => el
  | None => []
  end.

(** [$fadeFromIndex && $activeSnapPointIndex === $fadeFromIndex - 1] *)
Definition before_fadeFromIndex (o : Opts) (activeIndex : option Z) : bool :=
  match fadeFromIndex o, activeIndex with
  | Some f, Some i => negb (f =? 0)%Z && (i =? f - 1)%Z
  | _, _ => false
  end.

(** [onDrag] *)
Definition onDrag (e : Env) (s : St) : St * list Effect :=
  if negb (isDragging (drag s)) then (s, [])
  else
    let draggedDistance := pointerStartY (drag s) - screenY e in
    let isDraggingDown := negb (Qle_bool draggedDistance 0) in
    let activeIndex := activeSnapPointIndex engine (snap s) in
    let o := options s in
    if defined (snapPoints o)
       && match activeIndex with Some i => (i =? 0)%Z | None => false end
       && negb (dismissible o)
    then (s, [])
    else
      let (allowed, s1) :=
        if isAllowedToDrag (drag s) then (true, s)
        else shouldDrag e (chain_of (target e)) isDraggingDown s in
      if negb allowed then (s1, [])
      else if negb (drawerRef s1) then (s1, [])
      else
        let s2 := with_drag (set_isAllowedToDrag true) s1 in
        let begun :=
          [ ClassAdd DRAG_CLASS;
            SetStyle Drawer [("transition", CssLit "none")] false;
            SetStyle Overlay [("transition", CssLit "none")] false ] in
        let (s3, snapped) :=
          if defined (snapPoints o) then
            let (x, effs) := onDragSnapPoints engine (snap s2) draggedDistance in
            (set_snap x s2, effs)
          else (s2, []) in
        if isDraggingDown && negb (defined (snapPoints o)) then
          (s3, begun ++ snapped
               ++ [SetStyle Drawer [("transform", Translate3dDampened draggedDistance)] false])
        else
          let absDraggedDistance := Qabs draggedDistance in
          let percentageDragged :=
            match getSnapPointsPercentageDragged engine (snap s3)
                    absDraggedDistance isDraggingDown with
            | Some p => p
            | None => div absDraggedDistance (drawerHeightRef (drag s3))
            end in
          let opacityValue := sub (Fin 1) percentageDragged in
          let faded :=
            if shouldFade engine (snap s3) || before_fadeFromIndex o activeIndex then
              [ CallOnDrag percentageDragged;
                SetStyle Overlay
                  [ ("opacity", CssNumber opacityValue);
                    ("transition", CssLit "none") ] true ]
            else [] in
          let scaled :=
            if wrapper e && overlayRef s3 && shouldScaleBackground o then
              let scaleValue :=
                min (add (getScale e)
                         (mul percentageDragged (sub (Fin 1) (getScale e))))
                    (Fin 1) in
              let borderRadiusValue := sub (Fin 8) (mul percentageDragged (Fin 8)) in
              let translateYValue :=
                max (Fin 0) (sub (Fin 14) (mul percentageDragged (Fin 14))) in
              [ SetStyle Wrapper
                  [ ("borderRadius", CssPx borderRadiusValue);
                    ("transform", ScaleTranslate scaleValue translateYValue);
                    ("transition", CssLit "none") ] true ]
            else [] in
          let moved :=
            if negb (defined (snapPoints o)) then
              [SetStyle Drawer [("transform", Translate3dY (Fin absDraggedDistance))] false]
            else [] in
          (s3, begun ++ snapped ++ faded ++ scaled ++ moved).

(** The first statements of [onRelease] past its guard on [isDragging]
    and the panel: the drag stores are reset and the end time is kept. *)
Definition released (e : Env) (d : DragState) : DragState :=
  set_dragEndTime (Some (now e)) (set_isDragging false (set_isAllowedToDrag false d)).

(** [Math.abs(distMoved) / timeTaken] *)
Definition velocity_of (distMoved : Q) (timeTaken : Z) : num :=
  div (Qabs distMoved) (inject_Z timeTaken).

(** [onRelease] *)
Definition onRelease (e : Env) (s : St) : St * list Effect :=
  if negb (isDragging (drag s)) || negb (drawerRef s) then (s, [])
  else
    let ended :=
      (if isAllowedToDrag (drag s) && targetIsInput e then [Blur] else [])
      ++ [ClassRemove DRAG_CLASS] in
    let s1 := with_drag (released e) s in
    let swipeAmount := translateY e in
    let (refused, s2) :=
      match target e with
      | Some el => let (ok, s') := shouldDrag e el false s1 in (negb ok, s')
      | None => (false, s1)
      end in
    if refused || falsy swipeAmount
       || match swipeAmount with Some x => isNaN x | None => false end
    then (s2, ended)
    else
      match dragStartTime (drag s2) with
      | None => (s2, ended)
      | Some startTime =>
          let timeTaken := (now e - startTime)%Z in
          let distMoved := pointerStartY (drag s2) - screenY e in
          let velocity := velocity_of distMoved timeTaken in
          let (s3, flagged) :=
            if gt velocity 0.05
            then (with_drag (set_justReleased true) s2, [SetTimeout JustReleasedExpire 200])
            else (s2, []) in
          if defined (snapPoints (options s3)) then
            let r := onReleaseSnapPoints engine (snap s3) distMoved velocity
                       (dismissible (options s3)) in
            let (s4, called) := run_engine_calls e (snap_calls r) (set_snap (snap_after r) s3) in
            (s4, ended ++ flagged ++ snap_effects r ++ called ++ [CallOnRelease true])
          else if negb (Qle_bool distMoved 0) then
            (s3, ended ++ flagged ++ resetDrawer e s3 ++ [CallOnRelease true])
          else if gt velocity VELOCITY_THRESHOLD then
            let (s4, closing) := closeDrawer e s3 in
            (s4, ended ++ flagged ++ closing ++ [CallOnRelease false])
          else
            let visibleDrawerHeight := Qmin (rectHeight e) (innerHeight e) in
            if match swipeAmount with
               | Some x => ge x (visibleDrawerHeight * closeThreshold (options s3))
               | None => false
               end
            then
              let (s4, closing) := closeDrawer e s3 in
              (s4, ended ++ flagged ++ closing ++ [CallOnRelease false])
            else
              (s3, ended ++ flagged ++ [CallOnRelease true] ++ resetDrawer e s3)
      end.

(** A run of pointer-move events. *)
Definition drags (moves : list Env) (s : St) : St :=
  fold_left (fun st e => fst (onDrag e st)) moves s.

(** The permission test as [onRelease] runs it: on the target of the
    release event, after the drag stores were reset; a [null] target
    skips it. *)
Definition permitted_at_release (e : Env) (s : St) : bool :=
  match target e with
  | Some el => fst (shouldDrag e el false (with_drag (released e) s))
  | None => true
  end.

(** [distMoved] and [velocity] as [onRelease] computes them. *)
Definition distMoved_at (e : Env) (s : St) : Q := pointerStartY (drag s) - screenY e.

Definition velocity_at (e : Env) (s : St) (startTime : Z) : num :=
  velocity_of (distMoved_at e s) (now e - startTime).

(** *** Frame properties *)

Lemma shouldDrag_frame (e : Env) (el : list Element) (down : bool) (s : St) :
  snd (shouldDrag e el down s) = s \/
  snd (shouldDrag e el down s)
    = with_drag (set_lastTimeDragPrevented (Some (now e))) s.
Proof.
  unfold shouldDrag.
  repeat break_if; simpl; auto.
Qed.

Lemma shouldDrag_true_keeps (e : Env) (el : list Element) (down : bool) (s : St) :
  fst (shouldDrag e el down s) = true -> snd (shouldDrag e el down s) = s.
Proof.
  unfold shouldDrag.
  repeat break_if; simpl; intros H; try reflexivity; discriminate H.
Qed.

(** What [shouldDrag] leaves alone: everything but [lastTimeDragPrevented]. *)
Definition same_but_prevented (s s' : St) : Prop :=
  options s' = options s /\ isOpen s' = isOpen s /\
  hasBeenOpened s' = hasBeenOpened s /\ visible s' = visible s /\
  openTime s' = openTime s /\ isClosing s' = isClosing s /\
  drawerRef s' = drawerRef s /\ overlayRef s' = overlayRef s /\
  touchendListeners s' = touchendListeners s /\ snap s' = snap s /\
  isDragging (drag s') = isDragging (drag s) /\
  isAllowedToDrag (drag s') = isAllowedToDrag (drag s) /\
  justReleased (drag s') = justReleased (drag s) /\
  pointerStartY (drag s') = pointerStartY (drag s) /\
  dragStartTime (drag s') = dragStartTime (drag s) /\
  dragEndTime (drag s') = dragEndTime (drag s) /\
  drawerHeightRef (drag s') = drawerHeightRef (drag s).

Lemma same_but_prevented_refl (s : St) : same_but_prevented s s.
Proof. repeat split. Qed.

Lemma shouldDrag_same (e : Env) (el : list Element) (down : bool) (s : St) :
  same_but_prevented s (snd (shouldDrag e el down s)).
Proof.
  destruct (shouldDrag_frame e el down s) as [-> | ->].
  - apply same_but_prevented_refl.
  - repeat split.
Qed.

(** With the panel bound and displaced downward ([translateY > 0]) the
    test only looks at the time since the drawer opened. *)
Lemma shouldDrag_displaced (e : Env) (el : list Element) (down : bool) (s : St) (x : num) :
  drawerRef s = true -> translateY e = Some x -> gt x 0 = true ->
  fst (shouldDrag e el down s) = negb (opened_recently e s).
Proof.
  intros Hd Hx Hgt.
  unfold shouldDrag.
  rewrite Hd, Hx, Hgt.
  destruct (opened_recently e s); reflexivity.
Qed.

(** A permitted move is not in the window after the opening, and neither
    is anything later in the same gesture. *)
Lemma shouldDrag_not_recent (e : Env) (el : list Element) (down : bool) (s : St) :
  fst (shouldDrag e el down s) = true -> opened_recently e s = false.
Proof.
  unfold shouldDrag.
  destruct (opened_recently e s); [intros H; discriminate H|reflexivity].
Qed.

Lemma opened_recently_later (e e' : Env) (s s' : St) :
  openTime s' = openTime s ->
  (now e <= now e')%Z ->
  opened_recently e s = false ->
  opened_recently e' s' = false.
Proof.
  unfold opened_recently.
  intros -> Hlater.
  destruct (openTime s) as [t|]; [|reflexivity].
  rewrite !Z.ltb_ge. lia.
Qed.

Lemma opened_recently_released (e : Env) (s : St) :
  opened_recently e (with_drag (released e) s) = opened_recently e s.
Proof. reflexivity. Qed.

Lemma permitted_displaced (e : Env) (s : St) (x : num) :
  drawerRef s = true -> translateY e = Some x -> gt x 0 = true ->
  opened_recently e s = false ->
  permitted_at_release e s = true.
Proof.
  intros Hd Hx Hgt Hopen.
  unfold permitted_at_release.
  destruct (target e) as [el|]; [|reflexivity].
  rewrite (shouldDrag_displaced e el false _ x); auto.
  rewrite opened_recently_released, Hopen. reflexivity.
Qed.

Lemma gt_not_falsy (x : num) : gt x 0 = true -> falsy (Some x) = false.
Proof.
  destruct x as [a| | |]; simpl; intros H; try reflexivity; try discriminate H.
  rewrite orb_false_r.
  destruct (Qeq_bool a 0) eqn:E; [|reflexivity].
  apply Qeq_bool_iff in E.
  rewrite negb_true_iff in H.
  assert (Hle : Qle_bool a 0 = true) by (apply Qle_bool_iff; rewrite E; apply Qle_refl).
  congruence.
Qed.

(** *** The decisions of [onRelease] *)

Lemma closeDrawer_closing (e : Env) (s : St) :
  drawerRef s = true ->
  isClosing (fst (closeDrawer e s)) = true /\
  snd (closeDrawer e s) = (if isClosing s then [] else close_sequence e (options s)) /\
  drag (fst (closeDrawer e s)) = drag s /\
  isOpen (fst (closeDrawer e s)) = isOpen s.
Proof.
  intros Href.
  unfold closeDrawer.
  destruct (isClosing s) eqn:Hc.
  - simpl. auto.
  - rewrite Href. simpl. auto.
Qed.

Lemma scaleBackground_no_callback (e : Env) (o : Opts) (open b : bool) :
  ~ In (CallOnRelease b) (scaleBackground e o open).
Proof.
  unfold scaleBackground.
  repeat break_if; simpl; intuition discriminate.
Qed.

Lemma close_sequence_no_callback (e : Env) (o : Opts) (b : bool) :
  ~ In (CallOnRelease b) (close_sequence e o).
Proof.
  unfold close_sequence.
  intros H.
  apply in_app_or in H. destruct H as [H|H].
  - simpl in H. intuition discriminate.
  - apply in_app_or in H. destruct H as [H|H].
    + exact (scaleBackground_no_callback _ _ _ _ H).
    + simpl in H. intuition discriminate.
Qed.

Lemma resetDrawer_no_callback (e : Env) (s : St) (b : bool) :
  ~ In (CallOnRelease b) (resetDrawer e s).
Proof.
  unfold resetDrawer.
  repeat break_if; simpl; intuition discriminate.
Qed.

Lemma resetDrawer_no_close (e : Env) (s : St) :
  ~ In CallOnClose (resetDrawer e s).
Proof.
  unfold resetDrawer.
  repeat break_if; simpl; intuition discriminate.
Qed.

Lemma resetDrawer_no_timer (e : Env) (s : St) (t : Task) (ms : Q) :
  ~ In (SetTimeout t ms) (resetDrawer e s).
Proof.
  unfold resetDrawer.
  repeat break_if; simpl; intuition discriminate.
Qed.

(** What starts a close: [onClose] is called, the panel is sent down by
    its whole height and the backdrop to opacity 0, both with a
    transition, and the timer is set that, 300 ms later, makes the drawer
    invisible and sets [isOpen] to [false]. *)
Definition starts_close (effs : list Effect) : Prop :=
  In CallOnClose effs /\
  In (SetStyle Drawer
        [("transform", Translate3dFull); ("transition", CssEase "transform")] false) effs /\
  In (SetStyle Overlay
        [("opacity", CssLit "0"); ("transition", CssEase "opacity")] false) effs /\
  In (SetTimeout FinishClose 300) effs.

(** What resets the drawer to open: the panel is sent back to its place
    and the backdrop to opacity 1, both with a transition; [onClose] is not
    called and no close timer is set. *)
Definition resets_to_open (effs : list Effect) : Prop :=
  In (SetStyle Drawer
        [("transform", CssLit "translate3d(0, 0, 0)"); ("transition", CssEase "transform")]
        false) effs /\
  In (SetStyle Overlay
        [("transition", CssEase "opacity"); ("opacity", CssLit "1")] false) effs /\
  ~ In CallOnClose effs /\
  (forall ms, ~ In (SetTimeout FinishClose ms) effs).

Lemma close_sequence_starts_close (e : Env) (o : Opts) (before after : list Effect) :
  starts_close (before ++ close_sequence e o ++ after).
Proof.
  unfold starts_close, close_sequence.
  repeat split; apply in_or_app; right; apply in_or_app; left.
  - apply in_or_app. left. left. reflexivity.
  - apply in_or_app. left. right. left. reflexivity.
  - apply in_or_app. left. right. right. left. reflexivity.
  - apply in_or_app. right. apply in_or_app. right. left. reflexivity.
Qed.

(** The state and the effects of [onRelease] up to its decision, for a
    release that passes the guards. *)
Definition ended_effects (e : Env) (s : St) : list Effect :=
  (if isAllowedToDrag (drag s) && targetIsInput e then [Blur] else [])
  ++ [ClassRemove DRAG_CLASS].

Definition flagged_effects (velocity : num) : list Effect :=
  if gt velocity 0.05 then [SetTimeout JustReleasedExpire 200] else [].

Definition flagged_state (e : Env) (velocity : num) (s : St) : St :=
  if gt velocity 0.05
  then with_drag (set_justReleased true) (with_drag (released e) s)
  else with_drag (released e) s.

Lemma flagged_state_frame (e : Env) (v : num) (s : St) :
  options (flagged_state e v s) = options s /\
  drawerRef (flagged_state e v s) = drawerRef s /\
  isClosing (flagged_state e v s) = isClosing s /\
  isOpen (flagged_state e v s) = isOpen s /\
  isDragging (drag (flagged_state e v s)) = false /\
  isAllowedToDrag (drag (flagged_state e v s)) = false.
Proof.
  unfold flagged_state. destruct (gt v 0.05); simpl; auto 10.
Qed.

(** Past the guards and without snap points, [onRelease] is its three-way
    decision on [distMoved], [velocity] and [swipeAmount]. *)
Lemma onRelease_decision (e : Env) (s : St) (startTime : Z) :
  isDragging (drag s) = true ->
  drawerRef s = true ->
  snapPoints (options s) = None ->
  dragStartTime (drag s) = Some startTime ->
  permitted_at_release e s = true ->
  falsy (translateY e) = false ->
  let velocity := velocity_at e s startTime in
  let s3 := flagged_state e velocity s in
  let before := ended_effects e s ++ flagged_effects velocity in
  onRelease e s =
    if negb (Qle_bool (distMoved_at e s) 0) then
      (s3, before ++ resetDrawer e s3 ++ [CallOnRelease true])
    else if gt velocity VELOCITY_THRESHOLD
            || match translateY e with
               | Some x => ge x (Qmin (rectHeight e) (innerHeight e)
                                 * closeThreshold (options s))
               | None => false
               end
    then (fst (closeDrawer e s3), before ++ snd (closeDrawer e s3) ++ [CallOnRelease false])
    else (s3, before ++ [CallOnRelease true] ++ resetDrawer e s3).
Proof.
  intros Hdrag Href Hsnap Hstart Hperm Hswipe velocity s3 before.
  unfold onRelease.
  rewrite Hdrag, Href. simpl negb. simpl orb. cbv iota.
  assert (Hguard :
    (match target e with
     | Some el =>
         let (ok, s') := shouldDrag e el false (with_drag (released e) s) in
         (negb ok, s')
     | None => (false, with_drag (released e) s)
     end) = (false, with_drag (released e) s)).
  { unfold permitted_at_release in Hperm.
    destruct (target e) as [el|]; [|reflexivity].
    pose proof (shouldDrag_true_keeps e el false _ Hperm) as Hkeep.
    destruct (shouldDrag e el false (with_drag (released e) s)) as [ok s'].
    simpl in Hperm, Hkeep. subst. reflexivity. }
  rewrite Hguard.
  rewrite Hswipe.
  assert (Hnan : match translateY e with Some x => isNaN x | None => false end = false).
  { destruct (translateY e) as [[a| | |]|]; try reflexivity; discriminate Hswipe. }
  rewrite Hnan. simpl orb. cbv iota.
  clear Hnan Hguard.
  change (dragStartTime (drag (with_drag (released e) s))) with (dragStartTime (drag s)).
  rewrite Hstart.
  change (pointerStartY (drag (with_drag (released e) s)) - screenY e)
    with (distMoved_at e s).
  change (velocity_of (distMoved_at e s) (now e - startTime)) with velocity.
  unfold s3, before, flagged_state, flagged_effects, ended_effects.
  destruct (gt velocity 0.05) eqn:Hv; simpl options; rewrite Hsnap; simpl defined; cbv iota.
  - destruct (negb (Qle_bool (distMoved_at e s) 0)).
    + rewrite <- !app_assoc. reflexivity.
    + destruct (gt velocity VELOCITY_THRESHOLD); simpl orb.
      * destruct (closeDrawer e _). simpl. rewrite <- !app_assoc. reflexivity.
      * destruct (match translateY e with Some x => ge x _ | None => false end).
        -- destruct (closeDrawer e _). simpl. rewrite <- !app_assoc. reflexivity.
        -- rewrite <- !app_assoc. reflexivity.
  - destruct (negb (Qle_bool (distMoved_at e s) 0)).
    + rewrite <- !app_assoc. reflexivity.
    + destruct (gt velocity VELOCITY_THRESHOLD); simpl orb.
      * destruct (closeDrawer e _). simpl. rewrite <- !app_assoc. reflexivity.
      * destruct (match translateY e with Some x => ge x _ | None => false end).
        -- destruct (closeDrawer e _). simpl. rewrite <- !app_assoc. reflexivity.
        -- rewrite <- !app_assoc. reflexivity.
Qed.

Lemma resetDrawer_flagged (e : Env) (v : num) (s : St) :
  resetDrawer e (flagged_state e v s) = resetDrawer e s.
Proof.
  unfold flagged_state. destruct (gt v 0.05); reflexivity.
Qed.

Lemma before_no_callback (e : Env) (s : St) (v : num) (eff : Effect) :
  In eff (ended_effects e s ++ flagged_effects v) ->
  eff = Blur \/ eff = ClassRemove DRAG_CLASS \/ eff = SetTimeout JustReleasedExpire 200.
Proof.
  unfold ended_effects, flagged_effects.
  intros H.
  apply in_app_or in H. destruct H as [H|H].
  - apply in_app_or in H. destruct H as [H|H].
    + destruct (isAllowedToDrag (drag s) && targetIsInput e); simpl in H.
      * destruct H as [H|[]]. left. symmetry. exact H.
      * destruct H.
    + simpl in H. destruct H as [H|[]]. right; left. symmetry. exact H.
  - destruct (gt v 0.05); simpl in H.
    + destruct H as [H|[]]. right; right. symmetry. exact H.
    + destruct H.
Qed.

(** The close that [onRelease] runs: [closeDrawer] on a bound panel. *)
Lemma onRelease_close_branch (e : Env) (s : St) (v : num) :
  drawerRef s = true ->
  let s3 := flagged_state e v s in
  let effs := (ended_effects e s ++ flagged_effects v)
              ++ snd (closeDrawer e s3) ++ [CallOnRelease false] in
  isClosing (fst (closeDrawer e s3)) = true /\
  isDragging (drag (fst (closeDrawer e s3))) = false /\
  isAllowedToDrag (drag (fst (closeDrawer e s3))) = false /\
  (exists before,
     effs = before
            ++ (if isClosing s then [] else close_sequence e (options s))
            ++ [CallOnRelease false]) /\
  ~ In (CallOnRelease true) effs /\
  (isClosing s = false -> starts_close effs).
Proof.
  intros Href s3 effs.
  destruct (flagged_state_frame e v s) as (Ho & Hd & Hc & _ & Hdr & Hal).
  destruct (closeDrawer_closing e s3) as (H1 & H2 & H3 & _).
  { unfold s3. rewrite Hd. exact Href. }
  fold s3 in Ho, Hc, Hdr, Hal.
  rewrite H1, H3, Hdr, Hal.
  split; [reflexivity|]. split; [reflexivity|]. split; [reflexivity|].
  split; [|split].
  - exists (ended_effects e s ++ flagged_effects v).
    unfold effs. rewrite H2, Hc, Ho. reflexivity.
  - unfold effs. rewrite H2, Hc, Ho.
    intros H.
    apply in_app_or in H. destruct H as [H|H].
    + apply before_no_callback in H.
      destruct H as [H|[H|H]]; discriminate H.
    + apply in_app_or in H. destruct H as [H|H].
      * destruct (isClosing s); [exact H|].
        exact (close_sequence_no_callback _ _ _ H).
      * simpl in H. destruct H as [H|[]]. discriminate H.
  - intros Hidle. unfold effs. rewrite H2, Hc, Ho, Hidle.
    apply close_sequence_starts_close.
Qed.

(** A release of a downward drag ([distMoved <= 0]) with no snap points
    that gets past the guards at the head of [onRelease] and whose
    velocity [|distMoved| / timeTaken] exceeds [VELOCITY_THRESHOLD] runs
    [closeDrawer] and reports [open = false] to the release callback,
    whatever the distance. *)
Lemma onRelease_fast_release (e : Env) (s : St) (startTime : Z) :
  isDragging (drag s) = true ->
  drawerRef s = true ->
  snapPoints (options s) = None ->
  dragStartTime (drag s) = Some startTime ->
  permitted_at_release e s = true ->
  falsy (translateY e) = false ->
  distMoved_at e s <= 0 ->
  gt (velocity_at e s startTime) VELOCITY_THRESHOLD = true ->
  isClosing (fst (onRelease e s)) = true /\
  isDragging (drag (fst (onRelease e s))) = false /\
  isAllowedToDrag (drag (fst (onRelease e s))) = false /\
  (exists before,
     snd (onRelease e s)
     = before
       ++ (if isClosing s then [] else close_sequence e (options s))
       ++ [CallOnRelease false]) /\
  ~ In (CallOnRelease true) (snd (onRelease e s)) /\
  (isClosing s = false -> starts_close (snd (onRelease e s))).
Proof.
  intros Hdrag Href Hsnap Hstart Hperm Hswipe Hdown Hfast.
  rewrite (onRelease_decision e s startTime) by assumption.
  apply Qle_bool_iff in Hdown. rewrite Hdown.
  rewrite Hfast.
  simpl negb. simpl orb. cbv iota.
  simpl fst. simpl snd.
  apply onRelease_close_branch. exact Href.
Qed.

(** The threshold decision of [onRelease], for a release out of the window
    after the opening: with [closeThreshold = 0.25] and a visible height
    of 400px the drawer closes from 100px on and is reset below. *)
Lemma onRelease_threshold_decision (e : Env) (s : St) (startTime : Z) (x : Q) :
  isDragging (drag s) = true ->
  drawerRef s = true ->
  snapPoints (options s) = None ->
  dragStartTime (drag s) = Some startTime ->
  opened_recently e s = false ->
  closeThreshold (options s) == 0.25 ->
  Qmin (rectHeight e) (innerHeight e) == 400 ->
  translateY e = Some (Fin x) ->
  distMoved_at e s <= 0 ->
  gt (velocity_at e s startTime) VELOCITY_THRESHOLD = false ->
  (100 <= x ->
     isClosing (fst (onRelease e s)) = true /\
     (exists before,
        snd (onRelease e s)
        = before
          ++ (if isClosing s then [] else close_sequence e (options s))
          ++ [CallOnRelease false]) /\
     ~ In (CallOnRelease true) (snd (onRelease e s)) /\
     (isClosing s = false -> starts_close (snd (onRelease e s)))) /\
  (0 < x < 100 ->
     isClosing (fst (onRelease e s)) = isClosing s /\
     isOpen (fst (onRelease e s)) = isOpen s /\
     (exists before,
        snd (onRelease e s) = before ++ [CallOnRelease true] ++ resetDrawer e s) /\
     ~ In (CallOnRelease false) (snd (onRelease e s)) /\
     resets_to_open (snd (onRelease e s))).
Proof.
  intros Hdrag Href Hsnap Hstart Hopen Hct Hvh Hx Hdown Hslow.
  assert (Hthr : Qmin (rectHeight e) (innerHeight e) * closeThreshold (options s) == 100).
  { rewrite Hct, Hvh. reflexivity. }
  apply Qle_bool_iff in Hdown.
  split.
  - intros Hfar.
    assert (Hpos : gt (Fin x) 0 = true).
    { apply gt_Fin. apply Qlt_le_trans with 100; [reflexivity|exact Hfar]. }
    rewrite (onRelease_decision e s startTime); auto.
    + rewrite Hdown, Hslow, Hx.
      assert (Hge : ge (Fin x) (Qmin (rectHeight e) (innerHeight e)
                                * closeThreshold (options s)) = true).
      { apply ge_Fin. rewrite Hthr. exact Hfar. }
      rewrite Hge.
      simpl negb. simpl orb. cbv iota. simpl fst. simpl snd.
      destruct (onRelease_close_branch e s (velocity_at e s startTime) Href)
        as (H1 & _ & _ & H2 & H3 & H4).
      auto.
    + apply (permitted_displaced e s (Fin x)); auto.
    + rewrite Hx. apply gt_not_falsy. exact Hpos.
  - intros [Hpos Hnear].
    assert (Hgt : gt (Fin x) 0 = true) by (apply gt_Fin; exact Hpos).
    rewrite (onRelease_decision e s startTime); auto.
    + rewrite Hdown, Hslow, Hx.
      assert (Hge : ge (Fin x) (Qmin (rectHeight e) (innerHeight e)
                                * closeThreshold (options s)) = false).
      { destruct (ge (Fin x) _) eqn:E; [|reflexivity].
        apply ge_Fin in E. rewrite Hthr in E.
        exfalso. exact (Qlt_not_le _ _ Hnear E). }
      rewrite Hge.
      simpl negb. simpl orb. cbv iota. simpl fst. simpl snd.
      rewrite resetDrawer_flagged.
      destruct (flagged_state_frame e (velocity_at e s startTime) s)
        as (_ & _ & Hc & Hio & _ & _).
      split; [exact Hc|]. split; [exact Hio|].
      split; [eexists; reflexivity|].
      split; [|unfold resets_to_open; split; [|split; [|split]]].
      * intros H.
        apply in_app_or in H. destruct H as [H|H].
        -- apply before_no_callback in H. destruct H as [H|[H|H]]; discriminate H.
        -- simpl in H. destruct H as [H|H]; [discriminate H|].
           exact (resetDrawer_no_callback _ _ _ H).
      * apply in_or_app. right. right.
        unfold resetDrawer. rewrite Href. simpl. left. reflexivity.
      * apply in_or_app. right. right.
        unfold resetDrawer. rewrite Href. simpl. right. left. reflexivity.
      * intros H.
        apply in_app_or in H. destruct H as [H|H].
        -- apply before_no_callback in H. destruct H as [H|[H|H]]; discriminate H.
        -- simpl in H. destruct H as [H|H]; [discriminate H|].
           exact (resetDrawer_no_close _ _ H).
      * intros ms H.
        apply in_app_or in H. destruct H as [H|H].
        -- apply before_no_callback in H. destruct H as [H|[H|H]]; discriminate H.
        -- simpl in H. destruct H as [H|H]; [discriminate H|].
           exact (resetDrawer_no_timer _ _ _ _ H).
    + apply (permitted_displaced e s (Fin x)); auto.
    + rewrite Hx. apply gt_not_falsy. exact Hgt.
Qed.

(** C4 (as amended).  When the measured swipe distance (the panel's
    [translateY]) is [null], [0] or [NaN] at release, [onRelease] exits
    without closing, without snapping and without touching the open
    state: it only resets the drag stores and, at most, blurs the target
    and removes the dragging class.  (The velocity is not tested: a zero
    or [NaN] velocity alone does not stop the release.) *)
Theorem onRelease_degenerate_swipe (e : Env) (s : St) :
  falsy (translateY e) = true ->
  options (fst (onRelease e s)) = options s /\
  isOpen (fst (onRelease e s)) = isOpen s /\
  visible (fst (onRelease e s)) = visible s /\
  openTime (fst (onRelease e s)) = openTime s /\
  isClosing (fst (onRelease e s)) = isClosing s /\
  snap (fst (onRelease e s)) = snap s /\
  justReleased (drag (fst (onRelease e s))) = justReleased (drag s) /\
  (forall eff, In eff (snd (onRelease e s)) ->
     eff = Blur \/ eff = ClassRemove DRAG_CLASS).
Proof.
  intros Hswipe.
  unfold onRelease.
  destruct (negb (isDragging (drag s)) || negb (drawerRef s)).
  - simpl. repeat split. intros eff [].
  - assert (Heffs : forall eff,
              In eff ((if isAllowedToDrag (drag s) && targetIsInput e
                       then [Blur] else []) ++ [ClassRemove DRAG_CLASS]) ->
              eff = Blur \/ eff = ClassRemove DRAG_CLASS).
    { intros eff H. apply in_app_or in H. destruct H as [H|H].
      - destruct (isAllowedToDrag (drag s) && targetIsInput e); simpl in H.
        + destruct H as [H|[]]. left. symmetry. exact H.
        + destruct H.
      - simpl in H. destruct H as [H|[]]. right. symmetry. exact H. }
    rewrite Hswipe.
    destruct (target e) as [el|].
    + pose proof (shouldDrag_same e el false (with_drag (released e) s)) as Hsame.
      destruct (shouldDrag e el false (with_drag (released e) s)) as [ok s'].
      simpl snd in Hsame.
      destruct Hsame as (Ho & Hio & _ & Hv & Hot & Hc & _ & _ & _ & Hsn & _ & _ & Hj & _).
      rewrite orb_true_r. simpl orb. cbv iota. simpl fst. simpl snd.
      rewrite Ho, Hio, Hv, Hot, Hc, Hsn, Hj.
      repeat split. exact Heffs.
    + simpl orb. cbv iota. simpl fst. simpl snd.
      repeat split. exact Heffs.
Qed.

(** *** The permission flag over a gesture *)

(** What a pointer-move may do to the flag: leave the drag alive, the
    panel bound and the open time as they are, keep a set flag set, and
    set it only on a live drag of a bound panel, outside the window after
    the opening. *)
Definition drag_frame (e : Env) (s s' : St) : Prop :=
  isDragging (drag s') = isDragging (drag s) /\
  drawerRef s' = drawerRef s /\
  (isAllowedToDrag (drag s) = true -> isAllowedToDrag (drag s') = true) /\
  (isAllowedToDrag (drag s) = false -> isAllowedToDrag (drag s') = true ->
   isDragging (drag s) = true /\ drawerRef s = true /\ opened_recently e s = false) /\
  openTime s' = openTime s.

Lemma drag_frame_same (e : Env) (s s' : St) :
  isDragging (drag s') = isDragging (drag s) ->
  drawerRef s' = drawerRef s ->
  isAllowedToDrag (drag s') = isAllowedToDrag (drag s) ->
  openTime s' = openTime s ->
  drag_frame e s s'.
Proof.
  intros H1 H2 H3 H4. unfold drag_frame. rewrite H3.
  split; [exact H1|]. split; [exact H2|]. split; [auto|].
  split; [|exact H4].
  intros Hf Ht. congruence.
Qed.

Lemma drag_frame_set (e : Env) (s s' : St) :
  isDragging (drag s) = true ->
  drawerRef s = true ->
  (isAllowedToDrag (drag s) = false -> opened_recently e s = false) ->
  isDragging (drag s') = true ->
  drawerRef s' = true ->
  isAllowedToDrag (drag s') = true ->
  openTime s' = openTime s ->
  drag_frame e s s'.
Proof.
  intros H1 H2 Hwin H3 H4 H5 H6. unfold drag_frame.
  rewrite H1, H2, H3, H4, H5.
  split; [reflexivity|]. split; [reflexivity|]. split; [auto|].
  split; [|exact H6].
  intros Hf _. split; [reflexivity|]. split; [reflexivity|]. exact (Hwin Hf).
Qed.

Lemma onDrag_frame (e : Env) (s : St) : drag_frame e s (fst (onDrag e s)).
Proof.
  unfold onDrag.
  destruct (isDragging (drag s)) eqn:Hdrag.
  2:{ apply drag_frame_same; reflexivity. }
  simpl negb. cbv iota.
  destruct (defined (snapPoints (options s)) && _ && negb (dismissible (options s))).
  { apply drag_frame_same; reflexivity. }
  assert (Hgate : exists allowed s1,
            (if isAllowedToDrag (drag s) then (true, s)
             else shouldDrag e (chain_of (target e))
                    (negb (Qle_bool (pointerStartY (drag s) - screenY e) 0)) s)
            = (allowed, s1)
            /\ same_but_prevented s s1
            /\ (allowed = true -> isAllowedToDrag (drag s) = false ->
                opened_recently e s = false)).
  { destruct (isAllowedToDrag (drag s)).
    - exists true, s. split; [reflexivity|].
      split; [apply same_but_prevented_refl|]. intros _ H. discriminate H.
    - pose proof (shouldDrag_same e (chain_of (target e))
                    (negb (Qle_bool (pointerStartY (drag s) - screenY e) 0)) s) as Hs.
      pose proof (shouldDrag_not_recent e (chain_of (target e))
                    (negb (Qle_bool (pointerStartY (drag s) - screenY e) 0)) s) as Hn.
      destruct (shouldDrag _ _ _ s) as [ok s1].
      exists ok, s1. split; [reflexivity|]. split; [exact Hs|].
      intros Hok _. apply Hn. exact Hok. }
  destruct Hgate as (allowed & s1 & -> & Hsame & Hwin).
  destruct Hsame as (_ & _ & _ & _ & Hot & _ & Href & _ & _ & _ & Hd & Ha & _).
  destruct allowed; simpl negb; cbv iota.
  2:{ apply drag_frame_same; assumption. }
  specialize (Hwin eq_refl).
  destruct (drawerRef s1) eqn:Href1; simpl negb; cbv iota.
  2:{ apply drag_frame_same; simpl fst; [exact Hd|congruence|exact Ha|exact Hot]. }
  assert (Hfinal : forall (x : St * list Effect),
            (fst x = with_drag (set_isAllowedToDrag true) s1 \/
             exists sn, fst x = set_snap sn (with_drag (set_isAllowedToDrag true) s1)) ->
            drag_frame e s (fst x)).
  { intros x [Hx | [sn Hx]]; rewrite Hx;
      (apply drag_frame_set; simpl; try congruence; exact Hwin). }
  destruct (defined (snapPoints (options s))).
  - destruct (onDragSnapPoints engine _ _) as [sn effs].
    repeat break_if; apply Hfinal; right; exists sn; reflexivity.
  - repeat break_if; apply Hfinal; left; reflexivity.
Qed.

Lemma drags_frame (moves : list Env) (s : St) :
  isDragging (drag (drags moves s)) = isDragging (drag s) /\
  drawerRef (drags moves s) = drawerRef s /\
  (isAllowedToDrag (drag s) = true -> isAllowedToDrag (drag (drags moves s)) = true) /\
  openTime (drags moves s) = openTime s.
Proof.
  revert s.
  induction moves as [|e moves IH]; intros s.
  - simpl. auto.
  - simpl.
    destruct (onDrag_frame e s) as (H1 & H2 & H3 & _ & H5).
    destruct (IH (fst (onDrag e s))) as (I1 & I2 & I3 & I4).
    rewrite I1, I2, I4, H1, H2, H5.
    split; [reflexivity|]. split; [reflexivity|]. split; [|reflexivity].
    intros Ha. apply I3, H3, Ha.
Qed.

(** A gesture in which a pointer-move set the flag is out of the window
    after the opening when it is released, as long as the clock does not
    run backwards. *)
Lemma permitted_drag_released_late
  (s : St) (move : Env) (later : list Env) (release : Env) :
  isAllowedToDrag (drag s) = false ->
  isAllowedToDrag (drag (fst (onDrag move s))) = true ->
  (now move <= now release)%Z ->
  opened_recently release (drags later (fst (onDrag move s))) = false.
Proof.
  intros Hoff Hon Hclock.
  destruct (onDrag_frame move s) as (_ & _ & _ & Hset & Hot).
  destruct (Hset Hoff Hon) as (_ & _ & Hwin).
  destruct (drags_frame later (fst (onDrag move s))) as (_ & _ & _ & Hot').
  apply (opened_recently_later move release s); [congruence|exact Hclock|exact Hwin].
Qed.

(** C3.  With [closeThreshold = 0.25], no snap points, a visible height
    of 400px and a velocity that does not exceed [VELOCITY_THRESHOLD]:
    the release of a downward drag (a gesture in which a pointer-move was
    permitted) closes the drawer when the panel is displaced by 100px or
    more ([closeDrawer] runs: unless a close is already in flight,
    [onClose] is called, the panel is sent down, the backdrop fades out and
    the 300 ms close timer is set; the callback gets [open = false]), and
    resets it to open when it is displaced by less, 99px say (the panel is
    sent back to [translate3d(0, 0, 0)], the backdrop to opacity 1, nothing
    of a close happens; the callback gets [open = true]). *)
Theorem onRelease_close_threshold
  (s : St) (move : Env) (later : list Env) (release : Env)
  (startTime : Z) (x : Q) :
  let dragged := drags later (fst (onDrag move s)) in
  isAllowedToDrag (drag s) = false ->
  isAllowedToDrag (drag (fst (onDrag move s))) = true ->
  (now move <= now release)%Z ->
  snapPoints (options dragged) = None ->
  dragStartTime (drag dragged) = Some startTime ->
  closeThreshold (options dragged) == 0.25 ->
  Qmin (rectHeight release) (innerHeight release) == 400 ->
  translateY release = Some (Fin x) ->
  distMoved_at release dragged <= 0 ->
  gt (velocity_at release dragged startTime) VELOCITY_THRESHOLD = false ->
  (100 <= x ->
     isClosing (fst (onRelease release dragged)) = true /\
     (exists before,
        snd (onRelease release dragged)
        = before
          ++ (if isClosing dragged then [] else close_sequence release (options dragged))
          ++ [CallOnRelease false]) /\
     ~ In (CallOnRelease true) (snd (onRelease release dragged)) /\
     (isClosing dragged = false -> starts_close (snd (onRelease release dragged)))) /\
  (0 < x < 100 ->
     isClosing (fst (onRelease release dragged)) = isClosing dragged /\
     isOpen (fst (onRelease release dragged)) = isOpen dragged /\
     (exists before,
        snd (onRelease release dragged)
        = before ++ [CallOnRelease true] ++ resetDrawer release dragged) /\
     ~ In (CallOnRelease false) (snd (onRelease release dragged)) /\
     resets_to_open (snd (onRelease release dragged))).
Proof.
  intros dragged Hoff Hon Hclock Hsnap Hstart Hct Hvh Hx Hdown Hslow.
  destruct (onDrag_frame move s) as (Hd & Hr & _ & Hlive & _).
  destruct (Hlive Hoff Hon) as (Hdragging & Hbound & _).
  destruct (drags_frame later (fst (onDrag move s))) as (L1 & L2 & _ & _).
  apply (onRelease_threshold_decision release dragged startTime x); try assumption.
  - unfold dragged. rewrite L1, Hd. exact Hdragging.
  - unfold dragged. rewrite L2, Hr. exact Hbound.
  - apply permitted_drag_released_late; assumption.
Qed.

(** C2.  The release of a downward drag (a gesture in which a
    pointer-move was permitted and that leaves the panel displaced
    downward, by however little) with no snap points and a velocity
    [|distMoved| / timeTaken] above [VELOCITY_THRESHOLD] closes the
    drawer: [closeDrawer] runs (unless a close is already in flight,
    [onClose] is called, the panel is sent down, the backdrop fades out and
    the 300 ms close timer is set) and the release callback gets
    [open = false], as the last act, and never [open = true]. *)
Theorem onRelease_velocity_override
  (s : St) (move : Env) (later : list Env) (release : Env)
  (startTime : Z) (x : num) :
  let dragged := drags later (fst (onDrag move s)) in
  isAllowedToDrag (drag s) = false ->
  isAllowedToDrag (drag (fst (onDrag move s))) = true ->
  (now move <= now release)%Z ->
  snapPoints (options dragged) = None ->
  dragStartTime (drag dragged) = Some startTime ->
  translateY release = Some x ->
  gt x 0 = true ->
  distMoved_at release dragged <= 0 ->
  gt (velocity_at release dragged startTime) VELOCITY_THRESHOLD = true ->
  isClosing (fst (onRelease release dragged)) = true /\
  isDragging (drag (fst (onRelease release dragged))) = false /\
  (exists before,
     snd (onRelease release dragged)
     = before
       ++ (if isClosing dragged then [] else close_sequence release (options dragged))
       ++ [CallOnRelease false]) /\
  ~ In (CallOnRelease true) (snd (onRelease release dragged)) /\
  (isClosing dragged = false -> starts_close (snd (onRelease release dragged))).
Proof.
  intros dragged Hoff Hon Hclock Hsnap Hstart Hx Hpos Hdown Hfast.
  destruct (onDrag_frame move s) as (Hd & Hr & _ & Hlive & _).
  destruct (Hlive Hoff Hon) as (Hdragging & Hbound & _).
  destruct (drags_frame later (fst (onDrag move s))) as (L1 & L2 & _ & _).
  assert (Hdrag : isDragging (drag dragged) = true).
  { unfold dragged. rewrite L1, Hd. exact Hdragging. }
  assert (Href : drawerRef dragged = true).
  { unfold dragged. rewrite L2, Hr. exact Hbound. }
  assert (Hwin : opened_recently release dragged = false).
  { apply permitted_drag_released_late; assumption. }
  assert (Hperm : permitted_at_release release dragged = true).
  { apply (permitted_displaced release dragged x); assumption. }
  assert (Hswipe : falsy (translateY release) = false).
  { rewrite Hx. apply gt_not_falsy. exact Hpos. }
  destruct (onRelease_fast_release release dragged startTime
              Hdrag Href Hsnap Hstart Hperm Hswipe Hdown Hfast)
    as (H1 & H2 & _ & H4 & H5 & H6).
  auto.
Qed.

Lemma closeDrawer_drag (e : Env) (s : St) : drag (fst (closeDrawer e s)) = drag s.
Proof.
  unfold closeDrawer. repeat break_if; reflexivity.
Qed.

Lemma run_engine_calls_drag (e : Env) (calls : list EngineCall) (s : St) :
  drag (fst (run_engine_calls e calls s)) = drag s.
Proof.
  revert s.
  induction calls as [|c calls IH]; intros s; simpl.
  - reflexivity.
  - destruct c as [|i].
    + pose proof (closeDrawer_drag e s) as Hc.
      destruct (closeDrawer e s) as [s1 effs1]. simpl in Hc.
      specialize (IH s1).
      destruct (run_engine_calls e calls s1) as [s2 effs2]. simpl in *.
      congruence.
    + rewrite IH. unfold onSnapPointChange. break_if; reflexivity.
Qed.

(** The drag stores once [onRelease] has reset them. *)
Definition at_rest (d : DragState) : Prop :=
  isAllowedToDrag d = false /\ isDragging d = false.

Lemma onRelease_at_rest (e : Env) (s : St) :
  isDragging (drag s) = true ->
  drawerRef s = true ->
  at_rest (drag (fst (onRelease e s))).
Proof.
  intros Hdrag Href.
  unfold onRelease.
  rewrite Hdrag, Href. simpl negb. simpl orb. cbv iota.
  assert (Hguard : exists refused s2,
            match target e with
            | Some el =>
                let (ok, s') := shouldDrag e el false (with_drag (released e) s) in
                (negb ok, s')
            | None => (false, with_drag (released e) s)
            end = (refused, s2)
            /\ at_rest (drag s2)).
  { destruct (target e) as [el|].
    - pose proof (shouldDrag_same e el false (with_drag (released e) s)) as Hs.
      destruct (shouldDrag e el false (with_drag (released e) s)) as [ok s'].
      exists (negb ok), s'. split; [reflexivity|].
      destruct Hs as (_ & _ & _ & _ & _ & _ & _ & _ & _ & _ & Hd & Ha & _).
      simpl in Hd, Ha. split; assumption.
    - eexists _, _. split; [reflexivity|]. split; reflexivity. }
  destruct Hguard as (refused & s2 & -> & Hrest).
  destruct (refused || falsy (translateY e) || _); [exact Hrest|].
  destruct (dragStartTime (drag s2)) as [startTime|]; [|exact Hrest].
  set (velocity := velocity_of (pointerStartY (drag s2) - screenY e) (now e - startTime)).
  assert (Hflag : exists s3 flagged,
            (if gt velocity 0.05
             then (with_drag (set_justReleased true) s2,
                   [SetTimeout JustReleasedExpire 200])
             else (s2, [])) = (s3, flagged)
            /\ at_rest (drag s3)).
  { destruct (gt velocity 0.05); eexists _, _; (split; [reflexivity|]);
      destruct Hrest; split; assumption. }
  destruct Hflag as (s3 & flagged & -> & Hrest3).
  destruct (defined (snapPoints (options s3))).
  - pose proof (run_engine_calls_drag e
                  (snap_calls (onReleaseSnapPoints engine (snap s3)
                                 (pointerStartY (drag s2) - screenY e) velocity
                                 (dismissible (options s3))))
                  (set_snap (snap_after (onReleaseSnapPoints engine (snap s3)
                                 (pointerStartY (drag s2) - screenY e) velocity
                                 (dismissible (options s3)))) s3)) as Hcalls.
    destruct (run_engine_calls e _ _) as [s4 called].
    simpl in Hcalls. simpl fst. rewrite Hcalls. exact Hrest3.
  - pose proof (closeDrawer_drag e s3) as Hclose.
    destruct (closeDrawer e s3) as [s4 closing]. simpl in Hclose.
    repeat break_if; simpl fst; try rewrite Hclose; exact Hrest3.
Qed.

(** C5.  Within a gesture ([onPress], pointer-moves, [onRelease]): once
    a pointer-move has set [isAllowedToDrag], it is set after every later
    pointer-move of the gesture, and [onRelease] resets it. *)
Theorem isAllowedToDrag_sticky
  (s0 : St) (press : Env) (earlier : list Env) (move : Env)
  (later : list Env) (release : Env) :
  let s := drags earlier (fst (onPress press s0)) in
  isAllowedToDrag (drag s) = false ->
  isAllowedToDrag (drag (fst (onDrag move s))) = true ->
  (forall k, isAllowedToDrag
               (drag (drags (firstn k later) (fst (onDrag move s)))) = true) /\
  isAllowedToDrag
    (drag (fst (onRelease release (drags later (fst (onDrag move s)))))) = false.
Proof.
  intros s Hoff Hon.
  destruct (onDrag_frame move s) as (Hd & Hr & _ & Hlive & _).
  destruct (Hlive Hoff Hon) as (Hdragging & Hbound & _).
  split.
  - intros k.
    apply (drags_frame (firstn k later) (fst (onDrag move s))).
    exact Hon.
  - destruct (drags_frame later (fst (onDrag move s))) as (L1 & L2 & _ & _).
    apply onRelease_at_rest.
    + rewrite L1, Hd. exact Hdragging.
    + rewrite L2, Hr. exact Hbound.
Qed.

(** On iOS the [touchend] listener of [onPress] resets the flag as well. *)
Lemma onTouchend_resets (s : St) :
  (0 < touchendListeners s)%nat ->
  isAllowedToDrag (drag (onTouchend s)) = false /\
  touchendListeners (onTouchend s) = 0%nat.
Proof.
  intros H. unfold onTouchend.
  destruct (touchendListeners s); [lia|]. simpl. auto.
Qed.

End Handlers.

Arguments onPress {S} e s.
Arguments onDrag {S} engine e s.
Arguments onRelease {S} engine VELOCITY_THRESHOLD TRANSITIONS_DURATION e s.
Arguments closeDrawer {S} TRANSITIONS_DURATION e s.
Arguments resetDrawer {S} e s.
Arguments shouldDrag {S} e el isDraggingDown s.
Arguments opened_recently {S} e s.
Arguments permitted_at_release {S} e s.
Arguments distMoved_at {S} e s.
Arguments velocity_at {S} e s startTime.
Arguments drags {S} engine moves s.

(** *** A drawer without snap points *)

(** Modelled from the spec: the snap-point engine ([snap-points.js]) is
    not among the sources; for a drawer without snap points the spec
    (§4.1) has it give no percentage of its own ("returns null when no
    snap points configured") and fade the backdrop with the drag ("true
    ... when no explicit fade-from index is configured"); it has no
    active index and nothing to do on drag or release. *)
Definition no_snap_engine : SnapEngine unit := {|
  activeSnapPointIndex := fun _ => None;
  shouldFade := fun _ => true;
  snapPointsOffset_length := fun _ => 0%Z;
  getSnapPointsPercentageDragged := fun _ _ _ => None;
  onDragSnapPoints := fun x _ => (x, []);
  onReleaseSnapPoints := fun x _ _ _ => mkSnapRelease unit x [] []
|}.

(** Sample values for the two constants of [constants.js]: a threshold of
    0.4 px/ms and transitions of half a second. *)
Definition sample_VELOCITY_THRESHOLD : Q := 0.4.
Definition sample_DURATION : Q := 0.5.

Definition default_opts : Opts := {|
  dismissible := true;
  snapPoints := None;
  fadeFromIndex := None;
  closeThreshold := Options.CLOSE_THRESHOLD;
  scrollLockTimeout := Options.SCROLL_LOCK_TIMEOUT;
  shouldScaleBackground := true
|}.

(** An open drawer at rest, opened at time 0. *)
Definition open_idle : State unit := {|
  options := default_opts;
  drag := mkDrag false false false 0 None None None 0;
  isOpen := true;
  hasBeenOpened := true;
  visible := true;
  openTime := Some 0%Z;
  isClosing := false;
  drawerRef := true;
  overlayRef := true;
  touchendListeners := 0;
  snap := tt
|}.

(** An element that does not scroll, and one scrolled down by 120px. *)
Definition plain : Element := mkElement 400 400 0 None.
Definition scrolled : Element := mkElement 900 400 120 None.

(** A pointer event at time [t] and height [y] on a target with the
    ancestors [chain], while the panel is displaced by [ty]; the panel is
    [height] high in a window of 400 by 800. *)
Definition pointer (t : Z) (y : Q) (chain : list Element) (ty : option num) (height : Q)
  : Env := {|
  now := t;
  screenY := y;
  target := Some chain;
  targetInDrawer := true;
  targetIsInput := false;
  isIOS := false;
  highlightedText := Some "";
  translateY := ty;
  rectHeight := height;
  innerHeight := 800;
  innerWidth := 400;
  wrapper := false
|}.

Definition press0 (s : State unit) (e : Env) : State unit := fst (onPress e s).
Definition drag0 (s : State unit) (e : Env) : State unit := fst (onDrag no_snap_engine e s).
Definition release0 (s : State unit) (e : Env) : State unit * list Effect :=
  onRelease no_snap_engine sample_VELOCITY_THRESHOLD sample_DURATION e s.

(** A flick of one pixel in two milliseconds: pressed at 300, moved to
    301 (the move is permitted and puts the panel at 1px), released. *)
Definition flick_dragged : State unit :=
  drag0 (press0 open_idle (pointer 1000 300 [plain] (Some (Fin 0)) 400))
        (pointer 1001 301 [plain] (Some (Fin 0)) 400).
Definition flick_release : Env := pointer 1002 301 [plain] (Some (Fin 1)) 400.

(** A flick over content that is scrolled down: the move is refused (the
    content scrolls instead), the panel is never displaced. *)
Definition scroll_dragged : State unit :=
  drag0 (press0 open_idle (pointer 10000 300 [scrolled; plain] None 400))
        (pointer 10010 330 [scrolled; plain] None 400).
Definition scroll_release : Env := pointer 10020 350 [scrolled; plain] None 400.

(** A slow drag of [x] pixels on a panel 400px high. *)
Definition slow_dragged (x : Q) : State unit :=
  drag0 (press0 open_idle (pointer 1000 300 [plain] (Some (Fin 0)) 400))
        (pointer 2000 (300 + x) [plain] (Some (Fin 0)) 400).
Definition slow_release (x : Q) : Env :=
  pointer 3000 (300 + x) [plain] (Some (Fin x)) 400.

(** A press 100 ms after the drawer opened, released 200 ms later while
    the opening animation has the panel at 100px. *)
Definition early_pressed : State unit :=
  press0 open_idle (pointer 100 300 [plain] (Some (Fin 250)) 400).
Definition early_release : Env := pointer 300 302 [plain] (Some (Fin 100)) 400.

(** A tap (press and release at the same height) on a panel 100px high
    that is still 40px away from its place, 100 ms long or within one
    millisecond. *)
Definition tapped : State unit :=
  press0 open_idle (pointer 1000 300 [plain] (Some (Fin 40)) 100).
Definition tap_release : Env := pointer 1100 300 [plain] (Some (Fin 40)) 100.
Definition tap_release_at_once : Env := pointer 1000 300 [plain] (Some (Fin 40)) 100.

(** A tap on a panel in its place. *)
Definition still_release : Env := pointer 1100 300 [plain] (Some (Fin 0)) 100.

Lemma onRelease_velocity_override_witness :
  isClosing (fst (release0 flick_dragged flick_release)) = true /\
  starts_close (snd (release0 flick_dragged flick_release)) /\
  (exists before,
     snd (release0 flick_dragged flick_release) = before ++ [CallOnRelease false]).
Proof.
  assert (Hdown : distMoved_at flick_release flick_dragged <= 0)
    by (apply Qle_bool_iff; reflexivity).
  destruct (onRelease_velocity_override unit no_snap_engine
              sample_VELOCITY_THRESHOLD sample_DURATION
              (press0 open_idle (pointer 1000 300 [plain] (Some (Fin 0)) 400))
              (pointer 1001 301 [plain] (Some (Fin 0)) 400)
              [] flick_release 1000%Z (Fin 1)
              eq_refl eq_refl ltac:(discriminate) eq_refl eq_refl eq_refl eq_refl
              Hdown eq_refl)
    as (Hclosing & _ & [before Heffs] & _ & Hstarts).
  split; [exact Hclosing|].
  split; [exact (Hstarts eq_refl)|].
  exists (before ++ close_sequence sample_DURATION flick_release default_opts).
  rewrite <- app_assoc. exact Heffs.
Defined.

(** A downward flick of 50px in 20 ms (2.5 px/ms, above the threshold of
    0.4) over scrolled content, no snap points: the move was refused (the
    content scrolled instead) and the panel was never displaced, so this is
    no drag of the drawer; [onRelease] stops at its guard, the drawer is
    not closed and the release callback is not called. *)
Lemma onRelease_fast_flick_not_closed :
  isDragging (drag scroll_dragged) = true /\
  isAllowedToDrag (drag scroll_dragged) = false /\
  snapPoints (options scroll_dragged) = None /\
  distMoved_at scroll_release scroll_dragged == - (50) /\
  gt (velocity_at scroll_release scroll_dragged 10000) sample_VELOCITY_THRESHOLD = true /\
  isClosing (fst (release0 scroll_dragged scroll_release)) = false /\
  isOpen (fst (release0 scroll_dragged scroll_release)) = true /\
  snd (release0 scroll_dragged scroll_release) = [ClassRemove DRAG_CLASS].
Proof.
  repeat split; vm_compute; reflexivity.
Qed.

Lemma onRelease_close_threshold_witness :
  (isClosing (fst (release0 (slow_dragged 100) (slow_release 100))) = true /\
   starts_close (snd (release0 (slow_dragged 100) (slow_release 100))) /\
   ~ In (CallOnRelease true) (snd (release0 (slow_dragged 100) (slow_release 100)))) /\
  (isClosing (fst (release0 (slow_dragged 99) (slow_release 99))) = false /\
   resets_to_open (snd (release0 (slow_dragged 99) (slow_release 99))) /\
   ~ In (CallOnRelease false) (snd (release0 (slow_dragged 99) (slow_release 99)))).
Proof.
  assert (Hdown100 : distMoved_at (slow_release 100) (slow_dragged 100) <= 0)
    by (apply Qle_bool_iff; reflexivity).
  assert (Hdown99 : distMoved_at (slow_release 99) (slow_dragged 99) <= 0)
    by (apply Qle_bool_iff; reflexivity).
  assert (Hfar : 100 <= 100) by apply Qle_refl.
  assert (Hnear : 0 < 99 < 100) by (split; reflexivity).
  split.
  - destruct (onRelease_close_threshold unit no_snap_engine
                sample_VELOCITY_THRESHOLD sample_DURATION
                (press0 open_idle (pointer 1000 300 [plain] (Some (Fin 0)) 400))
                (pointer 2000 (300 + 100) [plain] (Some (Fin 0)) 400)
                [] (slow_release 100) 1000%Z 100
                eq_refl eq_refl ltac:(discriminate) eq_refl eq_refl
                ltac:(reflexivity) ltac:(reflexivity) eq_refl Hdown100 eq_refl)
      as [Hclose _].
    destruct (Hclose Hfar) as (Hclosing & _ & Hnot & Hstarts).
    split; [exact Hclosing|]. split; [exact (Hstarts eq_refl)|exact Hnot].
  - destruct (onRelease_close_threshold unit no_snap_engine
                sample_VELOCITY_THRESHOLD sample_DURATION
                (press0 open_idle (pointer 1000 300 [plain] (Some (Fin 0)) 400))
                (pointer 2000 (300 + 99) [plain] (Some (Fin 0)) 400)
                [] (slow_release 99) 1000%Z 99
                eq_refl eq_refl ltac:(discriminate) eq_refl eq_refl
                ltac:(reflexivity) ltac:(reflexivity) eq_refl Hdown99 eq_refl)
      as [_ Hreset].
    destruct (Hreset Hnear) as (Hclosing & _ & _ & Hnot & Hresets).
    split; [exact Hclosing|]. split; [exact Hresets|exact Hnot].
Defined.

(** A release in the window after the opening, in a gesture without a
    permitted pointer-move (the panel is at 100px from the opening
    animation, 300 ms after the drawer opened): [onRelease] stops at the
    permission test; the drawer is neither closed nor reset. *)
Lemma onRelease_ignored_while_opening :
  isDragging (drag early_pressed) = true /\
  isAllowedToDrag (drag early_pressed) = false /\
  translateY early_release = Some (Fin 100) /\
  isClosing (fst (release0 early_pressed early_release)) = false /\
  snd (release0 early_pressed early_release) = [ClassRemove DRAG_CLASS].
Proof.
  repeat split; vm_compute; reflexivity.
Qed.

Lemma onRelease_degenerate_swipe_witness :
  isClosing (fst (release0 tapped still_release)) = false /\
  isOpen (fst (release0 tapped still_release)) = true /\
  forall eff, In eff (snd (release0 tapped still_release)) ->
    eff = Blur \/ eff = ClassRemove DRAG_CLASS.
Proof.
  destruct (onRelease_degenerate_swipe unit no_snap_engine
              sample_VELOCITY_THRESHOLD sample_DURATION
              still_release tapped)
    as (_ & Hopen & _ & _ & Hclosing & _ & _ & Heffs).
  - reflexivity.
  - split; [exact Hclosing|]. split; [exact Hopen|exact Heffs].
Defined.

(** C4, counterexample.  A velocity of zero (a tap: no distance moved in
    100 ms) or [NaN] (no distance in no time) does not stop [onRelease]:
    with the panel 40px from its place and a threshold of 25px the drawer
    is closed. *)
Lemma onRelease_zero_velocity_closes :
  (is_zero (velocity_at tap_release tapped 1000) = true /\
   isClosing (fst (release0 tapped tap_release)) = true /\
   In CallOnClose (snd (release0 tapped tap_release)) /\
   In (CallOnRelease false) (snd (release0 tapped tap_release))) /\
  (isNaN (velocity_at tap_release_at_once tapped 1000) = true /\
   isClosing (fst (release0 tapped tap_release_at_once)) = true /\
   In CallOnClose (snd (release0 tapped tap_release_at_once)) /\
   In (CallOnRelease false) (snd (release0 tapped tap_release_at_once))).
Proof.
  repeat split; try (vm_compute; reflexivity); vm_compute; tauto.
Qed.

(** A permitted drag: pressed at 300, moved to 310 and 320 and 330, released. *)
Definition move1 : Env := pointer 1010 310 [plain] (Some (Fin 0)) 400.
Definition move2 : Env := pointer 1020 320 [plain] (Some (Fin 10)) 400.
Definition move3 : Env := pointer 1030 330 [plain] (Some (Fin 20)) 400.
Definition lift : Env := pointer 1040 330 [plain] (Some (Fin 30)) 400.

Lemma isAllowedToDrag_sticky_witness :
  (forall k, isAllowedToDrag
     (drag (drags no_snap_engine (firstn k [move2; move3])
              (fst (onDrag no_snap_engine move1
                      (fst (onPress (pointer 1000 300 [plain] (Some (Fin 0)) 400)
                                    open_idle)))))) = true) /\
  isAllowedToDrag
    (drag (fst (release0
                  (drags no_snap_engine [move2; move3]
                     (fst (onDrag no_snap_engine move1
                             (fst (onPress (pointer 1000 300 [plain] (Some (Fin 0)) 400)
                                           open_idle)))))
                  lift))) = false.
Proof.
  apply (isAllowedToDrag_sticky unit no_snap_engine
           sample_VELOCITY_THRESHOLD sample_DURATION
           open_idle (pointer 1000 300 [plain] (Some (Fin 0)) 400)
           [] move1 [move2; move3] lift).
  - reflexivity.
  - reflexivity.
Defined.

End Gesture.

(** ** The body lock of [usePositionFixed] *)

Module PositionFixed.
Local Open Scope string_scope.
Local Open Scope list_scope.
Local Open Scope Z_scope.

(** *** Numbers in style strings *)

(** Scroll offsets are numbers ([window.scrollX], [window.scrollY] are
    doubles, and fractional on many screens): finite numbers are
    rationals here, as in the handlers above; [window.innerHeight] is an
    integer. *)

Definition digit_char (d : Z) : ascii := ascii_of_nat (48 + Z.to_nat d).

(** The digits after the point, by long division; the expansion is cut
    at 20 digits (no handler reads them: [parseInt] stops at the point). *)
Fixpoint fraction_digits (fuel : nat) (r d : Z) : string :=
  match fuel with
  | O => ""
  | S k =>
      if r =? 0 then ""
      else String (digit_char (10 * r / d)) (fraction_digits k (10 * r mod d) d)
  end.

Definition fraction (r d : Z) : string :=
  if r =? 0 then "" else "." ++ fraction_digits 20 r d.

(** [`${q}`] for a number that prints in decimal notation, which is 0
    and every number from [1e-6] to below [1e21] in absolute value (see
    [plain]): a sign, the whole part, and the fraction if there is one
    ([-120.5], [0.875], [120]); [-0] prints as [0]. *)
Definition show (q : Q) : string :=
  let n := Qnum q in
  let d := Z.pos (Qden q) in
  (if n <? 0 then "-" else "")
  ++ DecimalString.NilEmpty.string_of_uint (N.to_uint (Z.to_N (Z.abs n / d)))
  ++ fraction (Z.abs n mod d) d.

(** [`${q}px`] *)
Definition px (q : Q) : string := show q ++ "px".

(** The numbers that print in decimal notation (the others print with an
    exponent, [5e-7] or [1e+21]). *)
Definition plain (q : Q) : bool :=
  Qeq_bool q 0
  || (Qle_bool (1 # 1000000) (Qabs q) && negb (Qle_bool (inject_Z (10 ^ 21)) (Qabs q))).

(** A number without its fraction (toward zero). *)
Definition trunc (q : Q) : Z := Z.quot (Qnum q) (Z.pos (Qden q)).

Definition digit_of (c : ascii) : option (Decimal.uint -> Decimal.uint) :=
  (if Ascii.eqb c "0" then Some Decimal.D0
   else if Ascii.eqb c "1" then Some Decimal.D1
   else if Ascii.eqb c "2" then Some Decimal.D2
   else if Ascii.eqb c "3" then Some Decimal.D3
   else if Ascii.eqb c "4" then Some Decimal.D4
   else if Ascii.eqb c "5" then Some Decimal.D5
   else if Ascii.eqb c "6" then Some Decimal.D6
   else if Ascii.eqb c "7" then Some Decimal.D7
   else if Ascii.eqb c "8" then Some Decimal.D8
   else if Ascii.eqb c "9" then Some Decimal.D9
   else None)%char.

(** The longest prefix of decimal digits. *)
Fixpoint scan_digits (s : string) : Decimal.uint :=
  match s with
  | EmptyString => Decimal.Nil
  | String c rest =>
      match digit_of c with
      | Some d => d (scan_digits rest)
      | None => Decimal.Nil
      end
  end.

Definition is_space (c : ascii) : bool :=
  (Ascii.eqb c " " || Ascii.eqb c "009" || Ascii.eqb c "010"
   || Ascii.eqb c "011" || Ascii.eqb c "012" || Ascii.eqb c "013")%char.

Fixpoint skip_spaces (s : string) : string :=
  match s with
  | String c rest => if is_space c then skip_spaces rest else s
  | EmptyString => s
  end.

(** [parseInt(s, 10)]: leading white space, a sign, the longest run of
    digits; [None] is [NaN]. *)
Definition parseInt (s : string) : option Z :=
  let unsigned (negative : bool) (digits : string) :=
    match scan_digits digits with
    | Decimal.Nil => None
    | d => Some (Z.of_int (if negative then Decimal.Neg d else Decimal.Pos d))
    end in
  match skip_spaces s with
  | String c rest =>
      if Ascii.eqb c "-"%char then unsigned true rest
      else if Ascii.eqb c "+"%char then unsigned false rest
      else unsigned false (String c rest)
  | EmptyString => None
  end.

(** [-n] on a number that may be [NaN]. *)
Definition negate (n : option Z) : option Z := option_map Z.opp n.

(** *** The page and the hooks *)

(** The inline styles of [document.body] that the lock touches; the flag
    is the [!important] priority of [position]. *)
Record BodyStyle : Type := mkBody {
  position : string;
  position_important : bool;
  top : string;
  left : string;
  right : string;
  height : string
}.

(** [previousBodyPosition], when it is not [null]. *)
Record Snapshot : Type := mkSnapshot {
  prev_position : string;
  prev_top : string;
  prev_left : string;
  prev_height : string
}.

Record Window : Type := mkWindow {
  scrollX : Q;
  scrollY : Q;
  innerHeight : Z;
  href : string
    (** [window.location.href] *)
}.

(** One call of [usePositionFixed]: the four stores it is given and the
    two it creates. *)
Record Hook : Type := mkHook {
  isOpen : bool;
  modal : bool;
  nested : bool;
  hasBeenOpened : bool;
  activeUrl : string;
  scrollPos : Q
}.

(** The callbacks given to [requestAnimationFrame]. *)
Inductive Frame : Type :=
| BottomBar (scrollPos0 : Q) (innerHeight0 : Z)
    (** the check of [setPositionFixed], with the [$scrollPos] and
        [innerHeight] it read *)
| RestoreScroll (hook : nat) (activeUrl0 : string) (x y : option Z)
    (** the callback of [restorePositionSetting] of a hook, with the
        [$activeUrl], [x] and [y] it read *).

(** The callbacks given to [setTimeout], with their delay. *)
Inductive Timer : Type :=
| RequestFrame (f : Frame) (ms : Z)
| AutoRestore (hook : nat) (ms : Z).

(** The module variable, the page, the hooks in use, what is scheduled
    and the calls of [window.scrollTo] so far. *)
Record World : Type := mkWorld {
  previousBodyPosition : option Snapshot;
  body : BodyStyle;
  window : Window;
  hooks : list Hook;
  timers : list Timer;
  frames : list Frame;
  scrolledTo : list (option Z * option Z)
}.

Fixpoint update_nth {A : Type} (i : nat) (f : A -> A) (l : list A) : list A :=
  match l, i with
  | [], _ => []
  | a :: rest, O => f a :: rest
  | a :: rest, S j => a :: update_nth j f rest
  end.

Definition set_activeUrl (url : string) (h : Hook) : Hook :=
  mkHook (isOpen h) (modal h) (nested h) (hasBeenOpened h) url (scrollPos h).
Definition set_scrollPos (y : Q) (h : Hook) : Hook :=
  mkHook (isOpen h) (modal h) (nested h) (hasBeenOpened h) (activeUrl h) y.
Definition set_isOpen (b : bool) (h : Hook) : Hook :=
  mkHook b (modal h) (nested h) (hasBeenOpened h) (activeUrl h) (scrollPos h).
Definition set_hasBeenOpened (b : bool) (h : Hook) : Hook :=
  mkHook (isOpen h) (modal h) (nested h) b (activeUrl h) (scrollPos h).

(** [setPositionFixed] of the hook [i] *)
Definition setPositionFixed (i : nat) (w : World) : World :=
  match nth_error (hooks w) i with
  | None => w
  | Some h =>
      match previousBodyPosition w with
      | Some _ => w
      | None =>
          if isOpen h then
            let b := body w in
            {| previousBodyPosition :=
                 Some (mkSnapshot (position b) (top b) (left b) (height b));
               body := {| position := "fixed";
                          position_important := true;
                          top := px (- scrollPos h);
                          left := px (- scrollX (window w));
                          right := "0px";
                          height := "auto" |};
               window := window w;
               hooks := hooks w;
               timers := timers w
                         ++ [RequestFrame
                               (BottomBar (scrollPos h) (innerHeight (window w))) 300];
               frames := frames w;
               scrolledTo := scrolledTo w |}
          else w
      end
  end.

(** [restorePositionSetting] of the hook [i] *)
Definition restorePositionSetting (i : nat) (w : World) : World :=
  match nth_error (hooks w) i with
  | None => w
  | Some h =>
      match previousBodyPosition w with
      | None => w
      | Some prev =>
          let y := negate (parseInt (top (body w))) in
          let x := negate (parseInt (left (body w))) in
          {| previousBodyPosition := None;
             body := {| position := prev_position prev;
                        position_important := false;
                        top := prev_top prev;
                        left := prev_left prev;
                        right := "unset";
                        height := prev_height prev |};
             window := window w;
             hooks := hooks w;
             timers := timers w;
             frames := frames w ++ [RestoreScroll i (activeUrl h) x y];
             scrolledTo := scrolledTo w |}
      end
  end.

Definition with_hooks (f : list Hook -> list Hook) (w : World) : World :=
  mkWorld (previousBodyPosition w) (body w) (window w) (f (hooks w))
          (timers w) (frames w) (scrolledTo w).

(** The callback of [effect([isOpen, activeUrl], ...)] of the hook [i]. *)
Definition effect (i : nat) (w : World) : World :=
  match nth_error (hooks w) i with
  | None => w
  | Some h =>
      if nested h || negb (hasBeenOpened h) then w
      else if isOpen h then
        let w1 := setPositionFixed i w in
        if negb (modal h) then
          mkWorld (previousBodyPosition w1) (body w1) (window w1) (hooks w1)
                  (timers w1 ++ [AutoRestore i 500]) (frames w1) (scrolledTo w1)
        else w1
      else restorePositionSetting i w
  end.

(** A frame callback, when the browser runs it.  In the callback of
    [restorePositionSetting], [activeUrl.set(window.location.href)]
    changes a store the effect of the hook depends on: when the value is
    a new one the store notifies, and the effect callback runs again. *)
Definition run_frame (f : Frame) (w : World) : World :=
  match f with
  | BottomBar scrollPos0 innerHeight0 =>
      let bottomBarHeight := innerHeight0 - innerHeight (window w) in
      if negb (bottomBarHeight =? 0) && Qle_bool (inject_Z innerHeight0) scrollPos0 then
        let b := body w in
        mkWorld (previousBodyPosition w)
                (mkBody (position b) (position_important b)
                        (px (- (scrollPos0 + inject_Z bottomBarHeight)))
                        (left b) (right b) (height b))
                (window w) (hooks w) (timers w) (frames w) (scrolledTo w)
      else w
  | RestoreScroll i activeUrl0 x y =>
      if negb (String.eqb activeUrl0 (href (window w))) then
        let w1 := with_hooks (update_nth i (set_activeUrl (href (window w)))) w in
        match nth_error (hooks w) i with
        | Some h => if String.eqb (activeUrl h) (href (window w)) then w1 else effect i w1
        | None => w1
        end
      else
        mkWorld (previousBodyPosition w) (body w) (window w) (hooks w)
                (timers w) (frames w) (scrolledTo w ++ [(x, y)])
  end.

(** The browser runs the oldest pending frame callback. *)
Definition next_frame (w : World) : World :=
  match frames w with
  | [] => w
  | f :: rest =>
      run_frame f (mkWorld (previousBodyPosition w) (body w) (window w) (hooks w)
                           (timers w) rest (scrolledTo w))
  end.


(** [usePositionFixed] with its [onMount]: a new hook, with the URL of
    the moment and the scroll offset of the moment. *)
Definition usePositionFixed (open modal0 nested0 opened : bool) (w : World) : World :=
  mkWorld (previousBodyPosition w) (body w) (window w)
          (hooks w ++ [mkHook open modal0 nested0 opened
                              (href (window w)) (scrollY (window w))])
          (timers w) (frames w) (scrolledTo w).

(** The [scroll] listener of every hook: [scrollPos.set(window.scrollY)]. *)
Definition onScroll (y : Q) (w : World) : World :=
  mkWorld (previousBodyPosition w) (body w)
          (mkWindow (scrollX (window w)) y (innerHeight (window w)) (href (window w)))
          (map (set_scrollPos y) (hooks w))
          (timers w) (frames w) (scrolledTo w).

(** A navigation inside the application: the URL changes, the hooks stay. *)
Definition navigate (url : string) (w : World) : World :=
  mkWorld (previousBodyPosition w) (body w)
          (mkWindow (scrollX (window w)) (scrollY (window w))
                    (innerHeight (window w)) url)
          (hooks w) (timers w) (frames w) (scrolledTo w).

(** [openDrawer] as the hook [i] sees it: [hasBeenOpened.set(true);
    isOpen.set(true)], and the effect runs on the change of [isOpen]. *)
Definition openDrawer (i : nat) (w : World) : World :=
  effect i (with_hooks (update_nth i (fun h => set_isOpen true (set_hasBeenOpened true h))) w).

(** The end of a close as the hook [i] sees it: [isOpen.set(false)], and
    the effect runs. *)
Definition closed (i : nat) (w : World) : World :=
  effect i (with_hooks (update_nth i (set_isOpen false)) w).

(** *** Reading back a pinned offset *)

(** What may follow the digits of the whole part: nothing, or a
    character that is no digit. *)
Definition ends_digits (tail : string) : Prop :=
  match tail with
  | EmptyString => True
  | String c _ => digit_of c = None
  end.

Lemma append_assoc (a b c : string) : ((a ++ b) ++ c = a ++ (b ++ c))%string.
Proof.
  induction a as [|x a IH]; simpl; [reflexivity|rewrite IH; reflexivity].
Qed.

Lemma scan_digits_tail (d : Decimal.uint) (tail : string) :
  ends_digits tail ->
  scan_digits (DecimalString.NilEmpty.string_of_uint d ++ tail)%string = d.
Proof.
  intros Ht.
  induction d; simpl; try rewrite IHd; try reflexivity.
  destruct tail as [|c rest]; simpl; [reflexivity|].
  simpl in Ht. rewrite Ht. reflexivity.
Qed.

Lemma parseInt_digits (d : Decimal.uint) (negative : bool) (tail : string) :
  d <> Decimal.Nil ->
  ends_digits tail ->
  parseInt ((if negative then "-" else "")
            ++ DecimalString.NilEmpty.string_of_uint d ++ tail)%string
  = Some (Z.of_int (if negative then Decimal.Neg d else Decimal.Pos d)).
Proof.
  intros Hd Ht.
  destruct negative.
  - unfold parseInt. simpl skip_spaces. cbv iota.
    change (Ascii.eqb "-" "-") with true. cbv iota.
    rewrite (scan_digits_tail d tail Ht).
    destruct d; [contradiction|reflexivity..].
  - change ("" ++ DecimalString.NilEmpty.string_of_uint d ++ tail)%string
      with (DecimalString.NilEmpty.string_of_uint d ++ tail)%string.
    pose proof (scan_digits_tail d tail Ht) as Hscan.
    destruct d; [contradiction|..];
      unfold parseInt; simpl skip_spaces; cbv iota;
      simpl Ascii.eqb; cbv iota;
      simpl DecimalString.NilEmpty.string_of_uint in Hscan;
      simpl append in Hscan; rewrite Hscan; reflexivity.
Qed.

Lemma to_uint_nonnil (k : N) : N.to_uint k <> Decimal.Nil.
Proof.
  destruct k as [|p]; simpl.
  - discriminate.
  - apply DecimalPos.Unsigned.to_uint_nonnil.
Qed.

Lemma of_to_uint (k : N) : Z.of_uint (N.to_uint k) = Z.of_N k.
Proof.
  unfold Z.of_uint. f_equal. apply DecimalN.Unsigned.of_to.
Qed.

Lemma fraction_tail (r d : Z) : ends_digits (fraction r d ++ "px").
Proof.
  unfold fraction. destruct (r =? 0); simpl; reflexivity.
Qed.

(** [parseInt(`${q}px`, 10)] is [q] without its fraction. *)
Lemma parseInt_px (q : Q) : parseInt (px q) = Some (trunc q).
Proof.
  unfold px, show, trunc.
  destruct q as [n d]. simpl Qnum. simpl Qden.
  rewrite !append_assoc.
  rewrite (parseInt_digits _ (n <? 0) _ (to_uint_nonnil _) (fraction_tail _ _)).
  f_equal.
  assert (Hq : 0 <= Z.abs n / Z.pos d) by (apply Z.div_pos; lia).
  destruct (Z.ltb_spec n 0) as [Hneg|Hpos]; simpl Z.of_int;
    rewrite of_to_uint, Z2N.id by exact Hq.
  - rewrite Z.abs_neq by lia.
    rewrite <- (Z.opp_involutive n) at 2.
    rewrite Z.quot_opp_l by lia.
    rewrite Z.quot_div_nonneg by lia. reflexivity.
  - rewrite Z.abs_eq by lia.
    rewrite Z.quot_div_nonneg by lia. reflexivity.
Qed.

Lemma trunc_opp (q : Q) : trunc (- q) = - trunc q.
Proof.
  unfold trunc. destruct q as [n d]. simpl.
  apply Z.quot_opp_l. lia.
Qed.

Lemma trunc_whole (n : Z) : trunc (inject_Z n) = n.
Proof.
  unfold trunc. simpl. apply Z.quot_1_r.
Qed.

(** What [restorePositionSetting] reads back from a pinned offset:
    [-parseInt(`${-q}px`, 10)]. *)
Lemma pinned_reads_back (q : Q) : negate (parseInt (px (- q))) = Some (trunc q).
Proof.
  rewrite parseInt_px. simpl. rewrite trunc_opp, Z.opp_involutive. reflexivity.
Qed.

(** *** The lock *)

(** The snapshot [setPositionFixed] takes, and the pinned styles it
    writes. *)
Definition snapshot_of (b : BodyStyle) : Snapshot :=
  mkSnapshot (position b) (top b) (left b) (height b).

Definition pinned (h : Hook) (w : World) : BodyStyle :=
  mkBody "fixed" true (px (- scrollPos h)) (px (- scrollX (window w))) "0px" "auto".

(** The styles [restorePositionSetting] writes back. *)
Definition restored (prev : Snapshot) : BodyStyle :=
  mkBody (prev_position prev) false (prev_top prev) (prev_left prev)
         "unset" (prev_height prev).

Lemma nth_error_update_nth {A : Type} (f : A -> A) (l : list A) (i : nat) :
  nth_error (update_nth i f l) i = option_map f (nth_error l i).
Proof.
  revert i.
  induction l as [|a l IH]; intros [|i]; simpl; auto.
Qed.

Lemma setPositionFixed_locked (i : nat) (w : World) (sn : Snapshot) :
  previousBodyPosition w = Some sn -> setPositionFixed i w = w.
Proof.
  intros H. unfold setPositionFixed.
  rewrite H. destruct (nth_error (hooks w) i); reflexivity.
Qed.

Lemma setPositionFixed_not_open (i : nat) (w : World) (h : Hook) :
  nth_error (hooks w) i = Some h -> isOpen h = false ->
  setPositionFixed i w = w.
Proof.
  intros Hh Ho. unfold setPositionFixed.
  rewrite Hh, Ho. destruct (previousBodyPosition w); reflexivity.
Qed.

Lemma setPositionFixed_locks (i : nat) (w : World) (h : Hook) :
  nth_error (hooks w) i = Some h ->
  previousBodyPosition w = None ->
  isOpen h = true ->
  previousBodyPosition (setPositionFixed i w) = Some (snapshot_of (body w)) /\
  body (setPositionFixed i w) = pinned h w.
Proof.
  intros Hh Hp Ho. unfold setPositionFixed.
  rewrite Hh, Hp, Ho. split; reflexivity.
Qed.

Lemma effect_open_locked (i : nat) (w : World) (sn : Snapshot) (h : Hook) :
  previousBodyPosition w = Some sn ->
  nth_error (hooks w) i = Some h ->
  isOpen h = true ->
  previousBodyPosition (effect i w) = Some sn /\ body (effect i w) = body w.
Proof.
  intros Hp Hh Ho. unfold effect.
  rewrite Hh, Ho, (setPositionFixed_locked i w sn Hp).
  destruct (nested h || negb (hasBeenOpened h)); [auto|].
  destruct (negb (modal h)); simpl; auto.
Qed.

Lemma openDrawer_locked (i : nat) (w : World) (sn : Snapshot) :
  previousBodyPosition w = Some sn ->
  previousBodyPosition (openDrawer i w) = Some sn /\
  body (openDrawer i w) = body w.
Proof.
  intros Hp. unfold openDrawer.
  set (w' := with_hooks _ w).
  assert (Hp' : previousBodyPosition w' = Some sn) by exact Hp.
  destruct (nth_error (hooks w') i) as [h|] eqn:Hh.
  - apply (effect_open_locked i w' sn h Hp' Hh).
    unfold w', with_hooks in Hh. simpl in Hh.
    rewrite nth_error_update_nth in Hh.
    destruct (nth_error (hooks w) i); simpl in Hh; [|discriminate Hh].
    injection Hh as <-. reflexivity.
  - unfold effect. rewrite Hh. auto.
Qed.

(** Any run of [setPositionFixed] calls, of whatever hooks. *)
Definition lock_calls (calls : list nat) (w : World) : World :=
  fold_left (fun st i => setPositionFixed i st) calls w.

Lemma lock_calls_locked (calls : list nat) (w : World) (sn : Snapshot) :
  previousBodyPosition w = Some sn -> lock_calls calls w = w.
Proof.
  intros Hp.
  induction calls as [|i calls IH]; simpl.
  - reflexivity.
  - unfold lock_calls in *. simpl.
    rewrite (setPositionFixed_locked i w sn Hp). exact IH.
Qed.

(** C6.  [setPositionFixed] takes the snapshot (and pins the body) only
    when [previousBodyPosition] is [null] and the drawer is open; while
    the snapshot is there, no [setPositionFixed] call and no further open,
    of the same or of another hook, changes the snapshot or the styles of
    the body: the first opener holds the lock. *)
Theorem snapshot_taken_once :
  (forall i w h,
     nth_error (hooks w) i = Some h ->
     previousBodyPosition w = None -> isOpen h = true ->
     previousBodyPosition (setPositionFixed i w) = Some (snapshot_of (body w)) /\
     body (setPositionFixed i w) = pinned h w) /\
  (forall i w h,
     nth_error (hooks w) i = Some h -> isOpen h = false ->
     setPositionFixed i w = w) /\
  (forall calls w sn,
     previousBodyPosition w = Some sn -> lock_calls calls w = w) /\
  (forall i w sn,
     previousBodyPosition w = Some sn ->
     previousBodyPosition (openDrawer i w) = Some sn /\
     body (openDrawer i w) = body w).
Proof.
  split; [|split; [|split]].
  - exact setPositionFixed_locks.
  - exact setPositionFixed_not_open.
  - exact lock_calls_locked.
  - exact openDrawer_locked.
Qed.

(** *** The restore *)

Lemma restore_unlocked (i : nat) (w : World) :
  previousBodyPosition w = None -> restorePositionSetting i w = w.
Proof.
  intros H. unfold restorePositionSetting.
  rewrite H. destruct (nth_error (hooks w) i); reflexivity.
Qed.

Lemma restore_unlocks (i : nat) (w : World) (h : Hook) :
  nth_error (hooks w) i = Some h ->
  previousBodyPosition (restorePositionSetting i w) = None.
Proof.
  intros Hh. unfold restorePositionSetting. rewrite Hh.
  destruct (previousBodyPosition w) eqn:Hp; [reflexivity|exact Hp].
Qed.

(** C7.  [restorePositionSetting] is idempotent: without a snapshot it
    does nothing, and it leaves no snapshot, so a second call in a row (of
    the same hook) changes nothing: not the styles of the body, not the
    snapshot, nor anything else of the page. *)
Theorem restorePositionSetting_idempotent :
  (forall i w, previousBodyPosition w = None -> restorePositionSetting i w = w) /\
  (forall i w,
     restorePositionSetting i (restorePositionSetting i w)
     = restorePositionSetting i w).
Proof.
  split.
  - exact restore_unlocked.
  - intros i w.
    destruct (nth_error (hooks w) i) as [h|] eqn:Hh.
    + apply restore_unlocked.
      exact (restore_unlocks i w h Hh).
    + unfold restorePositionSetting. rewrite Hh. rewrite Hh. reflexivity.
Qed.

(** The second call may as well be another hook's. *)
Lemma restore_twice_any (i j : nat) (w : World) (h : Hook) :
  nth_error (hooks w) i = Some h ->
  restorePositionSetting j (restorePositionSetting i w) = restorePositionSetting i w.
Proof.
  intros Hh. apply restore_unlocked. exact (restore_unlocks i w h Hh).
Qed.

(** The frame callback of a restore on a page whose URL is not the one
    the restore read: nothing is scrolled and [activeUrl] takes the URL of
    the page; when that is a new value for the store, the effect of the
    hook runs again. *)
Lemma run_frame_mismatch (i : nat) (url : string) (x y : option Z) (w : World) :
  href (window w) <> url ->
  let w1 := with_hooks (update_nth i (set_activeUrl (href (window w)))) w in
  run_frame (RestoreScroll i url x y) w
  = match nth_error (hooks w) i with
    | Some h => if String.eqb (activeUrl h) (href (window w)) then w1 else effect i w1
    | None => w1
    end.
Proof.
  intros Hu w1. unfold run_frame.
  destruct (String.eqb_spec url (href (window w))) as [E|_];
    [symmetry in E; contradiction|reflexivity].
Qed.

(** The effect callback scrolls nothing and leaves the stores of the
    hooks alone. *)
Lemma effect_frame (i : nat) (w : World) :
  scrolledTo (effect i w) = scrolledTo w /\ hooks (effect i w) = hooks w.
Proof.
  unfold effect, setPositionFixed, restorePositionSetting.
  destruct (nth_error (hooks w) i) as [h|]; [|auto].
  destruct (nested h || negb (hasBeenOpened h)); [auto|].
  destruct (isOpen h); destruct (previousBodyPosition w);
    destruct (negb (modal h)); simpl; auto.
Qed.

(** C8 (as amended).  With a snapshot, [restorePositionSetting] writes
    the snapshotted styles back, clears the snapshot and asks for an
    animation frame; in that frame the window is scrolled to the
    coordinates read from the pinned styles ([-parseInt(left)],
    [-parseInt(top)]) only when the URL of the page equals the hook's
    [activeUrl] (the URL at the time the hook was created, or at the last
    restore that found another one); otherwise nothing is scrolled and
    [activeUrl] takes the URL of the page, which runs the effect of the
    hook again: a drawer that is closed (or nested, or never opened) keeps
    the restored body, a drawer that is open pins the body again. *)
Theorem restore_scrolls_when_url_is_activeUrl
  (i : nat) (w : World) (h : Hook) (prev : Snapshot) :
  nth_error (hooks w) i = Some h ->
  previousBodyPosition w = Some prev ->
  let x := negate (parseInt (left (body w))) in
  let y := negate (parseInt (top (body w))) in
  let scroll := RestoreScroll i (activeUrl h) x y in
  previousBodyPosition (restorePositionSetting i w) = None /\
  body (restorePositionSetting i w) = restored prev /\
  frames (restorePositionSetting i w) = frames w ++ [scroll] /\
  scrolledTo (restorePositionSetting i w) = scrolledTo w /\
  (forall w',
     href (window w') = activeUrl h ->
     scrolledTo (run_frame scroll w') = scrolledTo w' ++ [(x, y)] /\
     body (run_frame scroll w') = body w' /\
     previousBodyPosition (run_frame scroll w') = previousBodyPosition w' /\
     hooks (run_frame scroll w') = hooks w') /\
  (forall w',
     href (window w') <> activeUrl h ->
     scrolledTo (run_frame scroll w') = scrolledTo w' /\
     hooks (run_frame scroll w')
     = update_nth i (set_activeUrl (href (window w'))) (hooks w') /\
     (forall h',
        nth_error (hooks w') i = Some h' ->
        activeUrl h' <> href (window w') ->
        previousBodyPosition w' = None ->
        (isOpen h' = false \/ nested h' = true \/ hasBeenOpened h' = false ->
         body (run_frame scroll w') = body w' /\
         previousBodyPosition (run_frame scroll w') = None) /\
        (isOpen h' = true -> nested h' = false -> hasBeenOpened h' = true ->
         body (run_frame scroll w') = pinned h' w' /\
         previousBodyPosition (run_frame scroll w') = Some (snapshot_of (body w'))))).
Proof.
  intros Hh Hp x y scroll.
  assert (Hrestore : restorePositionSetting i w
                     = mkWorld None (restored prev) (window w) (hooks w) (timers w)
                               (frames w ++ [scroll]) (scrolledTo w)).
  { unfold restorePositionSetting. rewrite Hh, Hp. reflexivity. }
  rewrite Hrestore. clear Hrestore.
  split; [reflexivity|]. split; [reflexivity|].
  split; [reflexivity|]. split; [reflexivity|].
  split.
  - intros w' Hu. unfold scroll, run_frame.
    rewrite Hu, String.eqb_refl. simpl. auto.
  - intros w' Hu.
    unfold scroll. rewrite (run_frame_mismatch i _ x y w' Hu).
    set (w1 := with_hooks (update_nth i (set_activeUrl (href (window w')))) w').
    assert (Hframe : scrolledTo (effect i w1) = scrolledTo w' /\
                     hooks (effect i w1)
                     = update_nth i (set_activeUrl (href (window w'))) (hooks w'))
      by (apply (effect_frame i w1)).
    split; [|split].
    + destruct (nth_error (hooks w') i) as [h0|]; [|reflexivity].
      destruct (String.eqb (activeUrl h0) (href (window w'))); [reflexivity|].
      apply Hframe.
    + destruct (nth_error (hooks w') i) as [h0|]; [|reflexivity].
      destruct (String.eqb (activeUrl h0) (href (window w'))); [reflexivity|].
      apply Hframe.
    + intros h' Hh' Hnew Hnone.
      rewrite Hh'.
      destruct (String.eqb_spec (activeUrl h') (href (window w'))) as [E|_];
        [contradiction|].
      assert (Hh1 : nth_error (hooks w1) i = Some (set_activeUrl (href (window w')) h')).
      { unfold w1, with_hooks. simpl. rewrite nth_error_update_nth, Hh'. reflexivity. }
      unfold effect. rewrite Hh1. simpl.
      split.
      * intros Hcase.
        destruct (nested h' || negb (hasBeenOpened h')) eqn:Hguard; [auto|].
        apply orb_false_iff in Hguard. destruct Hguard as [Hn Hb].
        apply negb_false_iff in Hb.
        destruct Hcase as [Ho|[Hn'|Hb']]; [|congruence|congruence].
        rewrite Ho.
        rewrite (restore_unlocked i w1 Hnone). auto.
      * intros Ho Hn Hb. rewrite Hn, Hb, Ho. simpl.
        unfold setPositionFixed. rewrite Hh1.
        change (previousBodyPosition w1) with (previousBodyPosition w').
        rewrite Hnone. simpl. rewrite Ho.
        destruct (modal h'); simpl; split; reflexivity.
Qed.

(** A lock followed by a restore on the same page scrolls back to the
    offsets the lock pinned, without their fractions. *)
Lemma lock_then_restore_scrolls_back (i : nat) (w : World) (h : Hook) :
  nth_error (hooks w) i = Some h ->
  previousBodyPosition w = None ->
  isOpen h = true ->
  frames w = [] ->
  activeUrl h = href (window w) ->
  scrolledTo (next_frame (restorePositionSetting i (setPositionFixed i w)))
  = scrolledTo w ++ [(Some (trunc (scrollX (window w))), Some (trunc (scrollPos h)))].
Proof.
  intros Hh Hp Ho Hf Hu.
  unfold setPositionFixed. rewrite Hh, Hp, Ho.
  unfold restorePositionSetting. simpl. rewrite Hh, Hf.
  unfold next_frame. simpl.
  rewrite Hu, String.eqb_refl. simpl.
  rewrite !pinned_reads_back. reflexivity.
Qed.

(** *** A page with a drawer in its layout *)

Definition home : string := "https://app.example/".
Definition about : string := "https://app.example/about".

(** The home page, not scrolled, no inline style on the body, no hook. *)
Definition fresh_page : World := {|
  previousBodyPosition := None;
  body := mkBody "" false "" "" "" "";
  window := mkWindow 0 0 800 home;
  hooks := [];
  timers := [];
  frames := [];
  scrolledTo := []
|}.

(** The drawer's hook is created on the home page; the user goes to the
    about page and scrolls down by 120px. *)
Definition on_about : World :=
  onScroll 120 (navigate about (usePositionFixed false true false false fresh_page)).

(** The drawer opens there: the body is locked on the about page. *)
Definition locked_on_about : World := openDrawer 0 on_about.

(** A link in the drawer leads home, and the drawer closes. *)
Definition back_home : World := navigate home locked_on_about.
Definition closed_at_home : World := closed 0 back_home.

(** A second drawer (another hook) that opens while the first holds the
    lock. *)
Definition two_drawers : World :=
  openDrawer 0 (usePositionFixed false true false false on_about).

Example parseInt_examples :
  parseInt "-120px" = Some (-120) /\ parseInt "0px" = Some 0 /\
  parseInt "  42.5px" = Some 42 /\ parseInt "" = None /\ parseInt "auto" = None.
Proof. repeat split. Qed.

Lemma snapshot_taken_once_witness :
  previousBodyPosition two_drawers = Some (mkSnapshot "" "" "" "") /\
  top (body two_drawers) = "-120px" /\
  previousBodyPosition (openDrawer 1 two_drawers) = previousBodyPosition two_drawers /\
  body (openDrawer 1 two_drawers) = body two_drawers.
Proof.
  destruct snapshot_taken_once as (_ & _ & _ & Hopen).
  destruct (Hopen 1%nat two_drawers (mkSnapshot "" "" "" "") eq_refl) as [Hp Hb].
  split; [reflexivity|]. split; [reflexivity|].
  split; [exact Hp|exact Hb].
Defined.

Lemma restorePositionSetting_idempotent_witness :
  restorePositionSetting 0 (restorePositionSetting 0 locked_on_about)
  = restorePositionSetting 0 locked_on_about /\
  body (restorePositionSetting 0 locked_on_about) = mkBody "" false "" "" "unset" "".
Proof.
  destruct restorePositionSetting_idempotent as [_ Htwice].
  split; [apply Htwice|reflexivity].
Defined.

Lemma restore_scrolls_when_url_is_activeUrl_witness :
  previousBodyPosition (restorePositionSetting 0 locked_on_about) = None /\
  body (restorePositionSetting 0 locked_on_about) = restored (mkSnapshot "" "" "" "") /\
  frames (restorePositionSetting 0 locked_on_about)
  = [RestoreScroll 0 home (Some 0) (Some 120)] /\
  scrolledTo (next_frame (restorePositionSetting 0 locked_on_about)) = [] /\
  top (body (run_frame (RestoreScroll 0 home (Some 0) (Some 120))
                       (restorePositionSetting 0 locked_on_about))) = "-120px".
Proof.
  destruct (restore_scrolls_when_url_is_activeUrl 0 locked_on_about
              (mkHook true true false true home 120) (mkSnapshot "" "" "" "")
              eq_refl eq_refl)
    as (Hp & Hb & Hf & _ & _ & Hmismatch).
  split; [exact Hp|]. split; [exact Hb|]. split; [exact Hf|].
  split; [reflexivity|].
  assert (Hurl : href (window (restorePositionSetting 0 locked_on_about)) <> home)
    by discriminate.
  destruct (Hmismatch (restorePositionSetting 0 locked_on_about) Hurl)
    as (_ & _ & Hagain).
  assert (Hnew : activeUrl (mkHook true true false true home 120)
                 <> href (window (restorePositionSetting 0 locked_on_about)))
    by discriminate.
  destruct (Hagain (mkHook true true false true home 120) eq_refl Hnew eq_refl)
    as [_ Hopen].
  destruct (Hopen eq_refl eq_refl eq_refl) as [Hbody _].
  change (top (body (run_frame (RestoreScroll 0 (activeUrl (mkHook true true false true home 120))
                        (negate (parseInt (left (body locked_on_about))))
                        (negate (parseInt (top (body locked_on_about)))))
                     (restorePositionSetting 0 locked_on_about))) = "-120px").
  rewrite Hbody. reflexivity.
Defined.

(** C8, counterexample.  The body is locked on the about page; the page
    has changed to the home page by the time of the restore; the hook's
    [activeUrl] is still the home page, where it was created: the window
    is scrolled to the offset of the about page all the same. *)
Lemma restore_scrolls_after_url_change :
  previousBodyPosition on_about = None /\
  previousBodyPosition locked_on_about = Some (mkSnapshot "" "" "" "") /\
  href (window locked_on_about) = about /\
  href (window closed_at_home) = home /\
  about <> home /\
  previousBodyPosition closed_at_home = None /\
  scrolledTo (next_frame closed_at_home) = [(Some 0, Some 120)].
Proof.
  repeat split; try reflexivity.
  intros H. discriminate H.
Qed.

End PositionFixed.

(** ** More on the body lock: round trips and the hooks sharing it *)

Module LockFacts.
Import PositionFixed.
Local Open Scope string_scope.
Local Open Scope list_scope.
Local Open Scope Z_scope.

(** The browser chrome changes the height of the window (a bottom bar
    comes or goes). *)
Definition resize (h : Z) (w : World) : World :=
  mkWorld (previousBodyPosition w) (body w)
          (mkWindow (scrollX (window w)) (scrollY (window w)) h (href (window w)))
          (hooks w) (timers w) (frames w) (scrolledTo w).

(** The lock of the hook [i], its restore and the frame the restore asked
    for. *)
Definition lock_and_restore (i : nat) (w : World) : World :=
  next_frame (restorePositionSetting i (setPositionFixed i w)).

Lemma nth_error_update_nth_other {A : Type} (f : A -> A) (l : list A) (i j : nat) :
  i <> j -> nth_error (update_nth j f l) i = nth_error l i.
Proof.
  revert i j.
  induction l as [|a l IH]; intros [|i] [|j] Hij; simpl; auto.
  - contradiction.
Qed.

(** X1.  What [setPositionFixed] writes into [top] and [left] reads back
    exactly: [-parseInt(`${-n}px`)] is [n] for every whole offset [n],
    negative ones and zero included. *)
Theorem pinned_offset_reads_back (n : Z) :
  negate (parseInt (px (- inject_Z n))) = Some n /\ parseInt (px (inject_Z n)) = Some n.
Proof.
  split.
  - rewrite pinned_reads_back. rewrite trunc_whole. reflexivity.
  - rewrite parseInt_px. rewrite trunc_whole. reflexivity.
Qed.

(** A number that is whole keeps its value without its fraction, and
    only such a number does. *)
Lemma trunc_exact (q : Q) :
  (inject_Z (trunc q) == q)%Q <-> exists n, (q == inject_Z n)%Q.
Proof.
  split.
  - intros H. exists (trunc q). symmetry. exact H.
  - intros [n Hn].
    assert (Ht : trunc q = n).
    { unfold trunc. unfold Qeq in Hn. simpl in Hn.
      rewrite Z.mul_1_r in Hn. rewrite Hn.
      apply Z.quot_mul. discriminate. }
    rewrite Ht. symmetry. exact Hn.
Qed.

(** X2.  A lock followed by its restore on the same page is a round trip
    for [position], [top], [left] and [height] of the body; it is none
    for [right], which is left at ['unset'] whatever it was; and the
    window is scrolled to the offsets of the lock without their fractions
    ([parseInt] drops them), which is the offset of the lock exactly when
    that offset is whole. *)
Theorem lock_restore_round_trip (i : nat) (w : World) (h : Hook) :
  nth_error (hooks w) i = Some h ->
  previousBodyPosition w = None ->
  isOpen h = true ->
  frames w = [] ->
  activeUrl h = href (window w) ->
  plain (scrollX (window w)) = true ->
  plain (scrollPos h) = true ->
  let w' := lock_and_restore i w in
  position (body w') = position (body w) /\
  top (body w') = top (body w) /\
  left (body w') = left (body w) /\
  height (body w') = height (body w) /\
  right (body w') = "unset" /\
  position_important (body w') = false /\
  previousBodyPosition w' = None /\
  scrolledTo w'
  = scrolledTo w ++ [(Some (trunc (scrollX (window w))), Some (trunc (scrollPos h)))] /\
  ((inject_Z (trunc (scrollPos h)) == scrollPos h)%Q
   <-> exists n, (scrollPos h == inject_Z n)%Q).
Proof.
  intros Hh Hp Ho Hf Hu _ _ w'.
  pose proof (lock_then_restore_scrolls_back i w h Hh Hp Ho Hf Hu) as Hscroll.
  unfold w', lock_and_restore in *.
  unfold setPositionFixed in *. rewrite Hh, Hp, Ho in *.
  unfold restorePositionSetting in *. simpl in *. rewrite Hh, Hf in *.
  unfold next_frame in *. simpl in *.
  rewrite Hu, String.eqb_refl in *. simpl in *.
  split; [reflexivity|]. split; [reflexivity|]. split; [reflexivity|].
  split; [reflexivity|]. split; [reflexivity|]. split; [reflexivity|].
  split; [reflexivity|]. split; [exact Hscroll|].
  apply trunc_exact.
Qed.

(** The drawer of the about page, created there and open. *)
Definition about_ready : World :=
  with_hooks (update_nth 0 (fun h => set_isOpen true (set_activeUrl about h))) on_about.

(** The same page on a screen with half pixels, scrolled by 120.5px. *)
Definition about_half : World := onScroll (241 # 2) about_ready.

Lemma lock_restore_round_trip_witness :
  top (body (setPositionFixed 0 about_half)) = "-120.5px" /\
  right (body (lock_and_restore 0 about_half)) = "unset" /\
  scrolledTo (lock_and_restore 0 about_half) = [(Some 0, Some 120)].
Proof.
  destruct (lock_restore_round_trip 0 about_half
              (mkHook true true false false about (241 # 2))
              eq_refl eq_refl eq_refl eq_refl eq_refl eq_refl eq_refl)
    as (_ & _ & _ & _ & Hr & _ & _ & Hs & _).
  split; [reflexivity|]. split; [exact Hr|exact Hs].
Defined.

(** X3.  The check of the bottom bar, which [setPositionFixed] schedules
    300 ms ahead: when the window height has changed by then and the
    page was scrolled by at least the old height, the body is moved up by
    the difference, and the restore then scrolls to the offset of the lock
    plus that difference, without its fraction; otherwise the check
    changes nothing. *)
Theorem bottom_bar_check (i : nat) (w : World) (h : Hook) (newHeight : Z) :
  nth_error (hooks w) i = Some h ->
  previousBodyPosition w = None ->
  isOpen h = true ->
  frames w = [] ->
  activeUrl h = href (window w) ->
  let check := BottomBar (scrollPos h) (innerHeight (window w)) in
  let locked := resize newHeight (setPositionFixed i w) in
  let bar := innerHeight (window w) - newHeight in
  In (RequestFrame check 300) (timers locked) /\
  (bar <> 0 -> (inject_Z (innerHeight (window w)) <= scrollPos h)%Q ->
     top (body (run_frame check locked)) = px (- (scrollPos h + inject_Z bar)) /\
     (plain (scrollX (window w)) = true ->
      plain (scrollPos h + inject_Z bar) = true ->
      scrolledTo (next_frame (restorePositionSetting i (run_frame check locked)))
      = scrolledTo w ++ [(Some (trunc (scrollX (window w))),
                          Some (trunc (scrollPos h + inject_Z bar)))])) /\
  (bar = 0 \/ (scrollPos h < inject_Z (innerHeight (window w)))%Q ->
     run_frame check locked = locked).
Proof.
  intros Hh Hp Ho Hf Hu check locked bar.
  unfold locked, check, setPositionFixed. rewrite Hh, Hp, Ho.
  split; [|split].
  - simpl. apply in_or_app. right. left. reflexivity.
  - intros Hbar Hscrolled.
    unfold run_frame, resize. simpl.
    fold bar.
    destruct (Z.eqb_spec bar 0) as [E|_]; [contradiction|].
    apply Qle_bool_iff in Hscrolled. rewrite Hscrolled.
    simpl. split; [reflexivity|].
    intros _ _.
    unfold restorePositionSetting. simpl. rewrite Hh, Hf.
    unfold next_frame. simpl.
    rewrite Hu, String.eqb_refl. simpl.
    rewrite !pinned_reads_back. reflexivity.
  - intros Hno.
    unfold run_frame, resize. simpl.
    fold bar.
    destruct (Z.eqb_spec bar 0) as [E|E]; [reflexivity|].
    destruct (Qle_bool (inject_Z (innerHeight (window w))) (scrollPos h)) eqn:L;
      [|reflexivity].
    apply Qle_bool_iff in L.
    destruct Hno as [Hz|Hlt]; [contradiction|].
    exfalso. exact (Qlt_not_le _ _ Hlt L).
Qed.

(** The page of [about_half], scrolled by 900.5px, with the bar taking 60
    of its 800px after the lock. *)
Definition about_far : World := onScroll (1801 # 2) about_ready.

Lemma bottom_bar_check_witness :
  top (body (run_frame (BottomBar (1801 # 2) 800)
                       (resize 740 (setPositionFixed 0 about_far)))) = "-960.5px" /\
  scrolledTo
    (next_frame (restorePositionSetting 0
       (run_frame (BottomBar (1801 # 2) 800) (resize 740 (setPositionFixed 0 about_far)))))
  = [(Some 0, Some 960)] /\
  run_frame (BottomBar (241 # 2) 800) (resize 740 (setPositionFixed 0 about_half))
  = resize 740 (setPositionFixed 0 about_half).
Proof.
  assert (Hfar : (inject_Z 800 <= 1801 # 2)%Q) by (apply Qle_bool_iff; reflexivity).
  assert (Hnear : (241 # 2 < inject_Z 800)%Q) by reflexivity.
  destruct (bottom_bar_check 0 about_far (mkHook true true false false about (1801 # 2)) 740
              eq_refl eq_refl eq_refl eq_refl eq_refl) as (_ & Hshift & _).
  destruct (bottom_bar_check 0 about_half (mkHook true true false false about (241 # 2)) 740
              eq_refl eq_refl eq_refl eq_refl eq_refl) as (_ & _ & Hsame).
  assert (Hbar : 800 - 740 <> 0) by discriminate.
  destruct (Hshift Hbar Hfar) as [Htop Hscroll].
  split; [exact Htop|].
  split; [exact (Hscroll eq_refl eq_refl)|].
  apply Hsame. right. exact Hnear.
Defined.




(** X5.  The lock has no owner: when another drawer (not nested, opened
    before) finishes closing, its restore writes the snapshot back and
    clears it, although the drawer that took the lock is still open. *)
Theorem lock_released_by_another_drawer
  (i j : nat) (w : World) (hi hj : Hook) (sn : Snapshot) :
  i <> j ->
  nth_error (hooks w) i = Some hi ->
  isOpen hi = true ->
  nth_error (hooks w) j = Some hj ->
  nested hj = false ->
  hasBeenOpened hj = true ->
  previousBodyPosition w = Some sn ->
  previousBodyPosition (closed j w) = None /\
  body (closed j w) = restored sn /\
  option_map isOpen (nth_error (hooks (closed j w)) i) = Some true.
Proof.
  intros Hij Hi Hoi Hj Hnj Hbj Hp.
  unfold closed, effect, with_hooks. simpl.
  rewrite nth_error_update_nth, Hj. simpl.
  rewrite Hnj, Hbj. simpl.
  unfold restorePositionSetting. simpl.
  rewrite nth_error_update_nth, Hj, Hp. simpl.
  split; [reflexivity|]. split; [reflexivity|].
  rewrite (nth_error_update_nth_other _ _ i j Hij), Hi. simpl.
  rewrite Hoi. reflexivity.
Qed.

(** Two drawers opened before; the first holds the lock, the second is
    open as well. *)
Definition both_open : World :=
  openDrawer 1 (openDrawer 0 (usePositionFixed false true false false on_about)).

Lemma lock_released_by_another_drawer_witness :
  previousBodyPosition both_open = Some (mkSnapshot "" "" "" "") /\
  previousBodyPosition (closed 1 both_open) = None /\
  option_map isOpen (nth_error (hooks (closed 1 both_open)) 0) = Some true.
Proof.
  split; [reflexivity|].
  destruct (lock_released_by_another_drawer 0 1 both_open
              (mkHook true true false true home 120)
              (mkHook true true false true about 120)
              (mkSnapshot "" "" "" ""))
    as (Hp & _ & Ho); try reflexivity.
  - discriminate.
  - split; [exact Hp|exact Ho].
Defined.

(** X6.  A nested drawer never touches the lock, and neither does the
    close of a drawer that was never opened: snapshot, body and what is
    scheduled stay as they are. *)
Theorem nested_drawer_leaves_the_lock (i : nat) (w : World) (h : Hook) :
  nth_error (hooks w) i = Some h ->
  (nested h = true ->
     previousBodyPosition (openDrawer i w) = previousBodyPosition w /\
     body (openDrawer i w) = body w /\
     timers (openDrawer i w) = timers w /\
     previousBodyPosition (closed i w) = previousBodyPosition w /\
     body (closed i w) = body w /\
     frames (closed i w) = frames w) /\
  (hasBeenOpened h = false ->
     previousBodyPosition (closed i w) = previousBodyPosition w /\
     body (closed i w) = body w /\
     frames (closed i w) = frames w).
Proof.
  intros Hh.
  split.
  - intros Hn.
    unfold openDrawer, closed, effect, with_hooks. simpl.
    rewrite !nth_error_update_nth, Hh. simpl.
    rewrite Hn. simpl. repeat split.
  - intros Hb.
    unfold closed, effect, with_hooks. simpl.
    rewrite !nth_error_update_nth, Hh. simpl.
    rewrite Hb, orb_true_r. simpl. repeat split.
Qed.

(** A nested drawer on top of the one that holds the lock. *)
Definition with_nested : World :=
  usePositionFixed false true true false locked_on_about.

Lemma nested_drawer_leaves_the_lock_witness :
  previousBodyPosition (closed 1 (openDrawer 1 with_nested))
  = previousBodyPosition with_nested /\
  body (openDrawer 1 with_nested) = body with_nested.
Proof.
  destruct (nested_drawer_leaves_the_lock 1 with_nested
              (mkHook false true true false about 120) eq_refl) as [Hnested _].
  destruct (Hnested eq_refl) as (_ & Hb & _).
  split; [reflexivity|exact Hb].
Defined.

(** X7.  A restore that finds the page at another URL than [activeUrl]
    scrolls nothing but takes the URL of the page, and that runs the
    effect of the hook again.  If the drawer is closed the body stays
    restored, and the next opening and close of the drawer on that page
    scrolls back to the offsets it pinned; if the drawer is open (and not
    nested) the body is pinned again at once, and the next restore scrolls
    back. *)
Theorem url_mismatch_heals (i : nat) (w : World) (h : Hook) (prev : Snapshot) :
  nth_error (hooks w) i = Some h ->
  previousBodyPosition w = Some prev ->
  frames w = [] ->
  activeUrl h <> href (window w) ->
  plain (scrollX (window w)) = true ->
  plain (scrollPos h) = true ->
  let w1 := next_frame (restorePositionSetting i w) in
  let back := (Some (trunc (scrollX (window w))), Some (trunc (scrollPos h))) in
  scrolledTo w1 = scrolledTo w /\
  option_map activeUrl (nth_error (hooks w1) i) = Some (href (window w)) /\
  (isOpen h = false ->
     previousBodyPosition w1 = None /\
     body w1 = restored prev /\
     (nested h = false ->
      scrolledTo (next_frame (closed i (openDrawer i w1))) = scrolledTo w ++ [back])) /\
  (isOpen h = true -> nested h = false -> hasBeenOpened h = true ->
     previousBodyPosition w1 = Some (snapshot_of (restored prev)) /\
     body w1 = pinned h w /\
     scrolledTo (next_frame (restorePositionSetting i w1)) = scrolledTo w ++ [back]).
Proof.
  intros Hh Hp Hf Hu _ _ w1 back.
  set (h1 := set_activeUrl (href (window w)) h).
  set (hooks1 := update_nth i (set_activeUrl (href (window w))) (hooks w)).
  set (w0 := mkWorld None (restored prev) (window w) hooks1 (timers w) [] (scrolledTo w)).
  assert (Hh1 : nth_error hooks1 i = Some h1).
  { unfold hooks1. rewrite nth_error_update_nth, Hh. reflexivity. }
  assert (Hw1 : w1 = effect i w0).
  { unfold w1, restorePositionSetting. rewrite Hh, Hp.
    unfold next_frame. simpl frames. rewrite Hf. simpl app. cbv iota.
    rewrite run_frame_mismatch by (simpl; congruence).
    cbv zeta. unfold with_hooks.
    cbn [hooks window previousBodyPosition body timers frames scrolledTo].
    rewrite Hh.
    destruct (String.eqb_spec (activeUrl h) (href (window w))) as [E|_];
      [contradiction|reflexivity]. }
  destruct (effect_frame i w0) as [Hs0 Hk0].
  split; [rewrite Hw1, Hs0; reflexivity|].
  split; [rewrite Hw1, Hk0; simpl; rewrite Hh1; reflexivity|].
  split.
  - intros Ho.
    assert (Hsame : w1 = w0).
    { rewrite Hw1. unfold effect. simpl hooks. rewrite Hh1. simpl.
      rewrite Ho.
      destruct (nested h || negb (hasBeenOpened h)); [reflexivity|].
      apply restore_unlocked. reflexivity. }
    rewrite Hsame.
    split; [reflexivity|]. split; [reflexivity|].
    intros Hn.
    unfold openDrawer, effect, with_hooks. simpl.
    rewrite nth_error_update_nth, Hh1. simpl. rewrite Hn. simpl.
    unfold setPositionFixed. simpl. rewrite nth_error_update_nth, Hh1. simpl.
    unfold closed, effect, with_hooks.
    destruct (modal h); simpl;
      rewrite !nth_error_update_nth, Hh1; simpl; rewrite Hn; simpl;
      unfold restorePositionSetting; simpl;
      rewrite !nth_error_update_nth, Hh1; simpl;
      unfold next_frame; simpl; rewrite String.eqb_refl; simpl;
      rewrite !pinned_reads_back; reflexivity.
  - intros Ho Hn Hb.
    assert (Hlocked : w1 = mkWorld (Some (snapshot_of (restored prev))) (pinned h w)
                             (window w) hooks1
                             (timers w
                              ++ [RequestFrame (BottomBar (scrollPos h) (innerHeight (window w))) 300]
                              ++ (if modal h then [] else [AutoRestore i 500]))
                             [] (scrolledTo w)).
    { rewrite Hw1. unfold effect. simpl hooks. rewrite Hh1. simpl.
      rewrite Hn, Hb, Ho. simpl.
      unfold setPositionFixed. simpl. rewrite Hh1. simpl. rewrite Ho.
      destruct (modal h); simpl; [reflexivity|].
      rewrite <- app_assoc. reflexivity. }
    rewrite Hlocked.
    split; [reflexivity|]. split; [reflexivity|].
    unfold restorePositionSetting. simpl. rewrite Hh1. simpl.
    unfold next_frame. simpl. rewrite String.eqb_refl. simpl.
    rewrite !pinned_reads_back. reflexivity.
Qed.

(** The drawer of [on_about] (its hook created on the home page) closes on
    the about page, where it was opened and the body was locked. *)
Definition closing_on_about : World :=
  with_hooks (update_nth 0 (set_isOpen false)) locked_on_about.

Lemma url_mismatch_heals_witness :
  (scrolledTo (next_frame (restorePositionSetting 0 closing_on_about)) = [] /\
   scrolledTo (next_frame (closed 0 (openDrawer 0
                 (next_frame (restorePositionSetting 0 closing_on_about)))))
   = [(Some 0, Some 120)]) /\
  (previousBodyPosition (next_frame (restorePositionSetting 0 locked_on_about))
   = Some (mkSnapshot "" "" "" "") /\
   top (body (next_frame (restorePositionSetting 0 locked_on_about))) = "-120px").
Proof.
  split.
  - destruct (url_mismatch_heals 0 closing_on_about
                (mkHook false true false true home 120) (mkSnapshot "" "" "" ""))
      as (H1 & _ & Hclosed & _); try reflexivity.
    + discriminate.
    + destruct (Hclosed eq_refl) as (_ & _ & Hback).
      split; [exact H1|exact (Hback eq_refl)].
  - destruct (url_mismatch_heals 0 locked_on_about
                (mkHook true true false true home 120) (mkSnapshot "" "" "" ""))
      as (_ & _ & _ & Hopen); try reflexivity.
    + discriminate.
    + destruct (Hopen eq_refl eq_refl eq_refl) as (Hp & Hb & _).
      split; [exact Hp|]. rewrite Hb. reflexivity.
Defined.

End LockFacts.

(** ** More on the pointer handlers: what a gesture can and cannot do *)

Module GestureFacts.
Import JsNum.
Import Gesture.
Local Open Scope string_scope.
Local Open Scope list_scope.
Local Open Scope Q_scope.

#[local] Arguments with_drag {S} f s.
#[local] Arguments set_snap {S} x s.
#[local] Arguments set_isClosing {S} b s.
#[local] Arguments same_but_prevented {S} s s'.
#[local] Arguments flagged_state {S} e velocity s.
#[local] Arguments ended_effects {S} e s.
#[local] Arguments run_engine_calls {S} engine TRANSITIONS_DURATION e calls s.
#[local] Arguments onSnapPointChange {S} engine e activeIndex s.

Section Facts.

Variable S : Type.
Variable engine : SnapEngine S.
Variable VELOCITY_THRESHOLD : Q.
Variable TRANSITIONS_DURATION : Q.

Local Abbreviation St := (State S).
Local Abbreviation release := (onRelease engine VELOCITY_THRESHOLD TRANSITIONS_DURATION).
Local Abbreviation close := (closeDrawer (S := S) TRANSITIONS_DURATION).

(** The pointer-moves of a gesture, with what they write. *)
Fixpoint drag_all (moves : list Env) (s : St) : St * list Effect :=
  match moves with
  | [] => (s, [])
  | e :: rest =>
      let (s1, effs1) := onDrag engine e s in
      let (s2, effs2) := drag_all rest s1 in
      (s2, effs1 ++ effs2)
  end.

(** A whole gesture: the press, the moves, the release. *)
Definition gesture (press : Env) (moves : list Env) (up : Env) (s : St)
  : St * list Effect :=
  let (s1, effs1) := onPress press s in
  let (s2, effs2) := drag_all moves s1 in
  let (s3, effs3) := release up s2 in
  (s3, effs1 ++ effs2 ++ effs3).

(** What a pointer-move leaves alone: everything but the permission
    flag, [lastTimeDragPrevented] and the state of the snap-point
    engine. *)
Definition same_gesture (s s' : St) : Prop :=
  options s' = options s /\ isOpen s' = isOpen s /\
  hasBeenOpened s' = hasBeenOpened s /\ visible s' = visible s /\
  openTime s' = openTime s /\ isClosing s' = isClosing s /\
  drawerRef s' = drawerRef s /\ overlayRef s' = overlayRef s /\
  touchendListeners s' = touchendListeners s /\
  isDragging (drag s') = isDragging (drag s) /\
  justReleased (drag s') = justReleased (drag s) /\
  pointerStartY (drag s') = pointerStartY (drag s) /\
  dragStartTime (drag s') = dragStartTime (drag s) /\
  dragEndTime (drag s') = dragEndTime (drag s) /\
  drawerHeightRef (drag s') = drawerHeightRef (drag s).

Lemma same_gesture_refl (s : St) : same_gesture s s.
Proof. repeat split. Qed.

Lemma same_gesture_trans (s1 s2 s3 : St) :
  same_gesture s1 s2 -> same_gesture s2 s3 -> same_gesture s1 s3.
Proof.
  unfold same_gesture.
  intros (A1 & A2 & A3 & A4 & A5 & A6 & A7 & A8 & A9 & A10 & A11 & A12 & A13 & A14 & A15)
         (B1 & B2 & B3 & B4 & B5 & B6 & B7 & B8 & B9 & B10 & B11 & B12 & B13 & B14 & B15).
  repeat split; congruence.
Qed.

Lemma same_but_prevented_gesture (s s' : St) :
  same_but_prevented s s' -> same_gesture s s'.
Proof.
  unfold same_but_prevented, same_gesture.
  intros (A1 & A2 & A3 & A4 & A5 & A6 & A7 & A8 & A9 & A10 & A11 & A12 & A13 & A14
          & A15 & A16 & A17).
  repeat split; assumption.
Qed.

Lemma onDrag_same_gesture (e : Env) (s : St) :
  same_gesture s (fst (onDrag engine e s)).
Proof.
  unfold onDrag.
  destruct (isDragging (drag s)).
  2:{ apply same_gesture_refl. }
  simpl negb. cbv iota.
  destruct (defined (snapPoints (options s)) && _ && negb (dismissible (options s))).
  { apply same_gesture_refl. }
  assert (Hgate : exists allowed s1,
            (if isAllowedToDrag (drag s) then (true, s)
             else shouldDrag e (chain_of (target e))
                    (negb (Qle_bool (pointerStartY (drag s) - screenY e) 0)) s)
            = (allowed, s1)
            /\ same_gesture s s1).
  { destruct (isAllowedToDrag (drag s)).
    - exists true, s. split; [reflexivity|apply same_gesture_refl].
    - pose proof (shouldDrag_same S e (chain_of (target e))
                    (negb (Qle_bool (pointerStartY (drag s) - screenY e) 0)) s) as Hs.
      destruct (shouldDrag _ _ _ s) as [ok s1].
      exists ok, s1. split; [reflexivity|].
      apply same_but_prevented_gesture. exact Hs. }
  destruct Hgate as (allowed & s1 & -> & Hsame).
  destruct allowed; simpl negb; cbv iota; [|exact Hsame].
  destruct (drawerRef s1); simpl negb; cbv iota; [|exact Hsame].
  assert (Hfinal : forall (x : St * list Effect),
            (fst x = with_drag (set_isAllowedToDrag true) s1 \/
             exists sn, fst x = set_snap sn (with_drag (set_isAllowedToDrag true) s1)) ->
            same_gesture s (fst x)).
  { intros x [Hx | [sn Hx]]; rewrite Hx;
      (apply (same_gesture_trans s s1); [exact Hsame|repeat split]). }
  destruct (defined (snapPoints (options s))).
  - destruct (onDragSnapPoints engine _ _) as [sn effs].
    repeat break_if; apply Hfinal; right; exists sn; reflexivity.
  - repeat break_if; apply Hfinal; left; reflexivity.
Qed.

Lemma drags_same_gesture (moves : list Env) (s : St) :
  same_gesture s (drags engine moves s).
Proof.
  revert s.
  induction moves as [|e moves IH]; intros s; simpl.
  - apply same_gesture_refl.
  - apply (same_gesture_trans s (fst (onDrag engine e s))).
    + apply onDrag_same_gesture.
    + apply IH.
Qed.

(** X8.  A pointer-move never opens or closes the drawer and never
    touches the data of the gesture (start height, start time, panel
    height, [isDragging], [justReleased]), the open time or the options:
    over any run of moves it changes at most the permission flag,
    [lastTimeDragPrevented] and the state of the snap-point engine. *)
Theorem moves_keep_the_gesture (moves : list Env) (s : St) :
  same_gesture s (drags engine moves s) /\
  (isAllowedToDrag (drag s) = true ->
   isAllowedToDrag (drag (drags engine moves s)) = true).
Proof.
  split.
  - apply drags_same_gesture.
  - intros Hon.
    destruct (drags_frame S engine moves s) as (_ & _ & Hkeep & _).
    exact (Hkeep Hon).
Qed.

(** The two guards of [onPress]. *)
Definition press_refused (e : Env) (s : St) : bool :=
  (negb (dismissible (options s)) && negb (defined (snapPoints (options s))))
  || (drawerRef s && negb (targetInDrawer e)).

Lemma onPress_refused (e : Env) (s : St) :
  press_refused e s = true -> onPress e s = (s, []).
Proof.
  unfold press_refused, onPress.
  destruct (negb (dismissible (options s)) && negb (defined (snapPoints (options s))));
    [reflexivity|].
  simpl. intros ->. reflexivity.
Qed.

Lemma onPress_accepted (e : Env) (s : St) :
  press_refused e s = false ->
  isDragging (drag (fst (onPress e s))) = true /\
  pointerStartY (drag (fst (onPress e s))) = screenY e /\
  dragStartTime (drag (fst (onPress e s))) = Some (now e) /\
  drawerHeightRef (drag (fst (onPress e s)))
  = (if drawerRef s then rectHeight e else 0) /\
  isAllowedToDrag (drag (fst (onPress e s))) = isAllowedToDrag (drag s).
Proof.
  unfold press_refused, onPress.
  destruct (negb (dismissible (options s)) && negb (defined (snapPoints (options s))));
    [intros H; discriminate H|].
  simpl. intros ->.
  destruct (isIOS e); simpl; repeat split.
Qed.

(** X9.  The velocity of a release is measured from the press to the
    release, whatever the pointer did in between: after an accepted press
    and any moves, [onRelease] still has the height and the time of the
    press, so its velocity is the distance between press and release
    over the time between them. *)
Theorem velocity_is_press_to_release (press : Env) (moves : list Env) (up : Env) (s : St) :
  press_refused press s = false ->
  let dragged := drags engine moves (fst (onPress press s)) in
  isDragging (drag dragged) = true /\
  dragStartTime (drag dragged) = Some (now press) /\
  distMoved_at up dragged = screenY press - screenY up /\
  velocity_at up dragged (now press)
  = div (Qabs (screenY press - screenY up)) (inject_Z (now up - now press)).
Proof.
  intros Hacc dragged.
  destruct (onPress_accepted press s Hacc) as (Hd & Hy & Ht & _ & _).
  destruct (drags_same_gesture moves (fst (onPress press s)))
    as (_ & _ & _ & _ & _ & _ & _ & _ & _ & Gd & _ & Gy & Gt & _).
  fold dragged in Gd, Gy, Gt.
  assert (Hdist : distMoved_at up dragged = screenY press - screenY up).
  { unfold distMoved_at. rewrite Gy, Hy. reflexivity. }
  split; [congruence|]. split; [congruence|]. split; [exact Hdist|].
  unfold velocity_at, velocity_of. rewrite Hdist. reflexivity.
Qed.

Lemma drag_all_idle (moves : list Env) (s : St) :
  isDragging (drag s) = false -> drag_all moves s = (s, []).
Proof.
  intros Hidle.
  induction moves as [|e moves IH]; simpl.
  - reflexivity.
  - unfold onDrag. rewrite Hidle. simpl. rewrite IH. reflexivity.
Qed.

Lemma onRelease_idle (e : Env) (s : St) :
  isDragging (drag s) = false \/ drawerRef s = false ->
  release e s = (s, []).
Proof.
  intros [H|H]; unfold onRelease; rewrite H; simpl.
  - reflexivity.
  - rewrite orb_true_r. reflexivity.
Qed.

(** X10.  A gesture whose press is refused (the drawer is not dismissible
    and has no snap points, or the target lies outside the bound panel)
    is inert: with no drag in progress before it, the press, any moves and
    the release change nothing and write nothing. *)
Theorem refused_press_makes_gesture_inert
  (press : Env) (moves : list Env) (up : Env) (s : St) :
  isDragging (drag s) = false ->
  press_refused press s = true ->
  gesture press moves up s = (s, []).
Proof.
  intros Hidle Hrefused.
  unfold gesture.
  rewrite (onPress_refused press s Hrefused).
  rewrite (drag_all_idle moves s Hidle).
  rewrite (onRelease_idle up s (or_introl Hidle)).
  reflexivity.
Qed.

(** X11.  A second release is a no-op: once [onRelease] has run, another
    one (a [pointercancel] after the [pointerup], say) changes nothing
    and writes nothing, until the next press. *)
Theorem second_release_does_nothing (e1 e2 : Env) (s : St) :
  release e2 (fst (release e1 s)) = (fst (release e1 s), []).
Proof.
  destruct (isDragging (drag s)) eqn:Hdrag.
  - destruct (drawerRef s) eqn:Href.
    + apply onRelease_idle. left.
      destruct (onRelease_at_rest S engine VELOCITY_THRESHOLD TRANSITIONS_DURATION
                  e1 s Hdrag Href) as [_ Hrest].
      exact Hrest.
    + rewrite (onRelease_idle e1 s (or_intror Href)). simpl.
      apply onRelease_idle. right. exact Href.
  - rewrite (onRelease_idle e1 s (or_introl Hdrag)). simpl.
    apply onRelease_idle. left. exact Hdrag.
Qed.

(** X12.  [closeDrawer] does not stack: while a close is in flight (and on
    a drawer without a bound panel) it does nothing, so a second call
    right after a first changes nothing and writes nothing: one
    animation, one [onClose], one pair of timers. *)
Theorem closeDrawer_does_not_stack (e1 e2 : Env) (s : St) :
  (isClosing s = true \/ drawerRef s = false -> close e1 s = (s, [])) /\
  close e2 (fst (close e1 s)) = (fst (close e1 s), []).
Proof.
  split.
  - intros [H|H]; unfold closeDrawer; rewrite H.
    + reflexivity.
    + destruct (isClosing s); reflexivity.
  - unfold closeDrawer at 2 3.
    destruct (isClosing s) eqn:Hc; simpl.
    + unfold closeDrawer. rewrite Hc. reflexivity.
    + destruct (drawerRef s) eqn:Href; simpl.
      * reflexivity.
      * unfold closeDrawer. rewrite Hc, Href. reflexivity.
Qed.

(** X13.  An upward release never closes: without snap points, a release
    past the guards with the pointer above where it was pressed resets
    the panel and reports [open = true], however fast it was. *)
Theorem upward_release_resets (e : Env) (s : St) (startTime : Z) :
  isDragging (drag s) = true ->
  drawerRef s = true ->
  snapPoints (options s) = None ->
  dragStartTime (drag s) = Some startTime ->
  permitted_at_release e s = true ->
  falsy (translateY e) = false ->
  0 < distMoved_at e s ->
  isClosing (fst (release e s)) = isClosing s /\
  isOpen (fst (release e s)) = isOpen s /\
  (exists before,
     snd (release e s) = before ++ resetDrawer e s ++ [CallOnRelease true]) /\
  ~ In CallOnClose (snd (release e s)) /\
  ~ In (CallOnRelease false) (snd (release e s)).
Proof.
  intros Hdrag Href Hsnap Hstart Hperm Hswipe Hup.
  rewrite (onRelease_decision S engine VELOCITY_THRESHOLD TRANSITIONS_DURATION
             e s startTime) by assumption.
  assert (Hnot : Qle_bool (distMoved_at e s) 0 = false).
  { destruct (Qle_bool (distMoved_at e s) 0) eqn:E; [|reflexivity].
    apply Qle_bool_iff in E. exfalso. exact (Qlt_not_le _ _ Hup E). }
  rewrite Hnot. simpl negb. cbv iota. simpl fst. simpl snd.
  rewrite resetDrawer_flagged.
  destruct (flagged_state_frame S e (velocity_at e s startTime) s)
    as (_ & _ & Hc & Hio & _ & _).
  split; [exact Hc|]. split; [exact Hio|].
  split; [eexists; reflexivity|].
  split.
  - intros H. apply in_app_or in H. destruct H as [H|H].
    + apply before_no_callback in H. destruct H as [H|[H|H]]; discriminate H.
    + apply in_app_or in H. destruct H as [H|H].
      * exact (resetDrawer_no_close S e s H).
      * simpl in H. destruct H as [H|[]]. discriminate H.
  - intros H. apply in_app_or in H. destruct H as [H|H].
    + apply before_no_callback in H. destruct H as [H|[H|H]]; discriminate H.
    + apply in_app_or in H. destruct H as [H|H].
      * exact (resetDrawer_no_callback S e s false H).
      * simpl in H. destruct H as [H|[]]. discriminate H.
Qed.

(** *** Releases with snap points *)

Lemma onSnapPointChange_frame (e : Env) (i : option Z) (s : St) :
  isClosing (onSnapPointChange engine e i s) = isClosing s /\
  drawerRef (onSnapPointChange engine e i s) = drawerRef s.
Proof.
  unfold onSnapPointChange. break_if; split; reflexivity.
Qed.

Lemma run_engine_calls_bound (e : Env) (calls : list EngineCall) (s : St) :
  drawerRef (fst (run_engine_calls engine TRANSITIONS_DURATION e calls s)) = drawerRef s /\
  (isClosing s = true ->
   isClosing (fst (run_engine_calls engine TRANSITIONS_DURATION e calls s)) = true).
Proof.
  revert s.
  induction calls as [|c calls IH]; intros s; simpl.
  - auto.
  - destruct c as [|i].
    + assert (Hclose : drawerRef (fst (close e s)) = drawerRef s /\
                       (isClosing s = true -> isClosing (fst (close e s)) = true)).
      { unfold closeDrawer.
        destruct (isClosing s) eqn:Hc; simpl; [auto|].
        destruct (drawerRef s) eqn:Hr; simpl; [|rewrite Hc]; auto. }
      destruct (close e s) as [s1 effs1]. simpl in Hclose.
      destruct (IH s1) as [I1 I2].
      destruct (run_engine_calls engine TRANSITIONS_DURATION e calls s1) as [s2 effs2].
      simpl in *. destruct Hclose as [C1 C2].
      split; [congruence|auto].
    + destruct (onSnapPointChange_frame e i s) as [F1 F2].
      destruct (IH (onSnapPointChange engine e i s)) as [I1 I2].
      split; [congruence|].
      intros H. apply I2. congruence.
Qed.

Lemma run_engine_calls_closes (e : Env) (calls : list EngineCall) (s : St) :
  drawerRef s = true ->
  In CallCloseDrawer calls ->
  isClosing (fst (run_engine_calls engine TRANSITIONS_DURATION e calls s)) = true.
Proof.
  revert s.
  induction calls as [|c calls IH]; intros s Href Hin; simpl.
  - destruct Hin.
  - destruct c as [|i].
    + destruct (closeDrawer_closing S TRANSITIONS_DURATION e s Href) as (Hc & _).
      destruct (close e s) as [s1 effs1]. simpl in Hc.
      destruct (run_engine_calls_bound e calls s1) as [_ Hkeep].
      destruct (run_engine_calls engine TRANSITIONS_DURATION e calls s1) as [s2 effs2].
      simpl in *. auto.
    + destruct Hin as [H|H]; [discriminate H|].
      apply IH; [|exact H].
      destruct (onSnapPointChange_frame e i s) as [_ F2]. congruence.
Qed.

(** What the engine answers to the release of [e] in the state [s]. *)
Definition engine_answer (e : Env) (s : St) (startTime : Z) : SnapRelease S :=
  onReleaseSnapPoints engine (snap s) (distMoved_at e s) (velocity_at e s startTime)
    (dismissible (options s)).

Lemma onRelease_with_snap_points (e : Env) (s : St) (startTime : Z) :
  isDragging (drag s) = true ->
  drawerRef s = true ->
  defined (snapPoints (options s)) = true ->
  dragStartTime (drag s) = Some startTime ->
  permitted_at_release e s = true ->
  falsy (translateY e) = false ->
  let v := velocity_at e s startTime in
  let r := engine_answer e s startTime in
  let after := run_engine_calls engine TRANSITIONS_DURATION e (snap_calls r)
                 (set_snap (snap_after r) (flagged_state e v s)) in
  release e s
  = (fst after,
     ended_effects e s ++ flagged_effects v ++ snap_effects r ++ snd after
     ++ [CallOnRelease true]).
Proof.
  intros Hdrag Href Hsnap Hstart Hperm Hswipe.
  cbv zeta.
  unfold onRelease.
  rewrite Hdrag, Href. simpl negb. simpl orb. cbv iota.
  assert (Hguard :
    (match target e with
     | Some el =>
         let (ok, s') := shouldDrag e el false (with_drag (released e) s) in
         (negb ok, s')
     | None => (false, with_drag (released e) s)
     end) = (false, with_drag (released e) s)).
  { unfold permitted_at_release in Hperm.
    destruct (target e) as [el|]; [|reflexivity].
    pose proof (shouldDrag_true_keeps S e el false _ Hperm) as Hkeep.
    destruct (shouldDrag e el false (with_drag (released e) s)) as [ok s'].
    simpl in Hperm, Hkeep. subst. reflexivity. }
  rewrite Hguard.
  rewrite Hswipe.
  assert (Hnan : match translateY e with Some x => isNaN x | None => false end = false).
  { destruct (translateY e) as [[a| | |]|]; try reflexivity; discriminate Hswipe. }
  rewrite Hnan. simpl orb. cbv iota.
  clear Hnan Hguard.
  change (dragStartTime (drag (with_drag (released e) s))) with (dragStartTime (drag s)).
  rewrite Hstart.
  change (pointerStartY (drag (with_drag (released e) s)) - screenY e)
    with (distMoved_at e s).
  change (velocity_of (distMoved_at e s) (now e - startTime))
    with (velocity_at e s startTime).
  unfold engine_answer, flagged_state, flagged_effects, ended_effects.
  destruct (gt (velocity_at e s startTime) 0.05);
    simpl options; rewrite Hsnap; cbv iota; simpl snap; simpl dismissible;
    match goal with
    | |- context [run_engine_calls ?a ?b ?c ?d ?x] =>
        destruct (run_engine_calls a b c d x) as [s4 called]
    end;
    simpl fst; simpl snd; rewrite <- !app_assoc; reflexivity.
Qed.

(** X14.  With snap points the release callback is always told
    [open = true]: past the guards [onRelease] hands the decision to the
    engine and then reports [true] as its last act, also when the engine
    closed the drawer ([closeDrawer] ran and a close is in flight). *)
Theorem snap_release_reports_open (e : Env) (s : St) (startTime : Z) :
  isDragging (drag s) = true ->
  drawerRef s = true ->
  defined (snapPoints (options s)) = true ->
  dragStartTime (drag s) = Some startTime ->
  permitted_at_release e s = true ->
  falsy (translateY e) = false ->
  (exists before, snd (release e s) = before ++ [CallOnRelease true]) /\
  (In CallCloseDrawer (snap_calls (engine_answer e s startTime)) ->
   isClosing (fst (release e s)) = true) /\
  isDragging (drag (fst (release e s))) = false.
Proof.
  intros Hdrag Href Hsnap Hstart Hperm Hswipe.
  rewrite (onRelease_with_snap_points e s startTime) by assumption.
  simpl fst. simpl snd.
  split; [|split].
  - eexists. rewrite !app_assoc. reflexivity.
  - intros Hin.
    apply run_engine_calls_closes; [|exact Hin].
    destruct (flagged_state_frame S e (velocity_at e s startTime) s) as (_ & Hd & _).
    simpl drawerRef. rewrite Hd. exact Href.
  - rewrite run_engine_calls_drag. simpl drag.
    destruct (flagged_state_frame S e (velocity_at e s startTime) s)
      as (_ & _ & _ & _ & Hdr & _).
    exact Hdr.
Qed.

(** X15.  The [justReleased] flag follows the velocity alone: past the
    guards a release faster than 0.05 px/ms sets it and schedules its
    expiry 200 ms ahead, with or without snap points and whatever the
    decision; a slower one leaves the flag as it was. *)
Theorem justReleased_follows_velocity (e : Env) (s : St) (startTime : Z) :
  isDragging (drag s) = true ->
  drawerRef s = true ->
  dragStartTime (drag s) = Some startTime ->
  permitted_at_release e s = true ->
  falsy (translateY e) = false ->
  let fast := gt (velocity_at e s startTime) 0.05 in
  justReleased (drag (fst (release e s)))
  = (if fast then true else justReleased (drag s)) /\
  (fast = true -> In (SetTimeout JustReleasedExpire 200) (snd (release e s))).
Proof.
  intros Hdrag Href Hstart Hperm Hswipe fast.
  assert (Hflag : justReleased (drag (flagged_state e (velocity_at e s startTime) s))
                  = (if fast then true else justReleased (drag s))).
  { unfold flagged_state, fast. destruct (gt (velocity_at e s startTime) 0.05); reflexivity. }
  assert (Hin : fast = true ->
                forall rest, In (SetTimeout JustReleasedExpire 200)
                               ((ended_effects e s
                                 ++ flagged_effects (velocity_at e s startTime)) ++ rest)).
  { intros Hf rest. apply in_or_app. left. apply in_or_app. right.
    unfold flagged_effects. unfold fast in Hf. rewrite Hf. left. reflexivity. }
  destruct (snapPoints (options s)) as [l|] eqn:Hsnap.
  - rewrite (onRelease_with_snap_points e s startTime); auto.
    2:{ rewrite Hsnap. reflexivity. }
    simpl fst. simpl snd.
    rewrite run_engine_calls_drag. simpl drag.
    split; [exact Hflag|].
    intros Hf. rewrite app_assoc. apply Hin. exact Hf.
  - rewrite (onRelease_decision S engine VELOCITY_THRESHOLD TRANSITIONS_DURATION
               e s startTime) by assumption.
    pose proof (closeDrawer_drag S TRANSITIONS_DURATION e
                  (flagged_state e (velocity_at e s startTime) s)) as Hclose.
    repeat break_if; simpl fst; simpl snd; try rewrite Hclose;
      (split; [exact Hflag|intros Hf; apply Hin; exact Hf]).
Qed.

(** *** The permission test *)

Definition scrollable (el : Element) : bool :=
  negb (Qle_bool (scrollHeight el) (clientHeight el)).
Definition off_top (el : Element) : bool :=
  negb (Qeq_bool (scrollTop el) 0).
Definition is_dialog (el : Element) : bool :=
  match role el with
  | Some r => String.eqb r "dialog"
  | None => false
  end.

(** The elements the loop of [shouldDrag] walks past: those that do not
    scroll, and those that scroll, are at their top and are no dialog. *)
Definition passed_over (el : Element) : bool :=
  negb (scrollable el) || (negb (off_top el) && negb (is_dialog el)).

Lemma climb_step (el : Element) (parents : list Element) :
  climb (el :: parents)
  = if scrollable el then
      if off_top el then NotAtTop
      else if is_dialog el then Dialog else climb parents
    else climb parents.
Proof.
  unfold scrollable, off_top, is_dialog. simpl.
  destruct (negb (Qle_bool (scrollHeight el) (clientHeight el))); [|reflexivity].
  destruct (negb (Qeq_bool (scrollTop el) 0)); [reflexivity|].
  destruct (role el) as [r|]; reflexivity.
Qed.

Lemma climb_passes (before rest : list Element) :
  forallb passed_over before = true -> climb (before ++ rest) = climb rest.
Proof.
  induction before as [|el before IH]; simpl app; intros H.
  - reflexivity.
  - simpl in H. apply andb_true_iff in H. destruct H as [Hel Hrest].
    rewrite climb_step. unfold passed_over in Hel.
    destruct (scrollable el); simpl in Hel.
    + apply andb_true_iff in Hel. destruct Hel as [Hs Hd].
      apply negb_true_iff in Hs. apply negb_true_iff in Hd.
      rewrite Hs, Hd. apply IH. exact Hrest.
    + apply IH. exact Hrest.
Qed.

Lemma climb_blocked (chain : list Element) :
  climb chain = NotAtTop ->
  existsb (fun el => scrollable el && off_top el) chain = true.
Proof.
  induction chain as [|el chain IH]; intros H.
  - discriminate H.
  - rewrite climb_step in H. simpl.
    destruct (scrollable el); simpl.
    + destruct (off_top el); simpl; [reflexivity|].
      destruct (is_dialog el); [discriminate H|]. apply IH. exact H.
    + apply IH. exact H.
Qed.

(** X16.  The walk up the DOM is decided by the first element that
    scrolls and is either scrolled (no drag) or a dialog at its top
    (drag): elements walked past do not count, ancestors above the
    deciding element are not looked at, and a refusal needs an element
    that scrolls and is scrolled somewhere in the chain. *)
Theorem climb_is_decided_by_the_first (before : list Element) (el : Element)
  (above : list Element) :
  forallb passed_over before = true ->
  (scrollable el = true -> off_top el = true ->
   climb (before ++ el :: above) = NotAtTop) /\
  (scrollable el = true -> off_top el = false -> is_dialog el = true ->
   climb (before ++ el :: above) = Dialog) /\
  climb (before ++ []) = NoneFound /\
  (forall chain, climb chain = NotAtTop ->
     existsb (fun x => scrollable x && off_top x) chain = true).
Proof.
  intros Hpassed.
  split; [|split; [|split]].
  - intros Hs Hd. rewrite (climb_passes before _ Hpassed), climb_step, Hs, Hd.
    reflexivity.
  - intros Hs Hd Hr. rewrite (climb_passes before _ Hpassed), climb_step, Hs, Hd, Hr.
    reflexivity.
  - rewrite (climb_passes before _ Hpassed). reflexivity.
  - exact climb_blocked.
Qed.

(** X17.  What [shouldDrag] decides and what it notes.  In the 500 ms
    after the opening it refuses and notes nothing.  When it permits, it
    changes nothing; when it refuses, it changes at most
    [lastTimeDragPrevented], to the time of the event.  A panel that is
    displaced downward is permitted outside that window whatever else
    holds (text selected, content scrolled).  And with the panel in its
    place, no text selected and outside the window, a pull upward is
    refused and noted. *)
Theorem shouldDrag_decides_and_notes
  (e : Env) (el : list Element) (down : bool) (s : St) :
  (opened_recently e s = true -> shouldDrag e el down s = (false, s)) /\
  (fst (shouldDrag e el down s) = true -> snd (shouldDrag e el down s) = s) /\
  (snd (shouldDrag e el down s) = s \/
   snd (shouldDrag e el down s)
   = with_drag (set_lastTimeDragPrevented (Some (now e))) s) /\
  (forall x, opened_recently e s = false -> drawerRef s = true ->
     translateY e = Some x -> gt x 0 = true ->
     shouldDrag e el down s = (true, s)) /\
  (opened_recently e s = false -> translateY e = Some (Fin 0) ->
   nonempty (highlightedText e) = false -> down = true ->
   shouldDrag e el down s
   = (false, with_drag (set_lastTimeDragPrevented (Some (now e))) s)).
Proof.
  split; [|split; [|split; [|split]]].
  - intros Hrecent. unfold shouldDrag. rewrite Hrecent. reflexivity.
  - apply shouldDrag_true_keeps.
  - apply shouldDrag_frame.
  - intros x Hrecent Href Hx Hpos.
    unfold shouldDrag. rewrite Hrecent, Href, Hx, Hpos. reflexivity.
  - intros Hrecent Hx Htext ->.
    unfold shouldDrag. rewrite Hrecent, Hx, Htext.
    destruct (drawerRef s); simpl;
      destruct (lastTimeDragPrevented (drag s)) as [t|]; simpl;
      try destruct (negb (Qle_bool _ _)); reflexivity.
Qed.

(** X18.  With the panel untransformed ([translateY] is [null]), no text
    selected, outside the window after the opening and the pointer not
    above its start, the permission test is the walk up the DOM: permitted
    unless the walk meets a scrolled element first. *)
Theorem shouldDrag_is_the_walk (e : Env) (el : list Element) (s : St) :
  opened_recently e s = false ->
  translateY e = None ->
  nonempty (highlightedText e) = false ->
  fst (shouldDrag e el false s)
  = match climb el with NotAtTop => false | _ => true end /\
  (forallb (fun x => negb (scrollable x && off_top x)) el = true ->
   shouldDrag e el false s = (true, s)).
Proof.
  intros Hrecent Hx Htext.
  assert (Hwalk : shouldDrag e el false s
                  = match climb el with
                    | NotAtTop =>
                        (false, with_drag (set_lastTimeDragPrevented (Some (now e))) s)
                    | _ => (true, s)
                    end).
  { unfold shouldDrag. rewrite Hrecent, Hx, Htext.
    destruct (drawerRef s); simpl;
      destruct (lastTimeDragPrevented (drag s)) as [t|]; simpl;
      try rewrite andb_false_r; reflexivity. }
  split.
  - rewrite Hwalk. destruct (climb el); reflexivity.
  - intros Hnone. rewrite Hwalk.
    destruct (climb el) eqn:Hc; try reflexivity.
    apply climb_blocked in Hc.
    exfalso.
    clear Hwalk.
    induction el as [|x el IH]; simpl in *; [discriminate Hc|].
    apply andb_true_iff in Hnone. destruct Hnone as [Hx0 Hrest].
    destruct (scrollable x && off_top x); simpl in *; [discriminate Hx0|].
    apply IH; assumption.
Qed.

(** *** A permitted drag without snap points *)

(** [draggedDistance] as [onDrag] computes it. *)
Definition draggedDistance_at (e : Env) (s : St) : Q := pointerStartY (drag s) - screenY e.

(** X19.  A permitted downward drag without snap points: the panel
    follows the pointer (it is translated by the distance dragged, as the
    last write), the drag callback gets the fraction [distance / panel
    height] and the backdrop gets the opacity [1 - fraction].  Nothing
    bounds the fraction: dragged further than the panel is high, the
    opacity written is negative. *)
Theorem downward_drag_follows_pointer (e : Env) (s : St) :
  isDragging (drag s) = true ->
  isAllowedToDrag (drag s) = true ->
  drawerRef s = true ->
  snapPoints (options s) = None ->
  getSnapPointsPercentageDragged engine (snap s) (Qabs (draggedDistance_at e s)) false
  = None ->
  shouldFade engine (snap s) = true ->
  draggedDistance_at e s <= 0 ->
  0 < drawerHeightRef (drag s) ->
  let distance := Qabs (draggedDistance_at e s) in
  let fraction := distance / drawerHeightRef (drag s) in
  In (CallOnDrag (Fin fraction)) (snd (onDrag engine e s)) /\
  In (SetStyle Overlay
        [("opacity", CssNumber (Fin (1 + - fraction))); ("transition", CssLit "none")]
        true)
     (snd (onDrag engine e s)) /\
  (exists before,
     snd (onDrag engine e s)
     = before ++ [SetStyle Drawer [("transform", Translate3dY (Fin distance))] false]) /\
  (drawerHeightRef (drag s) < distance -> 1 + - fraction < 0).
Proof.
  intros Hdrag Hallowed Href Hsnap Hpct Hfade Hdown Hheight distance fraction.
  assert (Hnotup : Qle_bool (draggedDistance_at e s) 0 = true)
    by (apply Qle_bool_iff; exact Hdown).
  assert (Hnz : Qeq_bool (drawerHeightRef (drag s)) 0 = false).
  { destruct (Qeq_bool (drawerHeightRef (drag s)) 0) eqn:E; [|reflexivity].
    apply Qeq_bool_iff in E. rewrite E in Hheight.
    exfalso. exact (Qlt_irrefl 0 Hheight). }
  assert (Heffs : snd (onDrag engine e s)
          = [ ClassAdd DRAG_CLASS;
              SetStyle Drawer [("transition", CssLit "none")] false;
              SetStyle Overlay [("transition", CssLit "none")] false ]
            ++ []
            ++ [ CallOnDrag (Fin fraction);
                 SetStyle Overlay
                   [ ("opacity", CssNumber (Fin (1 + - fraction)));
                     ("transition", CssLit "none") ] true ]
            ++ (if wrapper e && overlayRef s && shouldScaleBackground (options s) then
                  [ SetStyle Wrapper
                      [ ("borderRadius",
                         CssPx (sub (Fin 8) (mul (Fin fraction) (Fin 8))));
                        ("transform",
                         ScaleTranslate
                           (min (add (getScale e)
                                     (mul (Fin fraction) (sub (Fin 1) (getScale e))))
                                (Fin 1))
                           (max (Fin 0) (sub (Fin 14) (mul (Fin fraction) (Fin 14)))));
                        ("transition", CssLit "none") ] true ]
                else [])
            ++ [SetStyle Drawer [("transform", Translate3dY (Fin distance))] false]).
  { unfold onDrag.
    rewrite Hdrag, Hallowed, Hsnap. simpl negb. simpl defined. simpl andb. cbv iota.
    rewrite Href. simpl negb. cbv iota.
    fold (draggedDistance_at e s).
    rewrite Hnotup. simpl negb. simpl andb. cbv iota.
    simpl snap. rewrite Hpct, Hfade. simpl orb. cbv iota.
    simpl drag. simpl drawerHeightRef.
    unfold div. rewrite Hnz.
    simpl overlayRef. simpl snd.
    reflexivity. }
  rewrite Heffs.
  split; [|split; [|split]].
  - apply in_or_app. right. apply in_or_app. right. apply in_or_app. left.
    left. reflexivity.
  - apply in_or_app. right. apply in_or_app. right. apply in_or_app. left.
    right. left. reflexivity.
  - eexists. rewrite !app_assoc. reflexivity.
  - intros Hfar.
    assert (H1 : 1 < fraction).
    { unfold fraction. apply Qlt_shift_div_l; [exact Hheight|].
      rewrite Qmult_1_l. exact Hfar. }
    apply Qlt_minus_iff.
    apply Qlt_minus_iff in H1.
    setoid_replace (0 + - (1 + - fraction)) with (fraction + - (1)) by ring.
    exact H1.
Qed.

End Facts.

Arguments gesture {S} engine VELOCITY_THRESHOLD TRANSITIONS_DURATION press moves up s.
Arguments press_refused {S} e s.
Arguments engine_answer {S} engine e s startTime.
Arguments draggedDistance_at {S} e s.

(** *** Sample gestures *)

Definition press_at_300 : Env := pointer 1000 300 [plain] (Some (Fin 0)) 400.
Definition pressed : State unit := press0 open_idle press_at_300.

(** A drawer that is not dismissible and has no snap points. *)
Definition fixed_idle : State unit :=
  mkState (mkOpts false None None Options.CLOSE_THRESHOLD Options.SCROLL_LOCK_TIMEOUT true)
          (drag open_idle) true true true (Some 0%Z) false true true 0 tt.

(** A drag down by 10px (permitted), then up to 20px above the press:
    the dampened panel sits 8px above its place when the pointer is
    lifted. *)
Definition pulled_up : State unit :=
  drag0 (drag0 pressed move1) (pointer 1020 280 [plain] (Some (Fin 10)) 400).
Definition lift_above : Env := pointer 1030 280 [plain] (Some (Fin (-8))) 400.

(** A sample snap-point engine that answers every release by closing the
    drawer. *)
Definition closing_engine : SnapEngine unit := {|
  activeSnapPointIndex := fun _ => Some 1%Z;
  shouldFade := fun _ => false;
  snapPointsOffset_length := fun _ => 2%Z;
  getSnapPointsPercentageDragged := fun _ _ _ => None;
  onDragSnapPoints := fun x _ => (x, []);
  onReleaseSnapPoints := fun x _ _ _ => mkSnapRelease unit x [] [CallCloseDrawer]
|}.

(** A drawer with two snap points, pressed while it rests 200px down. *)
Definition snap_pressed : State unit :=
  press0 (mkState (mkOpts true (Some [Options.SnapNum 0.5; Options.SnapNum 1]) (Some 1%Z)
                          Options.CLOSE_THRESHOLD Options.SCROLL_LOCK_TIMEOUT true)
                  (drag open_idle) true true true (Some 0%Z) false true true 0 tt)
         (pointer 1000 300 [plain] (Some (Fin 200)) 400).
Definition snap_lift : Env := pointer 1100 340 [plain] (Some (Fin 240)) 400.

Lemma velocity_is_press_to_release_witness :
  velocity_at lift (drags no_snap_engine [move1; move2; move3] pressed) 1000
  = div (Qabs (300 - 330)) (inject_Z (1040 - 1000)).
Proof.
  destruct (velocity_is_press_to_release unit no_snap_engine press_at_300
              [move1; move2; move3] lift open_idle eq_refl)
    as (_ & _ & _ & Hv).
  exact Hv.
Defined.

Lemma refused_press_makes_gesture_inert_witness :
  gesture no_snap_engine sample_VELOCITY_THRESHOLD sample_DURATION
          press_at_300 [move1; move2] lift fixed_idle
  = (fixed_idle, []).
Proof.
  apply (refused_press_makes_gesture_inert unit no_snap_engine
           sample_VELOCITY_THRESHOLD sample_DURATION
           press_at_300 [move1; move2] lift fixed_idle).
  - reflexivity.
  - reflexivity.
Defined.

Lemma upward_release_resets_witness :
  isClosing (fst (release0 pulled_up lift_above)) = false /\
  ~ In (CallOnRelease false) (snd (release0 pulled_up lift_above)).
Proof.
  destruct (upward_release_resets unit no_snap_engine
              sample_VELOCITY_THRESHOLD sample_DURATION
              lift_above pulled_up 1000%Z
              eq_refl eq_refl eq_refl eq_refl eq_refl eq_refl eq_refl)
    as (Hc & _ & _ & _ & Hn).
  split; [exact Hc|exact Hn].
Defined.

Lemma snap_release_reports_open_witness :
  (exists before,
     snd (onRelease closing_engine sample_VELOCITY_THRESHOLD sample_DURATION
            snap_lift snap_pressed)
     = before ++ [CallOnRelease true]) /\
  isClosing (fst (onRelease closing_engine sample_VELOCITY_THRESHOLD sample_DURATION
                    snap_lift snap_pressed)) = true.
Proof.
  destruct (snap_release_reports_open unit closing_engine
              sample_VELOCITY_THRESHOLD sample_DURATION
              snap_lift snap_pressed 1000%Z
              eq_refl eq_refl eq_refl eq_refl eq_refl eq_refl)
    as (Hlast & Hclose & _).
  split; [exact Hlast|].
  apply Hclose. left. reflexivity.
Defined.

Lemma justReleased_follows_velocity_witness :
  justReleased (drag (fst (release0 flick_dragged flick_release))) = true /\
  justReleased (drag (fst (release0 (slow_dragged 99) (slow_release 99)))) = false.
Proof.
  split.
  - destruct (justReleased_follows_velocity unit no_snap_engine
                sample_VELOCITY_THRESHOLD sample_DURATION
                flick_release flick_dragged 1000%Z
                eq_refl eq_refl eq_refl eq_refl eq_refl) as [Hflag _].
    exact Hflag.
  - destruct (justReleased_follows_velocity unit no_snap_engine
                sample_VELOCITY_THRESHOLD sample_DURATION
                (slow_release 99) (slow_dragged 99) 1000%Z
                eq_refl eq_refl eq_refl eq_refl eq_refl) as [Hflag _].
    exact Hflag.
Defined.

Lemma climb_is_decided_by_the_first_witness :
  climb ([plain] ++ scrolled :: [mkElement 900 400 0 (Some "dialog")]) = NotAtTop /\
  climb ([plain] ++ mkElement 900 400 0 (Some "dialog") :: [scrolled]) = Dialog.
Proof.
  split.
  - destruct (climb_is_decided_by_the_first [plain] scrolled
                [mkElement 900 400 0 (Some "dialog")] eq_refl) as (H & _).
    apply H; reflexivity.
  - destruct (climb_is_decided_by_the_first [plain]
                (mkElement 900 400 0 (Some "dialog")) [scrolled] eq_refl)
      as (_ & H & _).
    apply H; reflexivity.
Defined.

Lemma shouldDrag_is_the_walk_witness :
  fst (shouldDrag (pointer 1010 310 [scrolled; plain] None 400) [scrolled; plain]
         false pressed) = false /\
  shouldDrag (pointer 1010 310 [plain] None 400) [plain] false pressed
  = (true, pressed).
Proof.
  split.
  - destruct (shouldDrag_is_the_walk unit (pointer 1010 310 [scrolled; plain] None 400)
                [scrolled; plain] pressed eq_refl eq_refl eq_refl) as [H _].
    exact H.
  - destruct (shouldDrag_is_the_walk unit (pointer 1010 310 [plain] None 400)
                [plain] pressed eq_refl eq_refl eq_refl) as [_ H].
    apply H. reflexivity.
Defined.

Lemma downward_drag_follows_pointer_witness :
  In (CallOnDrag (Fin (Qabs (300 - 320) / 400)))
     (snd (onDrag no_snap_engine move2 (drag0 pressed move1))).
Proof.
  assert (Hdown : draggedDistance_at move2 (drag0 pressed move1) <= 0)
    by (apply Qle_bool_iff; reflexivity).
  destruct (downward_drag_follows_pointer unit no_snap_engine move2 (drag0 pressed move1)
              eq_refl eq_refl eq_refl eq_refl eq_refl eq_refl Hdown eq_refl)
    as (H & _).
  exact H.
Defined.

End GestureFacts.

(** ** The keyboard monitor: [onVisualViewportChange] *)

Module Keyboard.
Local Open Scope list_scope.
Local Open Scope Q_scope.

(** The three stores of the monitor. *)
Record KeyboardState : Type := mkKeyboard {
  keyboardIsOpen : bool;
  initialDrawerHeight : Q;
  previousDiffFromInitial : Q
}.

(** What the handler reads when the visual viewport is resized: the
    panel and its rectangle, the focus, the two heights, and the values
    the effect was run with ([$snapPoints], [$snapPointsOffset],
    [$activeSnapPointIndex]) and [get(fixed)]. *)
Record Reading : Type := mkReading {
  drawerRef : bool;
    (** the panel element is bound *)
  focusIsInput : bool;
    (** [isInput(document.activeElement)] *)
  innerHeight : Q;
  visualViewportHeight : Q;
    (** [window.visualViewport?.height || 0] *)
  rectHeight : Q;
    (** [$drawerRef.getBoundingClientRect().height] *)
  rectTop : Q;
    (** [$drawerRef.getBoundingClientRect().top] *)
  snapPoints : option (list Options.SnapPoint);
  snapPointsOffset : list Q;
  activeSnapPointIndex : option Z;
  fixed : bool
}.

(** The two styles of the panel the handler writes, in pixels. *)
Inductive Write : Type :=
| SetHeight (px : Q)
    (** [$drawerRef.style.height = `${px}px`] *)
| SetBottom (px : Q)
    (** [$drawerRef.style.bottom = `${px}px`] *).

Definition WINDOW_TOP_OFFSET : Q := 26.

(** [$snapPoints && $snapPoints.length > 0] *)
Definition has_snap_points (r : Reading) : bool :=
  match snapPoints r with
  | Some (_ :: _) => true
  | _ => false
  end.

(** [$snapPoints && $snapPoints.length > 0 && $snapPointsOffset &&
    $activeSnapPointIndex]: an index that is [null] or [0] is falsy. *)
Definition has_active_offset (r : Reading) : bool :=
  has_snap_points r
  && match activeSnapPointIndex r with
     | Some i => negb (i =? 0)%Z
     | None => false
     end.

(** [$snapPointsOffset[$activeSnapPointIndex] || 0] *)
Definition activeSnapPointHeight (r : Reading) : Q :=
  match activeSnapPointIndex r with
  | Some i => if (i <? 0)%Z then 0 else nth (Z.to_nat i) (snapPointsOffset r) 0
  | None => 0
  end.

(** [window.innerHeight - visualViewportHeight]: the height of the
    keyboard. *)
Definition keyboardHeight (r : Reading) : Q := innerHeight r - visualViewportHeight r.

(** [diffFromInitial] once the offset of the active snap point is added. *)
Definition diffFromInitial (r : Reading) : Q :=
  if has_active_offset r then keyboardHeight r + activeSnapPointHeight r
  else keyboardHeight r.

(** [onVisualViewportChange] *)
Definition onVisualViewportChange (r : Reading) (k : KeyboardState)
  : KeyboardState * list Write :=
  if negb (drawerRef r) then (k, [])
  else if focusIsInput r || keyboardIsOpen k then
    let drawerHeight := rectHeight r in
    let initial' :=
      if Qeq_bool (initialDrawerHeight k) 0 then drawerHeight
      else initialDrawerHeight k in
    let toggled :=
      negb (Qle_bool (Qabs (previousDiffFromInitial k - keyboardHeight r)) 60) in
    let open' := if toggled then negb (keyboardIsOpen k) else keyboardIsOpen k in
    let diff := diffFromInitial r in
    let height :=
      if negb (Qle_bool drawerHeight (visualViewportHeight r)) || keyboardIsOpen k then
        let newDrawerHeight :=
          if negb (Qle_bool (rectHeight r) (visualViewportHeight r))
          then visualViewportHeight r - WINDOW_TOP_OFFSET
          else rectHeight r in
        if fixed r then rectHeight r - Qmax diff 0
        else Qmax newDrawerHeight (visualViewportHeight r - rectTop r)
      else initialDrawerHeight k in
    let bottom :=
      if has_snap_points r && negb (keyboardIsOpen k) then 0
      else Qmax diff 0 in
    (mkKeyboard open' initial' diff, [SetHeight height; SetBottom bottom])
  else (k, []).

(** A run of resize events. *)
Fixpoint resizes (rs : list Reading) (k : KeyboardState) : KeyboardState :=
  match rs with
  | [] => k
  | r :: rest => resizes rest (fst (onVisualViewportChange r k))
  end.

(** A reading the handler passes over whatever the keyboard flag was
    before, as long as it is off: no panel, or no input in focus. *)
Definition unfocused (r : Reading) : bool := negb (drawerRef r) || negb (focusIsInput r).

(** X20.  While no input has the focus (or no panel is bound) and the
    keyboard is taken as closed, resize events are ignored: over any run
    of them no store changes, so the keyboard flag can only go up on an
    event that finds an input in focus. *)
Theorem unfocused_resizes_are_ignored (rs : list Reading) (k : KeyboardState) :
  forallb unfocused rs = true ->
  keyboardIsOpen k = false ->
  resizes rs k = k /\
  (forall r, In r rs -> onVisualViewportChange r k = (k, [])).
Proof.
  intros Hrs Hk.
  assert (Hone : forall r, unfocused r = true -> onVisualViewportChange r k = (k, [])).
  { intros r Hr. unfold unfocused in Hr. unfold onVisualViewportChange.
    destruct (drawerRef r); simpl in *; [|reflexivity].
    apply negb_true_iff in Hr. rewrite Hr, Hk. reflexivity. }
  split.
  - induction rs as [|r rs IH]; simpl.
    + reflexivity.
    + simpl in Hrs. apply andb_true_iff in Hrs. destruct Hrs as [Hr Hrest].
      rewrite (Hone r Hr). simpl. apply IH. exact Hrest.
  - intros r Hin. apply Hone.
    rewrite forallb_forall in Hrs. apply Hrs. exact Hin.
Qed.

Lemma unfocused_resizes_are_ignored_witness :
  resizes [mkReading true false 800 500 600 200 None [] None false;
           mkReading false true 800 500 600 200 None [] None false]
          (mkKeyboard false 0 0)
  = mkKeyboard false 0 0.
Proof.
  apply (unfocused_resizes_are_ignored
           [mkReading true false 800 500 600 200 None [] None false;
            mkReading false true 800 500 600 200 None [] None false]
           (mkKeyboard false 0 0) eq_refl eq_refl).
Defined.

(** X21.  The bottom offset written to the panel is never negative,
    whatever the readings (a visual viewport taller than the window, a
    negative snap offset). *)
Theorem bottom_is_never_negative (r : Reading) (k : KeyboardState) (b : Q) :
  In (SetBottom b) (snd (onVisualViewportChange r k)) -> 0 <= b.
Proof.
  unfold onVisualViewportChange.
  destruct (negb (drawerRef r)); [intros []|].
  destruct (focusIsInput r || keyboardIsOpen k); [|intros []].
  simpl. intros [H|[H|[]]]; [discriminate H|].
  injection H as <-.
  destruct (has_snap_points r && negb (keyboardIsOpen k)).
  - apply Qle_refl.
  - apply Q.le_max_r.
Qed.

Lemma bottom_is_never_negative_witness :
  0 <= 0 /\
  In (SetBottom 0)
     (snd (onVisualViewportChange
             (mkReading true true 500 800 600 200 None [] None false)
             (mkKeyboard false 0 0))).
Proof.
  assert (Hin : In (SetBottom 0)
                   (snd (onVisualViewportChange
                           (mkReading true true 500 800 600 200 None [] None false)
                           (mkKeyboard false 0 0)))).
  { right. left. reflexivity. }
  split; [|exact Hin].
  exact (bottom_is_never_negative _ _ 0 Hin).
Defined.

(** An event the handler does handle. *)
Definition handled (r : Reading) (k : KeyboardState) : bool :=
  drawerRef r && (focusIsInput r || keyboardIsOpen k).

Lemma handled_result (r : Reading) (k : KeyboardState) :
  handled r k = true ->
  keyboardIsOpen (fst (onVisualViewportChange r k))
  = xorb (keyboardIsOpen k)
         (negb (Qle_bool (Qabs (previousDiffFromInitial k - keyboardHeight r)) 60)) /\
  previousDiffFromInitial (fst (onVisualViewportChange r k)) = diffFromInitial r /\
  initialDrawerHeight (fst (onVisualViewportChange r k))
  = (if Qeq_bool (initialDrawerHeight k) 0 then rectHeight r else initialDrawerHeight k).
Proof.
  unfold handled, onVisualViewportChange.
  intros H. apply andb_true_iff in H. destruct H as [Hd Hf].
  rewrite Hd, Hf. simpl.
  split; [|split; reflexivity].
  destruct (negb (Qle_bool _ 60)); destruct (keyboardIsOpen k); reflexivity.
Qed.

Lemma Qle_bool_ext (a b c : Q) : a == b -> Qle_bool a c = Qle_bool b c.
Proof.
  intros Hab.
  destruct (Qle_bool a c) eqn:Ea; destruct (Qle_bool b c) eqn:Eb; try reflexivity.
  - apply Qle_bool_iff in Ea. rewrite Hab in Ea. apply Qle_bool_iff in Ea. congruence.
  - apply Qle_bool_iff in Eb. rewrite <- Hab in Eb. apply Qle_bool_iff in Eb. congruence.
Qed.

(** What [diffFromInitial] adds to the height of the keyboard. *)
Definition added_offset (r : Reading) : Q :=
  if has_active_offset r then activeSnapPointHeight r else 0.

(** X22.  The keyboard flag flips exactly when the height of the
    keyboard differs by more than 60px from the stored difference; but
    the stored difference includes the offset of the active snap point.
    So the same reading handled a second time flips the flag again exactly
    when that offset is above 60px (in absolute value), and never without
    an active snap point. *)
Theorem keyboard_flag_flips (r : Reading) (k : KeyboardState) :
  drawerRef r = true ->
  focusIsInput r = true ->
  let k1 := fst (onVisualViewportChange r k) in
  let k2 := fst (onVisualViewportChange r k1) in
  keyboardIsOpen k1
  = xorb (keyboardIsOpen k)
         (negb (Qle_bool (Qabs (previousDiffFromInitial k - keyboardHeight r)) 60)) /\
  keyboardIsOpen k2
  = xorb (keyboardIsOpen k1) (negb (Qle_bool (Qabs (added_offset r)) 60)) /\
  (has_active_offset r = false -> keyboardIsOpen k2 = keyboardIsOpen k1).
Proof.
  intros Hd Hf k1 k2.
  assert (H1 : handled r k = true) by (unfold handled; rewrite Hd, Hf; reflexivity).
  assert (H2 : handled r k1 = true) by (unfold handled; rewrite Hd, Hf; reflexivity).
  destruct (handled_result r k H1) as (Hopen1 & Hprev1 & _).
  destruct (handled_result r k1 H2) as (Hopen2 & _ & _).
  fold k1 in Hopen1, Hprev1. fold k2 in Hopen2.
  assert (Hsame : previousDiffFromInitial k1 - keyboardHeight r == added_offset r).
  { rewrite Hprev1. unfold diffFromInitial, added_offset.
    destruct (has_active_offset r); ring. }
  assert (Hflip : keyboardIsOpen k2
                  = xorb (keyboardIsOpen k1)
                         (negb (Qle_bool (Qabs (added_offset r)) 60))).
  { rewrite Hopen2. f_equal. f_equal.
    apply Qle_bool_ext. rewrite Hsame. reflexivity. }
  split; [exact Hopen1|]. split; [exact Hflip|].
  intros Hno. rewrite Hflip. unfold added_offset. rewrite Hno.
  simpl. destruct (keyboardIsOpen k1); reflexivity.
Qed.

(** A keyboard of 300px comes up under a drawer resting at its second
    snap point, 200px down. *)
Definition keyboard_up_at_snap : Reading :=
  mkReading true true 800 500 600 200
            (Some [Options.SnapNum 0.5; Options.SnapNum 1]) [400; 200; 0] (Some 1%Z) false.

Lemma keyboard_flag_flips_witness :
  keyboardIsOpen (fst (onVisualViewportChange keyboard_up_at_snap (mkKeyboard false 0 0)))
  = true /\
  keyboardIsOpen
    (fst (onVisualViewportChange keyboard_up_at_snap
            (fst (onVisualViewportChange keyboard_up_at_snap (mkKeyboard false 0 0)))))
  = false.
Proof.
  destruct (keyboard_flag_flips keyboard_up_at_snap (mkKeyboard false 0 0)
              eq_refl eq_refl) as (H1 & H2 & _).
  split; [exact H1|exact H2].
Defined.

(** X23.  [initialDrawerHeight] is taken once: the first handled event
    that finds it at 0 stores the measured height of the panel, and once
    it is not 0 no run of events changes it. *)
Theorem initialDrawerHeight_is_taken_once (rs : list Reading) (r : Reading)
  (k : KeyboardState) :
  (handled r k = true -> initialDrawerHeight k == 0 ->
   initialDrawerHeight (fst (onVisualViewportChange r k)) = rectHeight r) /\
  (~ initialDrawerHeight k == 0 ->
   initialDrawerHeight (resizes rs k) = initialDrawerHeight k).
Proof.
  split.
  - intros Hh Hz.
    destruct (handled_result r k Hh) as (_ & _ & Hi).
    rewrite Hi. apply Qeq_bool_iff in Hz. rewrite Hz. reflexivity.
  - revert k.
    induction rs as [|r0 rs IH]; intros k Hnz; simpl.
    + reflexivity.
    + assert (Hstep : initialDrawerHeight (fst (onVisualViewportChange r0 k))
                      = initialDrawerHeight k).
      { destruct (handled r0 k) eqn:Hh.
        - destruct (handled_result r0 k Hh) as (_ & _ & Hi).
          rewrite Hi.
          destruct (Qeq_bool (initialDrawerHeight k) 0) eqn:E; [|reflexivity].
          apply Qeq_bool_iff in E. contradiction.
        - unfold handled in Hh. unfold onVisualViewportChange.
          destruct (drawerRef r0); simpl in *; [|reflexivity].
          rewrite Hh. reflexivity. }
      rewrite IH; rewrite Hstep; [reflexivity|exact Hnz].
Qed.

Lemma initialDrawerHeight_is_taken_once_witness :
  initialDrawerHeight
    (resizes [keyboard_up_at_snap;
              mkReading true true 800 800 450 350 None [] None false]
             (mkKeyboard false 0 0)) = 600.
Proof.
  destruct (initialDrawerHeight_is_taken_once
              [mkReading true true 800 800 450 350 None [] None false]
              keyboard_up_at_snap (mkKeyboard false 0 0)) as [Hfirst _].
  destruct (initialDrawerHeight_is_taken_once
              [mkReading true true 800 800 450 350 None [] None false]
              keyboard_up_at_snap
              (fst (onVisualViewportChange keyboard_up_at_snap (mkKeyboard false 0 0))))
    as [_ Hkeep].
  simpl resizes. simpl resizes in Hkeep.
  rewrite Hkeep.
  - apply Hfirst; reflexivity.
  - intros H. discriminate H.
Defined.

(** X24.  The height written to a panel that fits the visual viewport
    while the keyboard is taken as closed is the [initialDrawerHeight]
    read before the handler updates it: on the first handled event that is
    0, although the measured height is stored at the same time. *)
Theorem fitting_panel_gets_the_stale_height (r : Reading) (k : KeyboardState) :
  handled r k = true ->
  keyboardIsOpen k = false ->
  rectHeight r <= visualViewportHeight r ->
  (exists bottom,
     snd (onVisualViewportChange r k)
     = [SetHeight (initialDrawerHeight k); SetBottom bottom]) /\
  (initialDrawerHeight k == 0 ->
   initialDrawerHeight (fst (onVisualViewportChange r k)) = rectHeight r).
Proof.
  intros Hh Hk Hfit.
  split.
  - unfold handled in Hh. apply andb_true_iff in Hh. destruct Hh as [Hd Hf].
    unfold onVisualViewportChange. rewrite Hd, Hf, Hk. simpl.
    apply Qle_bool_iff in Hfit. rewrite Hfit. simpl.
    eexists. reflexivity.
  - intros Hz.
    destruct (handled_result r k Hh) as (_ & _ & Hi).
    rewrite Hi. apply Qeq_bool_iff in Hz. rewrite Hz. reflexivity.
Qed.

Lemma fitting_panel_gets_the_stale_height_witness :
  snd (onVisualViewportChange
         (mkReading true true 800 500 300 500 None [] None false) (mkKeyboard false 0 0))
  = [SetHeight 0; SetBottom 300].
Proof.
  assert (Hfit : 300 <= 500) by (apply Qle_bool_iff; reflexivity).
  destruct (fitting_panel_gets_the_stale_height
              (mkReading true true 800 500 300 500 None [] None false)
              (mkKeyboard false 0 0) eq_refl eq_refl Hfit) as [[bottom Hw] _].
  rewrite Hw. f_equal. f_equal.
  assert (Hb : In (SetBottom bottom)
                  (snd (onVisualViewportChange
                          (mkReading true true 800 500 300 500 None [] None false)
                          (mkKeyboard false 0 0)))).
  { rewrite Hw. right. left. reflexivity. }
  simpl in Hb. destruct Hb as [Hb|[Hb|[]]]; [discriminate Hb|].
  injection Hb as <-. reflexivity.
Defined.

(** X25.  The height written to a panel that is taller than the visual
    viewport, or while the keyboard is taken as open: in fixed mode the
    measured height less the (non-negative) difference, so never more than
    the measured height; otherwise at least the room between the top of
    the panel and the bottom of the visual viewport. *)
Theorem resized_panel_height (r : Reading) (k : KeyboardState) (h : Q) :
  handled r k = true ->
  visualViewportHeight r < rectHeight r \/ keyboardIsOpen k = true ->
  In (SetHeight h) (snd (onVisualViewportChange r k)) ->
  (fixed r = true -> h == rectHeight r - Qmax (diffFromInitial r) 0 /\ h <= rectHeight r) /\
  (fixed r = false -> visualViewportHeight r - rectTop r <= h).
Proof.
  intros Hh Hcase Hin.
  unfold handled in Hh. apply andb_true_iff in Hh. destruct Hh as [Hd Hf].
  unfold onVisualViewportChange in Hin. rewrite Hd, Hf in Hin. simpl in Hin.
  assert (Hbranch : negb (Qle_bool (rectHeight r) (visualViewportHeight r))
                    || keyboardIsOpen k = true).
  { destruct Hcase as [Htall | Hopen].
    - destruct (Qle_bool (rectHeight r) (visualViewportHeight r)) eqn:E; [|reflexivity].
      apply Qle_bool_iff in E. exfalso. exact (Qlt_not_le _ _ Htall E).
    - rewrite Hopen. apply orb_true_r. }
  rewrite Hbranch in Hin.
  destruct Hin as [Hin|[Hin|[]]]; [|discriminate Hin].
  injection Hin as <-.
  split.
  - intros Hfixed. rewrite Hfixed. split; [reflexivity|].
    assert (Hmax : 0 <= Qmax (diffFromInitial r) 0) by apply Q.le_max_r.
    apply Qle_minus_iff.
    setoid_replace (rectHeight r + - (rectHeight r - Qmax (diffFromInitial r) 0))
      with (Qmax (diffFromInitial r) 0) by ring.
    exact Hmax.
  - intros Hfixed. rewrite Hfixed. apply Q.le_max_r.
Qed.

Lemma resized_panel_height_witness :
  In (SetHeight (600 - Qmax (300 + 200) 0))
     (snd (onVisualViewportChange
             (mkReading true true 800 500 600 200
                        (Some [Options.SnapNum 0.5; Options.SnapNum 1]) [400; 200; 0]
                        (Some 1%Z) true)
             (mkKeyboard false 0 0))) /\
  600 - Qmax (300 + 200) 0 <= 600.
Proof.
  assert (Hin : In (SetHeight (600 - Qmax (300 + 200) 0))
     (snd (onVisualViewportChange
             (mkReading true true 800 500 600 200
                        (Some [Options.SnapNum 0.5; Options.SnapNum 1]) [400; 200; 0]
                        (Some 1%Z) true)
             (mkKeyboard false 0 0)))).
  { left. reflexivity. }
  split; [exact Hin|].
  assert (Htall : (500 < 600)%Q) by reflexivity.
  destruct (resized_panel_height
              (mkReading true true 800 500 600 200
                         (Some [Options.SnapNum 0.5; Options.SnapNum 1]) [400; 200; 0]
                         (Some 1%Z) true)
              (mkKeyboard false 0 0) (600 - Qmax (300 + 200) 0)
              eq_refl (or_introl Htall) Hin) as [Hfixed _].
  destruct (Hfixed eq_refl) as [_ Hle]. exact Hle.
Defined.

End Keyboard.

(** * Opening and closing

    [openDrawer] (lines 327 to 331) beside [closeDrawer] and the 300ms
    timer it starts.  The stores are those of [Gesture.State]; what their
    subscribers do when a store changes is outside these functions. *)

Module Lifecycle.
Import JsNum.
Import Gesture.
Local Open Scope list_scope.
Local Open Scope Q_scope.

Section Stores.

Variable S : Type.
Variable TRANSITIONS_DURATION : Q.

Local Abbreviation St := (State S).
Local Abbreviation close := (closeDrawer (S := S) TRANSITIONS_DURATION).

(** [openDrawer]:
    [if (isClosing) return; hasBeenOpened.set(true); isOpen.set(true)] *)
Definition openDrawer (s : St) : St :=
  if isClosing s then s
  else mkState (options s) (drag s) true true (visible s) (openTime s)
               (isClosing s) (drawerRef s) (overlayRef s)
               (touchendListeners s) (snap s).

(** The task [FinishClose] when its timer runs:
    [visible.set(false); isOpen.set(false); isClosing = false] *)
Definition finish_close (s : St) : St :=
  mkState (options s) (drag s) false (hasBeenOpened s) false (openTime s)
          false (drawerRef s) (overlayRef s) (touchendListeners s) (snap s).

(** A call of one of the two methods. *)
Inductive Call : Type :=
| Open
| Close (e : Env).

Fixpoint calls (cs : list Call) (s : St) : St * list Effect :=
  match cs with
  | [] => (s, [])
  | Open :: rest => calls rest (openDrawer s)
  | Close e :: rest =>
      let (s1, effs1) := close e s in
      let (s2, effs2) := calls rest s1 in
      (s2, effs1 ++ effs2)
  end.

Lemma calls_while_closing (cs : list Call) (s : St) :
  isClosing s = true -> calls cs s = (s, []).
Proof.
  intros Hc.
  induction cs as [|c cs IH]; simpl.
  - reflexivity.
  - destruct c as [|e].
    + unfold openDrawer. rewrite Hc. exact IH.
    + unfold closeDrawer. rewrite Hc. rewrite IH. reflexivity.
Qed.

(** X26.  Between [closeDrawer] and the run of its 300ms timer the
    drawer answers no call: any run of [openDrawer] and [closeDrawer]
    leaves the stores as they are and writes nothing, so a request to
    open made in that window is lost.  The timer then leaves the drawer
    closed and hidden, and [openDrawer] opens it again. *)
Theorem calls_are_dropped_while_closing (e : Env) (cs : list Call) (s : St) :
  drawerRef s = true ->
  isClosing s = false ->
  In (SetTimeout FinishClose 300) (snd (close e s)) /\
  calls cs (fst (close e s)) = (fst (close e s), []) /\
  isOpen (fst (calls cs (fst (close e s)))) = isOpen s /\
  isOpen (finish_close (fst (close e s))) = false /\
  visible (finish_close (fst (close e s))) = false /\
  isOpen (openDrawer (finish_close (fst (close e s)))) = true.
Proof.
  intros Href Hc.
  destruct (closeDrawer_closing S TRANSITIONS_DURATION e s Href) as (Hclosing & Heffs & _ & Hopen).
  assert (Hcalls : calls cs (fst (close e s)) = (fst (close e s), []))
    by (apply calls_while_closing; exact Hclosing).
  split.
  - rewrite Heffs, Hc. unfold close_sequence.
    apply in_or_app. right. apply in_or_app. right. left. reflexivity.
  - split; [exact Hcalls|].
    split; [rewrite Hcalls; exact Hopen|].
    split; [reflexivity|]. split; reflexivity.
Qed.

End Stores.

Arguments openDrawer {S} s.
Arguments finish_close {S} s.
Arguments calls {S} TRANSITIONS_DURATION cs s.

Lemma calls_are_dropped_while_closing_witness :
  calls sample_DURATION [Open; Close lift; Open]
        (fst (closeDrawer sample_DURATION lift open_idle))
  = (fst (closeDrawer sample_DURATION lift open_idle), []).
Proof.
  destruct (calls_are_dropped_while_closing unit sample_DURATION lift
              [Open; Close lift; Open] open_idle eq_refl eq_refl)
    as (_ & H & _).
  exact H.
Defined.

End Lifecycle.

(** * The drawer under a nested drawer

    [onNestedOpenChange], [onNestedDrag] and [onNestedRelease] (lines 832
    to 882): the handlers a drawer gives to the drawers nested in it.
    Widths and percentages are finite numbers, the window has a width
    other than 0 wherever a scale is read. *)

Module Nested.
Local Open Scope list_scope.
Local Open Scope Q_scope.

Definition NESTED_DISPLACEMENT : Q := 16.

(** What the handlers give to [set($drawerRef, ...)]:
    [transform: `scale(${scale}) translate3d(0, ${y}px, 0)`], with
    [transition] the eased transform or ['none']. *)
Record Style : Type := mkStyle {
  scale : Q;
  y : Q;
  eased : bool
}.

(** [const scale = o ? (window.innerWidth - NESTED_DISPLACEMENT) / window.innerWidth : 1] *)
Definition resting_scale (innerWidth : Q) (o : bool) : Q :=
  if o then (innerWidth - NESTED_DISPLACEMENT) / innerWidth else 1.

(** [const y = o ? -NESTED_DISPLACEMENT : 0] *)
Definition resting_y (o : bool) : Q :=
  if o then - NESTED_DISPLACEMENT else 0.

(** [onNestedDrag]: the style given to [set], if any. *)
Definition onNestedDrag (innerWidth percentageDragged : Q) : option Style :=
  if negb (Qle_bool 0 percentageDragged) then None
  else
    let initialScale := (innerWidth - NESTED_DISPLACEMENT) / innerWidth in
    let newScale := initialScale + percentageDragged * (1 - initialScale) in
    let newY := - NESTED_DISPLACEMENT + percentageDragged * NESTED_DISPLACEMENT in
    Some (mkStyle newScale newY false).

(** [onNestedRelease]: the style given to [set], if any. *)
Definition onNestedRelease (innerWidth : Q) (o : bool) : option Style :=
  if negb o then None
  else Some (mkStyle (resting_scale innerWidth o) (resting_y o) true).

(** The store [nestedOpenChangeTimer] and the timers of the window that
    are set and have neither run nor been cleared; [fresh] is the id the
    next [setTimeout] returns. *)
Record Timers : Type := mkTimers {
  nestedOpenChangeTimer : option positive;
  pending : list positive;
  fresh : positive
}.

(** [window.clearTimeout(id)] *)
Definition clearTimeout (id : positive) (l : list positive) : list positive :=
  filter (fun x => negb (Pos.eqb x id)) l.

(** [onNestedOpenChange(o)]: the timers after it, and the style given to
    [set]; [drawerRef] tells whether the panel is bound. *)
Definition onNestedOpenChange (innerWidth : Q) (drawerRef o : bool) (t : Timers)
  : Timers * Style :=
  let cleared :=
    match nestedOpenChangeTimer t with
    | Some id => clearTimeout id (pending t)
    | None => pending t
    end in
  let st := mkStyle (resting_scale innerWidth o) (resting_y o) true in
  if o && negb drawerRef then (mkTimers (nestedOpenChangeTimer t) cleared (fresh t), st)
  else (mkTimers (Some (fresh t)) (fresh t :: cleared) (Pos.succ (fresh t)), st).

(** What happens to the timers: a nested drawer opens or closes, or the
    window runs a timer. *)
Inductive Event : Type :=
| OpenChange (innerWidth : Q) (drawerRef o : bool)
| Fire (id : positive).

Definition step (ev : Event) (t : Timers) : Timers :=
  match ev with
  | OpenChange w d o => fst (onNestedOpenChange w d o t)
  | Fire id => mkTimers (nestedOpenChangeTimer t) (clearTimeout id (pending t)) (fresh t)
  end.

Fixpoint run (evs : list Event) (t : Timers) : Timers :=
  match evs with
  | [] => t
  | ev :: rest => run rest (step ev t)
  end.

(** No timer is pending but the one the store names. *)
Definition tidy (t : Timers) : Prop :=
  pending t = [] \/
  exists id, nestedOpenChangeTimer t = Some id /\ pending t = [id].

Definition no_timers : Timers := mkTimers None [] 1%positive.

Lemma clearTimeout_one (id id' : positive) :
  clearTimeout id [id'] = [] \/ clearTimeout id [id'] = [id'].
Proof.
  unfold clearTimeout. simpl.
  destruct (Pos.eqb id' id); simpl; auto.
Qed.

Lemma clearTimeout_same (id : positive) : clearTimeout id [id] = [].
Proof.
  unfold clearTimeout. simpl. rewrite Pos.eqb_refl. reflexivity.
Qed.

Lemma step_tidy (ev : Event) (t : Timers) : tidy t -> tidy (step ev t).
Proof.
  intros Ht.
  destruct ev as [w d o | id]; simpl.
  - assert (Hcleared :
      match nestedOpenChangeTimer t with
      | Some id => clearTimeout id (pending t)
      | None => pending t
      end = []).
    { destruct Ht as [Hp | (id & Hs & Hp)].
      - rewrite Hp. destruct (nestedOpenChangeTimer t); reflexivity.
      - rewrite Hs, Hp. apply clearTimeout_same. }
    unfold onNestedOpenChange. rewrite Hcleared.
    destruct (o && negb d); simpl.
    + left. reflexivity.
    + right. exists (fresh t). split; reflexivity.
  - destruct Ht as [Hp | (id' & Hs & Hp)].
    + left. simpl. rewrite Hp. reflexivity.
    + simpl. rewrite Hp.
      destruct (clearTimeout_one id id') as [E|E]; rewrite E.
      * left. reflexivity.
      * right. exists id'. split; [exact Hs|reflexivity].
Qed.

Lemma Qle_0_16 : 0 <= 16.
Proof. apply Qle_bool_iff. reflexivity. Qed.

Lemma resting_scale_le_1 (w : Q) : 0 < w -> (w - 16) / w <= 1.
Proof.
  intros Hw.
  apply Qle_shift_div_r; [exact Hw|].
  apply Qle_minus_iff.
  setoid_replace (1 * w + - (w - 16)) with 16 by ring.
  exact Qle_0_16.
Qed.

(** X27.  However a nested drawer is opened, closed and opened again,
    and whenever the window runs its timers, the drawer under it has at
    most one reset timer pending, the one its store names: a timer of an
    earlier change cannot cut the transition of a later one. *)
Theorem one_reset_timer_at_most (evs : list Event) (t : Timers) :
  tidy t ->
  tidy (run evs t) /\ (List.length (pending (run evs t)) <= 1)%nat.
Proof.
  intros Ht.
  assert (Hrun : tidy (run evs t)).
  { revert t Ht. induction evs as [|ev evs IH]; intros t Ht; simpl.
    - exact Ht.
    - apply IH. apply step_tidy. exact Ht. }
  split; [exact Hrun|].
  destruct Hrun as [Hp | (id & _ & Hp)]; rewrite Hp; simpl; lia.
Qed.

Lemma one_reset_timer_at_most_witness :
  (List.length
     (pending (run [OpenChange 400 true true; OpenChange 400 true false;
                    Fire 1; OpenChange 400 true true] no_timers)) <= 1)%nat.
Proof.
  destruct (one_reset_timer_at_most
              [OpenChange 400 true true; OpenChange 400 true false;
               Fire 1; OpenChange 400 true true] no_timers
              (or_introl eq_refl)) as [_ H].
  exact H.
Defined.

(** X28.  [onNestedDrag] moves the drawer between the two places
    [onNestedOpenChange] gives it: for a percentage from 0 to 1 the scale
    runs from that of an open nested drawer to 1 and the offset from
    -16px to 0, with the open style at 0 and the closed one at 1, and no
    transition; a negative percentage writes nothing. *)
Theorem onNestedDrag_interpolates (w p : Q) :
  (p < 0 -> onNestedDrag w p = None) /\
  (0 < w -> 0 <= p -> p <= 1 ->
   exists st,
     onNestedDrag w p = Some st /\ eased st = false /\
     resting_scale w true <= scale st /\ scale st <= resting_scale w false /\
     resting_y true <= y st /\ y st <= resting_y false /\
     (p == 0 -> scale st == resting_scale w true /\ y st == resting_y true) /\
     (p == 1 -> scale st == resting_scale w false /\ y st == resting_y false)).
Proof.
  split.
  - intros Hneg. unfold onNestedDrag.
    destruct (Qle_bool 0 p) eqn:E; [|reflexivity].
    apply Qle_bool_iff in E. exfalso. exact (Qlt_not_le _ _ Hneg E).
  - intros Hw Hp0 Hp1.
    unfold onNestedDrag.
    assert (E : Qle_bool 0 p = true) by (apply Qle_bool_iff; exact Hp0).
    rewrite E. simpl negb. cbv iota.
    eexists. split; [reflexivity|]. split; [reflexivity|].
    unfold resting_scale, resting_y, NESTED_DISPLACEMENT. simpl scale. simpl y.
    pose proof (resting_scale_le_1 w Hw) as Hs.
    set (s0 := (w - 16) / w) in *.
    assert (Hd : 0 <= 1 - s0).
    { apply Qle_minus_iff in Hs.
      setoid_replace (1 - s0) with (1 + - s0) by ring. exact Hs. }
    assert (Hq : 0 <= 1 - p).
    { apply Qle_minus_iff in Hp1.
      setoid_replace (1 - p) with (1 + - p) by ring. exact Hp1. }
    repeat split.
    + apply Qle_minus_iff.
      setoid_replace (s0 + p * (1 - s0) + - s0) with (p * (1 - s0)) by ring.
      apply Qmult_le_0_compat; assumption.
    + apply Qle_minus_iff.
      setoid_replace (1 + - (s0 + p * (1 - s0))) with ((1 - p) * (1 - s0)) by ring.
      apply Qmult_le_0_compat; assumption.
    + apply Qle_minus_iff.
      setoid_replace (- (16) + p * 16 + - - (16)) with (p * 16) by ring.
      apply Qmult_le_0_compat; [exact Hp0|exact Qle_0_16].
    + apply Qle_minus_iff.
      setoid_replace (0 + - (- (16) + p * 16)) with ((1 - p) * 16) by ring.
      apply Qmult_le_0_compat; [exact Hq|exact Qle_0_16].
    + rewrite H. ring.
    + rewrite H. ring.
    + rewrite H. ring.
    + rewrite H. ring.
Qed.

Lemma onNestedDrag_interpolates_witness :
  onNestedDrag 400 (1 # 2) = Some (mkStyle ((400 - 16) / 400 + (1 # 2) * (1 - (400 - 16) / 400))
                                          (- (16) + (1 # 2) * 16) false) /\
  (400 - 16) / 400 <= (400 - 16) / 400 + (1 # 2) * (1 - (400 - 16) / 400).
Proof.
  assert (Hw : 0 < 400) by reflexivity.
  assert (Hp0 : 0 <= 1 # 2) by (apply Qle_bool_iff; reflexivity).
  assert (Hp1 : 1 # 2 <= 1) by (apply Qle_bool_iff; reflexivity).
  destruct (onNestedDrag_interpolates 400 (1 # 2)) as [_ H].
  destruct (H Hw Hp0 Hp1) as (st & Hst & _ & Hlow & _).
  split; [reflexivity|].
  injection Hst as <-. exact Hlow.
Defined.

End Nested.

(** * The options of a drawer built with the Root component *)

Module RootFacts.
Import Options.

(** X29.  The Root component hands neither [dismissible] nor [fixed] to
    the drawer: whatever props its caller sets, the drawer starts as
    dismissible and with [fixed] undefined, while [modal] and [nested] are
    the caller's values or the defaults [true] and [false] of the
    component. *)
Theorem Root_leaves_dismissible_and_fixed (r : RootProps) :
  opt_dismissible (Root r) = Some true /\
  opt_fixed (Root r) = None /\
  opt_modal (Root r) = Some (export_let (root_modal r) true) /\
  opt_nested (Root r) = Some (export_let (root_nested r) false).
Proof.
  unfold Root, setCtx, createVaul. simpl.
  repeat split.
Qed.

End RootFacts.
